(** * The lqRRT replanning supervisor ([lqrrt_node.py])

    A shallow embedding of the [LQRRT_Node] class: the feasibility oracle,
    the SO(2) error, the boundary analysis of an occupancy image, the
    behaviour and exploration selection, one chaining iteration
    ([tree_chain]), the Move action callback ([move_cb]), the rotation
    move, the subscribers ([odom_cb], [ogrid_cb]) and the plan check
    ([reevaluate_plan]).

    Conventions of the embedding.
    - A Python float is a real number ([R]); [astype(np.int64)] and [int]
      truncate toward zero on the reals, without the 64-bit range.
    - A two-dimensional numpy array is an [ndarray]: its shape and its rows.
      Indexing follows numpy: a negative index counts from the end, an index
      outside [-n, n) raises [IndexError], a slice clamps.
    - The node's attributes are the fields of [Node]; an attribute that holds
      [None] is [None] here.  Python exceptions are the [Raised] outcome of
      the monad [M], which keeps the state reached when the exception left.
    - The [behaviors] module (parameters, planners, [gen_ss], the boat's
      [lqr] and [dynamics]), the ROS clock, scipy's [interp1d], OpenCV's
      [dilate] and the quaternion conversion are collaborators outside the
      file: they are the fields of the class [Collaborators].  [print]
      calls are left out.
    - The file is Python 2 ([xrange]): [None < x] is true for a number [x].
    - A method runs from its call to its return without another callback
      in between.  The timers [publish_ref] and [action_check] (which
      waits for another thread to finish) and the message packing helpers
      are not embedded. *)

From Stdlib Require Import String.
From Stdlib Require Import Reals Lra ZArith List Bool Lia.
Import ListNotations.

Set Implicit Arguments.

(* ================================================================== *)
(** * Part I: definitions *)
(* ================================================================== *)

(** ** numpy: numbers *)

Module np.

Local Open Scope R_scope.

(** [astype(np.int64)], [int(...)]: truncation toward zero. *)
Definition trunc (r : R) : Z :=
  if Rle_dec 0 r then Zfloor r else Zceil r.

(** [np.arctan2(y, x)], with the conventions of C's [atan2]. *)
Definition arctan2 (y x : R) : R :=
  if Rlt_dec 0 x then atan (y / x)
  else if Rlt_dec x 0 then
         (if Rle_dec 0 y then atan (y / x) + PI else atan (y / x) - PI)
  else if Rlt_dec 0 y then PI / 2
  else if Rlt_dec y 0 then - (PI / 2)
  else 0.

(** [npl.norm] of a 2-vector. *)
Definition norm (v : R * R) : R :=
  sqrt (fst v * fst v + snd v * snd v).

(** [np.clip(x, lo, hi)] = [minimum(maximum(x, lo), hi)]. *)
Definition clip (x lo hi : R) : R := Rmin (Rmax x lo) hi.

Definition ltb (a b : R) : bool := if Rlt_dec a b then true else false.
Definition leb (a b : R) : bool := if Rle_dec a b then true else false.
Definition eqb (a b : R) : bool := if Req_dec_T a b then true else false.

(** ** numpy: two-dimensional arrays *)

Record ndarray : Type := mk_ndarray {
  shape0 : nat;                 (* number of rows *)
  shape1 : nat;                 (* number of columns *)
  rows : list (list Z)
}.

(** The cell at row [r], column [c] (both already resolved). *)
Definition item (a : ndarray) (r c : nat) : Z :=
  nth c (nth r (rows a) []) 0%Z.

Definition tabulate (h w : nat) (f : nat -> nat -> Z) : ndarray :=
  {| shape0 := h; shape1 := w;
     rows := map (fun r => map (f r) (seq 0 w)) (seq 0 h) |}.

(** The shape agrees with the rows. *)
Definition wf (a : ndarray) : Prop :=
  length (rows a) = shape0 a /\
  Forall (fun row => length row = shape1 a) (rows a).

(** [a[i]] on an axis of length [n]: the resolved index, or [None] for
    numpy's [IndexError]. *)
Definition index (n : nat) (i : Z) : option nat :=
  if ((0 <=? i) && (i <? Z.of_nat n))%Z then Some (Z.to_nat i)
  else if ((- Z.of_nat n <=? i) && (i <? 0))%Z
       then Some (Z.to_nat (i + Z.of_nat n))
       else None.

(** [a[r, c]] *)
Definition getitem (a : ndarray) (r c : Z) : option Z :=
  match index (shape0 a) r, index (shape1 a) c with
  | Some r', Some c' => Some (item a r' c')
  | _, _ => None
  end.

(** One bound of a slice on an axis of length [n]. *)
Definition slice_bound (n : nat) (i : Z) : nat :=
  if (i <? 0)%Z then Z.to_nat (Z.max 0 (i + Z.of_nat n))
  else Z.to_nat (Z.min i (Z.of_nat n)).

(** The indices selected by [start:stop] on an axis of length [n]. *)
Definition slice (n : nat) (start stop : Z) : list nat :=
  let lo := slice_bound n start in
  let hi := slice_bound n stop in
  seq lo (hi - lo).

(** [a[rs, :][:, cs]] for resolved index lists: the sub-array. *)
Definition take (a : ndarray) (rs cs : list nat) : ndarray :=
  {| shape0 := length rs; shape1 := length cs;
     rows := map (fun r => map (fun c => item a r c) cs) rs |}.

(** [a[r0:r1, c0:c1]] *)
Definition crop (a : ndarray) (r0 r1 c0 c1 : Z) : ndarray :=
  take a (slice (shape0 a) r0 r1) (slice (shape1 a) c0 c1).

(** [a[rs, cs]] with index arrays: the cells at the paired indices, or
    [None] (IndexError) when one of them is out of bounds. *)
Fixpoint getitems (a : ndarray) (rcs : list (Z * Z)) : option (list Z) :=
  match rcs with
  | [] => Some []
  | (r, c) :: rest =>
      match getitem a r c, getitems a rest with
      | Some v, Some vs => Some (v :: vs)
      | _, _ => None
      end
  end.

(** [a[r0:r1, c]] *)
Definition column (a : ndarray) (r0 r1 c : Z) : option (list Z) :=
  match index (shape1 a) c with
  | Some c' => Some (map (fun r => item a r c') (slice (shape0 a) r0 r1))
  | None => None
  end.

(** [a[r, c0:c1]] *)
Definition row (a : ndarray) (r c0 c1 : Z) : option (list Z) :=
  match index (shape0 a) r with
  | Some r' => Some (map (fun c => item a r' c) (slice (shape1 a) c0 c1))
  | None => None
  end.

(** A cell-wise operation, as [k * np.equal(a, k)]. *)
Definition map_cells (f : Z -> Z) (a : ndarray) : ndarray :=
  {| shape0 := shape0 a; shape1 := shape1 a;
     rows := map (map f) (rows a) |}.

(** [np.any(a == v)] *)
Definition any_eq (a : ndarray) (v : Z) : bool :=
  existsb (fun row => existsb (Z.eqb v) row) (rows a).

(** [len(np.argwhere(a == v))] *)
Definition count_eq (a : ndarray) (v : Z) : nat :=
  list_sum (map (fun row => length (filter (Z.eqb v) row)) (rows a)).

(** [a.size] *)
Definition size (a : ndarray) : nat := (shape0 a * shape1 a)%nat.

(** [np.argwhere(np.equal(v, 255))] on a one-dimensional selection: the
    positions, within the selection, of the cells equal to [k]. *)
Definition argwhere_eq (cells : list Z) (k : Z) : list nat :=
  map fst (filter (fun ic => Z.eqb (snd ic) k)
                  (combine (seq 0 (length cells)) cells)).

End np.

(** ** OpenCV: the operations the node calls *)

Module cv2.

Import np.
Local Open Scope Z_scope.

(** A pixel as (row, column). *)
Definition Pixel : Type := (Z * Z)%type.

Definition inside (a : ndarray) (p : Pixel) : bool :=
  (0 <=? fst p) && (fst p <? Z.of_nat (shape0 a)) &&
  (0 <=? snd p) && (snd p <? Z.of_nat (shape1 a)).

Definition at_ (a : ndarray) (p : Pixel) : Z :=
  item a (Z.to_nat (fst p)) (Z.to_nat (snd p)).

Definition pixel_eqb (p q : Pixel) : bool :=
  (fst p =? fst q) && (snd p =? snd q).

Definition mem (p : Pixel) (l : list Pixel) : bool :=
  existsb (pixel_eqb p) l.

(** The four neighbours of a pixel (connectivity 4, OpenCV's default). *)
Definition neighbours (p : Pixel) : list Pixel :=
  [(fst p - 1, snd p); (fst p + 1, snd p);
   (fst p, snd p - 1); (fst p, snd p + 1)].

(** The flood: [mask] holds the pixels already taken, [work] the pixels
    still to look at; a pixel is taken when it is inside the image, holds
    the value [v] of the start pixel and is not in the mask (the zero
    [loDiff]/[upDiff] of the node's calls). *)
Fixpoint flood (fuel : nat) (a : ndarray) (v : Z)
         (mask work : list Pixel) : list Pixel :=
  match fuel with
  | O => mask
  | S fuel' =>
      match work with
      | [] => mask
      | p :: rest =>
          if inside a p && (at_ a p =? v) && negb (mem p mask)
          then flood fuel' a v (p :: mask) (neighbours p ++ rest)
          else flood fuel' a v mask rest
      end
  end.

(** The pixels a flood started at [p] fills. *)
Definition component (a : ndarray) (p : Pixel) : list Pixel :=
  flood (5 * (shape0 a * shape1 a) + 2) a (at_ a p) [] [p].

Definition paint (a : ndarray) (region : list Pixel) (newVal : Z) : ndarray :=
  tabulate (shape0 a) (shape1 a)
           (fun r c => if mem (Z.of_nat r, Z.of_nat c) region
                       then newVal else item a r c).

(** [cv2.floodFill(image, zeros, seedPoint, newVal)]: the image after the
    fill; [None] is OpenCV's error for a seed point outside the image.
    [seedPoint] is (x, y), that is (column, row). *)
Definition floodFill (image : ndarray) (seedPoint : Z * Z) (newVal : Z)
  : option ndarray :=
  let p : Pixel := (snd seedPoint, fst seedPoint) in
  if inside image p
  then Some (paint image (component image p) newVal)
  else None.

(** A pixel the flood for the value [v] may take. *)
Definition fillable (a : ndarray) (v : Z) (p : Pixel) : bool :=
  inside a p && (at_ a p =? v).

(** The pixels inside the image, each once. *)
Definition all_pixels (a : ndarray) : list Pixel :=
  list_prod (map Z.of_nat (seq 0 (shape0 a))) (map Z.of_nat (seq 0 (shape1 a))).

(** Every fillable neighbour of a taken pixel is taken or waits. *)
Definition closed_under (a : ndarray) (v : Z) (mask work : list Pixel) : Prop :=
  forall q, In q mask -> forall r, In r (neighbours q) ->
  fillable a v r = true -> In r mask \/ In r work.

(** What the flood is meant to compute: [q] is joined to [p] by a path of
    neighbouring pixels inside the image that all hold the value [v]. *)
Inductive connected (a : ndarray) (v : Z) (p : Pixel) : Pixel -> Prop :=
| connected_start :
    inside a p = true -> at_ a p = v -> connected a v p p
| connected_step (q r : Pixel) :
    connected a v p q -> In r (neighbours q) ->
    inside a r = true -> at_ a r = v -> connected a v p r.

(** A flood of [a] started at the pixel [start] reaches the pixel
    [target]; both are (x, y) tuples as the node passes them. *)
Definition flood_reaches (a : ndarray) (start target : Z * Z) : Prop :=
  connected a (at_ a (snd start, fst start))
            (snd start, fst start) (snd target, fst target).

(** An occupancy image: every cell is 0 (clear) or 255 (occupied). *)
Definition occupancy (a : ndarray) : Prop :=
  Forall (Forall (fun v => v = 0 \/ v = 255)) (rows a).

End cv2.

(** ** The data of the supervisor *)

Local Open Scope R_scope.

(** A state vector: pose [(x, y, heading)] and body velocities. *)
Record State : Type := mkState {
  sx : R; sy : R; sh : R; svx : R; svy : R; sw : R
}.

(** An effort vector: body forces and torque. *)
Record Effort : Type := mkEffort { fx : R; fy : R; tz : R }.

Definition zeros3 : Effort := mkEffort 0 0 0.

(** [x[:2]] *)
Definition xy (x : State) : R * R := (sx x, sy x).

(** [gs[:2] = p] *)
Definition set_xy (p : R * R) (x : State) : State :=
  mkState (fst p) (snd p) (sh x) (svx x) (svy x) (sw x).

Definition vsub (p q : R * R) : R * R := (fst p - fst q, snd p - snd q).
Definition vadd (p q : R * R) : R * R := (fst p + fst q, snd p + snd q).
Definition vscale (k : R) (p : R * R) : R * R := (k * fst p, k * snd p).
Definition vdiv (p : R * R) (k : R) : R * R := (fst p / k, snd p / k).

Inductive Behavior : Type := car | boat | escape.

Definition behavior_eqb (a b : Behavior) : bool :=
  match a, b with
  | car, car | boat, boat | escape, escape => true
  | _, _ => false
  end.

(** [self.behavior is b] *)
Definition behavior_is (o : option Behavior) (b : Behavior) : bool :=
  match o with Some a => behavior_eqb a b | None => false end.

Definition behaviors_list : list Behavior := [car; boat; escape].

(** A sample space [((xmin, xmax), (ymin, ymax))]. *)
Definition SampleSpace : Type := ((R * R) * (R * R))%type.

(** A goal bias: the number [0], or a list of six weights. *)
Inductive GoalBias : Type :=
| BiasScalar (b : R)
| BiasVector (bs : list R).

(** A planner's tree: its node count and its node states. *)
Record Tree : Type := mkTree { tree_size : Z; tree_state : list State }.

(** [time_till_issue]: a duration, or [np.inf]. *)
Inductive Time : Type :=
| Finite (t : R)
| Inf.

(** What [self.get_ref] can hold. *)
Inductive RefFn : Type :=
| RefGoal                                   (* [lambda t: self.goal] *)
| RefInterp (ts : list R) (xs : list State) (fill : State)   (* [interp1d] *)
| RefPlanner (b : Behavior)                 (* [b.planner.get_state] *)
| RefConst (x : State).                     (* [lambda t: remain] *)

(** What [self.get_eff] can hold. *)
Inductive EffFn : Type :=
| EffZeros                                  (* [lambda t: np.zeros(3)] *)
| EffInterp (ts : list R) (us : list Effort) (fill : Effort)
| EffPlanner (b : Behavior).                (* [b.planner.get_effort] *)

(** The occupancy grid as [ogrid_cb] stores it. *)
Record OGrid : Type := mkOGrid {
  cells : np.ndarray;          (* [self.ogrid] *)
  origin : R * R;              (* [self.ogrid_origin] *)
  cpm : R                      (* [self.ogrid_cpm], cells per meter *)
}.

(** [behaviors.params], as far as the node reads it. *)
Record Params : Type := mkParams {
  dt : R;
  basic_duration : R;
  pointshoot_tol : R;
  free_radius : R;
  real_tol : State;
  velmax_pos : R * R * R;
  stuck_threshold : Z;
  fudge_factor : R;
  FPR : R;
  ss_step : R;
  ss_start : R;
  boat_width : R;
  boat_length : R;
  vps : list (R * R);          (* the columns of the 2-by-N footprint array *)
  vps_spacing : R
}.

(** The attributes of [LQRRT_Node], in the order of [__init__] and [reset]. *)
Record Node : Type := mkNode {
  ogrid : option OGrid;
  ogrid_threshold : R;
  state : option State;
  tracking : option bool;
  busy : bool;
  done : bool;
  goal : option State;
  get_ref : option RefFn;
  get_eff : option EffFn;
  x_seq : option (list State);
  u_seq : option (list Effort);
  tree : option Tree;
  move_type : option string;
  behavior : option Behavior;
  enroute_behavior : option Behavior;
  goal_bias : option GoalBias;
  sample_space : option SampleSpace;
  guide : option State;
  stuck : bool;
  stuck_count : Z;
  last_update_time : option R;
  next_runtime : option R;
  next_seed : option State;
  time_till_issue : option Time;
  preempted : bool
}.

(** Attribute assignment: [with_f v n] is [n] after [self.f = v]. *)
Definition with_busy (v : bool) (n : Node) : Node :=
  {| ogrid := ogrid n; ogrid_threshold := ogrid_threshold n; state := state
  n; tracking := tracking n; busy := v; done := done n; goal := goal n;
  get_ref := get_ref n; get_eff := get_eff n; x_seq := x_seq n; u_seq :=
  u_seq n; tree := tree n; move_type := move_type n; behavior := behavior n;
  enroute_behavior := enroute_behavior n; goal_bias := goal_bias n;
  sample_space := sample_space n; guide := guide n; stuck := stuck n;
  stuck_count := stuck_count n; last_update_time := last_update_time n;
  next_runtime := next_runtime n; next_seed := next_seed n; time_till_issue
  := time_till_issue n; preempted := preempted n |}.
Definition with_done (v : bool) (n : Node) : Node :=
  {| ogrid := ogrid n; ogrid_threshold := ogrid_threshold n; state := state
  n; tracking := tracking n; busy := busy n; done := v; goal := goal n;
  get_ref := get_ref n; get_eff := get_eff n; x_seq := x_seq n; u_seq :=
  u_seq n; tree := tree n; move_type := move_type n; behavior := behavior n;
  enroute_behavior := enroute_behavior n; goal_bias := goal_bias n;
  sample_space := sample_space n; guide := guide n; stuck := stuck n;
  stuck_count := stuck_count n; last_update_time := last_update_time n;
  next_runtime := next_runtime n; next_seed := next_seed n; time_till_issue
  := time_till_issue n; preempted := preempted n |}.
Definition with_goal (v : option State) (n : Node) : Node :=
  {| ogrid := ogrid n; ogrid_threshold := ogrid_threshold n; state := state
  n; tracking := tracking n; busy := busy n; done := done n; goal := v;
  get_ref := get_ref n; get_eff := get_eff n; x_seq := x_seq n; u_seq :=
  u_seq n; tree := tree n; move_type := move_type n; behavior := behavior n;
  enroute_behavior := enroute_behavior n; goal_bias := goal_bias n;
  sample_space := sample_space n; guide := guide n; stuck := stuck n;
  stuck_count := stuck_count n; last_update_time := last_update_time n;
  next_runtime := next_runtime n; next_seed := next_seed n; time_till_issue
  := time_till_issue n; preempted := preempted n |}.
Definition with_get_ref (v : option RefFn) (n : Node) : Node :=
  {| ogrid := ogrid n; ogrid_threshold := ogrid_threshold n; state := state
  n; tracking := tracking n; busy := busy n; done := done n; goal := goal n;
  get_ref := v; get_eff := get_eff n; x_seq := x_seq n; u_seq := u_seq n;
  tree := tree n; move_type := move_type n; behavior := behavior n;
  enroute_behavior := enroute_behavior n; goal_bias := goal_bias n;
  sample_space := sample_space n; guide := guide n; stuck := stuck n;
  stuck_count := stuck_count n; last_update_time := last_update_time n;
  next_runtime := next_runtime n; next_seed := next_seed n; time_till_issue
  := time_till_issue n; preempted := preempted n |}.
Definition with_get_eff (v : option EffFn) (n : Node) : Node :=
  {| ogrid := ogrid n; ogrid_threshold := ogrid_threshold n; state := state
  n; tracking := tracking n; busy := busy n; done := done n; goal := goal n;
  get_ref := get_ref n; get_eff := v; x_seq := x_seq n; u_seq := u_seq n;
  tree := tree n; move_type := move_type n; behavior := behavior n;
  enroute_behavior := enroute_behavior n; goal_bias := goal_bias n;
  sample_space := sample_space n; guide := guide n; stuck := stuck n;
  stuck_count := stuck_count n; last_update_time := last_update_time n;
  next_runtime := next_runtime n; next_seed := next_seed n; time_till_issue
  := time_till_issue n; preempted := preempted n |}.
Definition with_x_seq (v : option (list State)) (n : Node) : Node :=
  {| ogrid := ogrid n; ogrid_threshold := ogrid_threshold n; state := state
  n; tracking := tracking n; busy := busy n; done := done n; goal := goal n;
  get_ref := get_ref n; get_eff := get_eff n; x_seq := v; u_seq := u_seq n;
  tree := tree n; move_type := move_type n; behavior := behavior n;
  enroute_behavior := enroute_behavior n; goal_bias := goal_bias n;
  sample_space := sample_space n; guide := guide n; stuck := stuck n;
  stuck_count := stuck_count n; last_update_time := last_update_time n;
  next_runtime := next_runtime n; next_seed := next_seed n; time_till_issue
  := time_till_issue n; preempted := preempted n |}.
Definition with_u_seq (v : option (list Effort)) (n : Node) : Node :=
  {| ogrid := ogrid n; ogrid_threshold := ogrid_threshold n; state := state
  n; tracking := tracking n; busy := busy n; done := done n; goal := goal n;
  get_ref := get_ref n; get_eff := get_eff n; x_seq := x_seq n; u_seq := v;
  tree := tree n; move_type := move_type n; behavior := behavior n;
  enroute_behavior := enroute_behavior n; goal_bias := goal_bias n;
  sample_space := sample_space n; guide := guide n; stuck := stuck n;
  stuck_count := stuck_count n; last_update_time := last_update_time n;
  next_runtime := next_runtime n; next_seed := next_seed n; time_till_issue
  := time_till_issue n; preempted := preempted n |}.
Definition with_tree (v : option Tree) (n : Node) : Node :=
  {| ogrid := ogrid n; ogrid_threshold := ogrid_threshold n; state := state
  n; tracking := tracking n; busy := busy n; done := done n; goal := goal n;
  get_ref := get_ref n; get_eff := get_eff n; x_seq := x_seq n; u_seq :=
  u_seq n; tree := v; move_type := move_type n; behavior := behavior n;
  enroute_behavior := enroute_behavior n; goal_bias := goal_bias n;
  sample_space := sample_space n; guide := guide n; stuck := stuck n;
  stuck_count := stuck_count n; last_update_time := last_update_time n;
  next_runtime := next_runtime n; next_seed := next_seed n; time_till_issue
  := time_till_issue n; preempted := preempted n |}.
Definition with_move_type (v : option string) (n : Node) : Node :=
  {| ogrid := ogrid n; ogrid_threshold := ogrid_threshold n; state := state
  n; tracking := tracking n; busy := busy n; done := done n; goal := goal n;
  get_ref := get_ref n; get_eff := get_eff n; x_seq := x_seq n; u_seq :=
  u_seq n; tree := tree n; move_type := v; behavior := behavior n;
  enroute_behavior := enroute_behavior n; goal_bias := goal_bias n;
  sample_space := sample_space n; guide := guide n; stuck := stuck n;
  stuck_count := stuck_count n; last_update_time := last_update_time n;
  next_runtime := next_runtime n; next_seed := next_seed n; time_till_issue
  := time_till_issue n; preempted := preempted n |}.
Definition with_behavior (v : option Behavior) (n : Node) : Node :=
  {| ogrid := ogrid n; ogrid_threshold := ogrid_threshold n; state := state
  n; tracking := tracking n; busy := busy n; done := done n; goal := goal n;
  get_ref := get_ref n; get_eff := get_eff n; x_seq := x_seq n; u_seq :=
  u_seq n; tree := tree n; move_type := move_type n; behavior := v;
  enroute_behavior := enroute_behavior n; goal_bias := goal_bias n;
  sample_space := sample_space n; guide := guide n; stuck := stuck n;
  stuck_count := stuck_count n; last_update_time := last_update_time n;
  next_runtime := next_runtime n; next_seed := next_seed n; time_till_issue
  := time_till_issue n; preempted := preempted n |}.
Definition with_enroute_behavior (v : option Behavior) (n : Node) : Node :=
  {| ogrid := ogrid n; ogrid_threshold := ogrid_threshold n; state := state
  n; tracking := tracking n; busy := busy n; done := done n; goal := goal n;
  get_ref := get_ref n; get_eff := get_eff n; x_seq := x_seq n; u_seq :=
  u_seq n; tree := tree n; move_type := move_type n; behavior := behavior n;
  enroute_behavior := v; goal_bias := goal_bias n; sample_space :=
  sample_space n; guide := guide n; stuck := stuck n; stuck_count :=
  stuck_count n; last_update_time := last_update_time n; next_runtime :=
  next_runtime n; next_seed := next_seed n; time_till_issue :=
  time_till_issue n; preempted := preempted n |}.
Definition with_goal_bias (v : option GoalBias) (n : Node) : Node :=
  {| ogrid := ogrid n; ogrid_threshold := ogrid_threshold n; state := state
  n; tracking := tracking n; busy := busy n; done := done n; goal := goal n;
  get_ref := get_ref n; get_eff := get_eff n; x_seq := x_seq n; u_seq :=
  u_seq n; tree := tree n; move_type := move_type n; behavior := behavior n;
  enroute_behavior := enroute_behavior n; goal_bias := v; sample_space :=
  sample_space n; guide := guide n; stuck := stuck n; stuck_count :=
  stuck_count n; last_update_time := last_update_time n; next_runtime :=
  next_runtime n; next_seed := next_seed n; time_till_issue :=
  time_till_issue n; preempted := preempted n |}.
Definition with_sample_space (v : option SampleSpace) (n : Node) : Node :=
  {| ogrid := ogrid n; ogrid_threshold := ogrid_threshold n; state := state
  n; tracking := tracking n; busy := busy n; done := done n; goal := goal n;
  get_ref := get_ref n; get_eff := get_eff n; x_seq := x_seq n; u_seq :=
  u_seq n; tree := tree n; move_type := move_type n; behavior := behavior n;
  enroute_behavior := enroute_behavior n; goal_bias := goal_bias n;
  sample_space := v; guide := guide n; stuck := stuck n; stuck_count :=
  stuck_count n; last_update_time := last_update_time n; next_runtime :=
  next_runtime n; next_seed := next_seed n; time_till_issue :=
  time_till_issue n; preempted := preempted n |}.
Definition with_guide (v : option State) (n : Node) : Node :=
  {| ogrid := ogrid n; ogrid_threshold := ogrid_threshold n; state := state
  n; tracking := tracking n; busy := busy n; done := done n; goal := goal n;
  get_ref := get_ref n; get_eff := get_eff n; x_seq := x_seq n; u_seq :=
  u_seq n; tree := tree n; move_type := move_type n; behavior := behavior n;
  enroute_behavior := enroute_behavior n; goal_bias := goal_bias n;
  sample_space := sample_space n; guide := v; stuck := stuck n; stuck_count
  := stuck_count n; last_update_time := last_update_time n; next_runtime :=
  next_runtime n; next_seed := next_seed n; time_till_issue :=
  time_till_issue n; preempted := preempted n |}.
Definition with_stuck (v : bool) (n : Node) : Node :=
  {| ogrid := ogrid n; ogrid_threshold := ogrid_threshold n; state := state
  n; tracking := tracking n; busy := busy n; done := done n; goal := goal n;
  get_ref := get_ref n; get_eff := get_eff n; x_seq := x_seq n; u_seq :=
  u_seq n; tree := tree n; move_type := move_type n; behavior := behavior n;
  enroute_behavior := enroute_behavior n; goal_bias := goal_bias n;
  sample_space := sample_space n; guide := guide n; stuck := v; stuck_count
  := stuck_count n; last_update_time := last_update_time n; next_runtime :=
  next_runtime n; next_seed := next_seed n; time_till_issue :=
  time_till_issue n; preempted := preempted n |}.
Definition with_stuck_count (v : Z) (n : Node) : Node :=
  {| ogrid := ogrid n; ogrid_threshold := ogrid_threshold n; state := state
  n; tracking := tracking n; busy := busy n; done := done n; goal := goal n;
  get_ref := get_ref n; get_eff := get_eff n; x_seq := x_seq n; u_seq :=
  u_seq n; tree := tree n; move_type := move_type n; behavior := behavior n;
  enroute_behavior := enroute_behavior n; goal_bias := goal_bias n;
  sample_space := sample_space n; guide := guide n; stuck := stuck n;
  stuck_count := v; last_update_time := last_update_time n; next_runtime :=
  next_runtime n; next_seed := next_seed n; time_till_issue :=
  time_till_issue n; preempted := preempted n |}.
Definition with_last_update_time (v : option R) (n : Node) : Node :=
  {| ogrid := ogrid n; ogrid_threshold := ogrid_threshold n; state := state
  n; tracking := tracking n; busy := busy n; done := done n; goal := goal n;
  get_ref := get_ref n; get_eff := get_eff n; x_seq := x_seq n; u_seq :=
  u_seq n; tree := tree n; move_type := move_type n; behavior := behavior n;
  enroute_behavior := enroute_behavior n; goal_bias := goal_bias n;
  sample_space := sample_space n; guide := guide n; stuck := stuck n;
  stuck_count := stuck_count n; last_update_time := v; next_runtime :=
  next_runtime n; next_seed := next_seed n; time_till_issue :=
  time_till_issue n; preempted := preempted n |}.
Definition with_next_runtime (v : option R) (n : Node) : Node :=
  {| ogrid := ogrid n; ogrid_threshold := ogrid_threshold n; state := state
  n; tracking := tracking n; busy := busy n; done := done n; goal := goal n;
  get_ref := get_ref n; get_eff := get_eff n; x_seq := x_seq n; u_seq :=
  u_seq n; tree := tree n; move_type := move_type n; behavior := behavior n;
  enroute_behavior := enroute_behavior n; goal_bias := goal_bias n;
  sample_space := sample_space n; guide := guide n; stuck := stuck n;
  stuck_count := stuck_count n; last_update_time := last_update_time n;
  next_runtime := v; next_seed := next_seed n; time_till_issue :=
  time_till_issue n; preempted := preempted n |}.
Definition with_next_seed (v : option State) (n : Node) : Node :=
  {| ogrid := ogrid n; ogrid_threshold := ogrid_threshold n; state := state
  n; tracking := tracking n; busy := busy n; done := done n; goal := goal n;
  get_ref := get_ref n; get_eff := get_eff n; x_seq := x_seq n; u_seq :=
  u_seq n; tree := tree n; move_type := move_type n; behavior := behavior n;
  enroute_behavior := enroute_behavior n; goal_bias := goal_bias n;
  sample_space := sample_space n; guide := guide n; stuck := stuck n;
  stuck_count := stuck_count n; last_update_time := last_update_time n;
  next_runtime := next_runtime n; next_seed := v; time_till_issue :=
  time_till_issue n; preempted := preempted n |}.
Definition with_time_till_issue (v : option Time) (n : Node) : Node :=
  {| ogrid := ogrid n; ogrid_threshold := ogrid_threshold n; state := state
  n; tracking := tracking n; busy := busy n; done := done n; goal := goal n;
  get_ref := get_ref n; get_eff := get_eff n; x_seq := x_seq n; u_seq :=
  u_seq n; tree := tree n; move_type := move_type n; behavior := behavior n;
  enroute_behavior := enroute_behavior n; goal_bias := goal_bias n;
  sample_space := sample_space n; guide := guide n; stuck := stuck n;
  stuck_count := stuck_count n; last_update_time := last_update_time n;
  next_runtime := next_runtime n; next_seed := next_seed n; time_till_issue
  := v; preempted := preempted n |}.
Definition with_preempted (v : bool) (n : Node) : Node :=
  {| ogrid := ogrid n; ogrid_threshold := ogrid_threshold n; state := state
  n; tracking := tracking n; busy := busy n; done := done n; goal := goal n;
  get_ref := get_ref n; get_eff := get_eff n; x_seq := x_seq n; u_seq :=
  u_seq n; tree := tree n; move_type := move_type n; behavior := behavior n;
  enroute_behavior := enroute_behavior n; goal_bias := goal_bias n;
  sample_space := sample_space n; guide := guide n; stuck := stuck n;
  stuck_count := stuck_count n; last_update_time := last_update_time n;
  next_runtime := next_runtime n; next_seed := next_seed n; time_till_issue
  := time_till_issue n; preempted := v |}.

(** The Move request, with its goal pose already a position and a
    quaternion. *)
Record Quaternion : Type := mkQuat { qx : R; qy : R; qz : R; qw : R }.
Record Pose : Type := mkPose { pos_x : R; pos_y : R; orientation : Quaternion }.
Record MoveGoal : Type := mkMove {
  msg_goal : Pose;
  msg_move_type : string;
  msg_focus : R * R * R
}.

(** What the node sends out: the results of the action server and the
    messages of its publishers. *)
Inductive Event : Type :=
| Aborted (code : string)        (* [move_server.set_aborted(MoveResult(code))] *)
| Succeeded                      (* [move_server.set_succeeded(MoveResult())] *)
| Preempted                      (* [move_server.set_preempted()] *)
| GoalPub (x : State)
| FocusPub (p : R * R)
| TreePub (poses : list State)
| PathPub (poses : list State)
| SampspacePub (ss : SampleSpace)
| GuidePub (p : R * R).

(** The Python exceptions that can leave the modelled methods;
    [OutOfFuel] marks a loop that did not end within the fuel given. *)
Inductive Exn : Type :=
| TypeError | ValueError | IndexError | NameError | UnboundLocalError
| AttributeError | AssertionError | cv2_error | OutOfFuel.

(** ** The collaborators outside the file *)

(** What the node imports or is given: the [behaviors] module with its
    parameters and planners, the ROS clock and shutdown flag, scipy's
    interpolation and the quaternion conversion.  [Store] is the mutable
    state of the [behaviors] module: the three planners and [boat.focus].
    [cv2_bound] says whether the global name [cv2] resolves when a method
    reaches it: the file calls [cv2.dilate] and [cv2.floodFill] and has no
    import of [cv2].  The flood fill is modelled in [cv2.floodFill]; the
    dilation is a collaborator. *)
Class Collaborators : Type := {
  params : Params;
  cv2_bound : bool;
  (* [cv2.dilate(src, np.ones((k, k), np.uint8))] *)
  cv2_dilate : np.ndarray -> Z -> np.ndarray;
  Store : Type;
  (* [b.gen_ss(seed, goal)] and [b.gen_ss(seed, goal, push)] *)
  gen_ss : Behavior -> State -> State -> option (list R) -> SampleSpace;
  (* [b.planner.update_plan(x0, sample_space, goal_bias, guide,
     specific_time)]; the planner calls back into the node ([is_feasible],
     [erf], [rostime]), so it is given the node as well *)
  update_plan : Behavior -> Node -> Store -> option State ->
                option SampleSpace -> option GoalBias -> option State ->
                option R -> bool * Store;
  unkill : Behavior -> Store -> Store;
  kill_update : Behavior -> Store -> Store;
  planner_set_goal : Behavior -> State -> Store -> Store;
  set_focus : option (R * R * R) -> Store -> Store;      (* [boat.focus = ...] *)
  planner_x_seq : Behavior -> Store -> list State;
  planner_u_seq : Behavior -> Store -> list Effort;
  planner_tree : Behavior -> Store -> Tree;
  planner_T : Behavior -> Store -> R;
  plan_reached_goal : Behavior -> Store -> bool;
  get_state : Behavior -> Store -> R -> State;
  get_effort : Behavior -> Store -> R -> Effort;
  (* [boat.lqr(x, u)[1].dot(e)] *)
  boat_lqr_gain : Store -> State -> Effort -> State -> Effort;
  boat_dynamics : Store -> State -> Effort -> R -> State;
  (* the k-th look at the ROS clock, at the shutdown flag *)
  rostime_at : nat -> R;
  is_shutdown_at : nat -> bool;
  interp1d_state : list R -> list State -> State -> R -> State;
  interp1d_effort : list R -> list Effort -> Effort -> R -> Effort;
  (* [trns.euler_from_quaternion(q)[2]] *)
  euler_yaw : Quaternion -> R
}.

Section Supervisor.

Context {C : Collaborators}.

(** ** The feasibility oracle and the small math *)

(** [is_feasible(self, x, u)] *)
Definition is_feasible (n : Node) (x : State) (u : Effort) : bool :=
  match ogrid n with
  | None => true
  | Some g =>
      let c := cos (sh x) in
      let s := sin (sh x) in
      let points :=
        map (fun p => (sx x + (c * fst p - s * snd p),
                       sy x + (s * fst p + c * snd p))) (vps params) in
      let indicies :=
        map (fun p => (np.trunc (cpm g * (fst p - fst (origin g))),
                       np.trunc (cpm g * (snd p - snd (origin g))))) points in
      match np.getitems (cells g) (map (fun i => (snd i, fst i)) indicies) with
      | None => false
      | Some grid_values =>
          forallb (fun v => np.ltb (IZR v) (ogrid_threshold n)) grid_values
      end
  end.

(** [angle_diff(self, agoal, a)] *)
Definition angle_diff (agoal a : R) : R :=
  let c := cos a in
  let s := sin a in
  let cg := cos agoal in
  let sg := sin agoal in
  np.arctan2 (sg * c - cg * s) (cg * c + sg * s).

(** [erf(self, xgoal, x)] *)
Definition erf (xgoal x : State) : State :=
  mkState (sx xgoal - sx x) (sy xgoal - sy x)
          (angle_diff (sh xgoal) (sh x))
          (svx xgoal - svx x) (svy xgoal - svy x) (sw xgoal - sw x).

(** ** Boundary analysis *)

(** [self.get_hood(img, row, col)] *)
Definition get_hood (img : np.ndarray) (row col : Z) : np.ndarray :=
  np.crop img (row - 1) (row + 2) (col - 1) (col + 2).

(** The candidates of one buffered boundary: the positions of its occupied
    cells, as (row, column) of the image. *)
Definition cands_of (cells : list Z) (to_rc : Z -> Z * Z) : list (Z * Z) :=
  map (fun i => to_rc (Z.of_nat i)) (np.argwhere_eq cells 255).

(** [boundary_analysis(self, img, seed, goal)]; [seed] and [goal] are
    (x, y) pixel tuples. *)
Definition boundary_analysis (img : np.ndarray) (seed goal : Z * Z)
  : Exn + list (Z * Z) :=
  if negb cv2_bound then inl NameError else
  match cv2.floodFill img goal 96 with
  | None => inl cv2_error
  | Some flood_goal =>
  match np.getitem flood_goal (snd seed) (fst seed) with
  | None => inl IndexError
  | Some reached =>
  if (reached =? 96)%Z then inr [] else
  let flood_goal_thresh :=
    np.map_cells (fun v => if (v =? 96)%Z then 96%Z else 0%Z) flood_goal in
  match cv2.floodFill flood_goal_thresh seed 69 with
  | None => inl cv2_error
  | Some flood_seed =>
  let flood_seed_thresh :=
    np.map_cells (fun v => if (v =? 69)%Z then 69%Z else 0%Z) flood_seed in
  match np.column img 1 (-1) 1, np.column img 1 (-1) (-2),
        np.row img 1 2 (-2), np.row img (-2) 2 (-2) with
  | Some left_b, Some right_b, Some top_b, Some bottom_b =>
      let row_min := 1%Z in
      let col_min := 1%Z in
      let row_max := (Z.of_nat (np.shape0 img) - 2)%Z in
      let col_max := (Z.of_nat (np.shape1 img) - 2)%Z in
      let left_cands := cands_of left_b (fun i => (i + 1, col_min)%Z) in
      let right_cands := cands_of right_b (fun i => (i + 1, col_max)%Z) in
      let top_cands := cands_of top_b (fun i => (row_min, i + 2)%Z) in
      let bottom_cands := cands_of bottom_b (fun i => (row_max, i + 2)%Z) in
      let cands := left_cands ++ right_cands ++ top_cands ++ bottom_cands in
      inr (filter (fun rc =>
                     let hood := get_hood flood_seed_thresh (fst rc) (snd rc) in
                     np.any_eq hood 69 && np.any_eq hood 0)
                  cands)
  | _, _, _, _ => inl IndexError
  end end end end.

(** ** State, exceptions and the monad of the methods *)

(** Everything a method can read or change: the node's attributes, the
    state of the [behaviors] module, how often the outside (clock, shutdown
    flag) was looked at, and what was sent out so far. *)
Record World : Type := mkWorld {
  node : Node;
  store : Store;
  ticks : nat;
  out : list Event
}.

Definition with_node (n : Node) (w : World) : World :=
  {| node := n; store := store w; ticks := ticks w; out := out w |}.
Definition with_store (s : Store) (w : World) : World :=
  {| node := node w; store := s; ticks := ticks w; out := out w |}.
Definition with_ticks (k : nat) (w : World) : World :=
  {| node := node w; store := store w; ticks := k; out := out w |}.
Definition with_out (o : list Event) (w : World) : World :=
  {| node := node w; store := store w; ticks := ticks w; out := o |}.

(** A method ends with a value, or an exception leaves it; both keep the
    state reached. *)
Inductive Result (A : Type) : Type :=
| Done (a : A) (w : World)
| Raised (e : Exn) (w : World).

Arguments Done {A} a w.
Arguments Raised {A} e w.

Definition M (A : Type) : Type := World -> Result A.

Definition ret {A} (a : A) : M A := fun w => Done a w.

Definition bind {A B} (m : M A) (k : A -> M B) : M B :=
  fun w => match m w with
           | Done a w' => k a w'
           | Raised e w' => Raised e w'
           end.

Definition raise {A} (e : Exn) : M A := fun w => Raised e w.

Notation "x <- m ;; k" := (bind m (fun x => k))
  (at level 61, m at next level, right associativity).
Notation "m ;; k" := (bind m (fun _ => k))
  (at level 61, right associativity).

(** [self] *)
Definition self : M Node := fun w => Done (node w) w.

(** [self.f = v] *)
Definition assign (f : Node -> Node) : M unit :=
  fun w => Done tt (with_node (f (node w)) w).

(** The state of the [behaviors] module, and a call that changes it. *)
Definition behaviors : M Store := fun w => Done (store w) w.
Definition on_store (f : Store -> Store) : M unit :=
  fun w => Done tt (with_store (f (store w)) w).

(** Using a value that may be [None] where Python needs the object. *)
Definition need {A} (e : Exn) (o : option A) : M A :=
  match o with Some a => ret a | None => raise e end.

(** Lifting a computation that reads nothing. *)
Definition lift {A} (r : Exn + A) : M A :=
  match r with inr a => ret a | inl e => raise e end.

(** [self.rostime()] and [rospy.is_shutdown()] *)
Definition rostime : M R :=
  fun w => Done (rostime_at (ticks w)) (with_ticks (S (ticks w)) w).
Definition is_shutdown : M bool :=
  fun w => Done (is_shutdown_at (ticks w)) (with_ticks (S (ticks w)) w).

(** A publisher's [publish], an action server's [set_...]. *)
Definition emit (e : Event) : M unit :=
  fun w => Done tt (with_out (out w ++ [e]) w).

(** [for x in l: body(x)] *)
Fixpoint for_each {A} (l : list A) (body : A -> M unit) : M unit :=
  match l with
  | [] => ret tt
  | x :: rest => body x ;; for_each rest body
  end.

(** What a reference function returns at [t], given the node and the
    planners it reads when it is called. *)
Definition eval_ref (f : RefFn) (n : Node) (s : Store) (t : R) : option State :=
  match f with
  | RefGoal => goal n
  | RefInterp ts xs fill => Some (interp1d_state ts xs fill t)
  | RefPlanner b => Some (get_state b s t)
  | RefConst x => Some x
  end.

(** [self.get_ref(t)]: calling what [get_ref] holds. *)
Definition call_get_ref (t : R) : M (option State) :=
  n <- self ;;
  f <- need TypeError (get_ref n) ;;
  s <- behaviors ;;
  ret (eval_ref f n s t).

(** ** Resetting and publishing *)

(** [reset(self)] *)
Definition reset : M unit :=
  (* Internal plan *)
  assign (with_goal None) ;;
  assign (with_get_ref None) ;;
  assign (with_get_eff None) ;;
  assign (with_x_seq None) ;;
  assign (with_u_seq None) ;;
  assign (with_tree None) ;;
  (* Behavior control *)
  assign (with_move_type None) ;;
  assign (with_behavior None) ;;
  assign (with_enroute_behavior None) ;;
  assign (with_goal_bias None) ;;
  assign (with_sample_space None) ;;
  assign (with_guide None) ;;
  assign (with_stuck false) ;;
  assign (with_stuck_count 0%Z) ;;
  (* Planning control *)
  assign (with_last_update_time None) ;;
  assign (with_next_runtime None) ;;
  assign (with_next_seed None) ;;
  assign (with_time_till_issue None) ;;
  assign (with_preempted false) ;;
  (* Unkill all planners *)
  for_each behaviors_list (fun b => on_store (unkill b)).

(** [set_goal(self, x)] *)
Definition set_goal (x : State) : M unit :=
  assign (with_goal (Some x)) ;;
  for_each behaviors_list (fun b => on_store (planner_set_goal b x)) ;;
  emit (GoalPub x).

(** [publish_path(self)] *)
Definition publish_path : M unit :=
  n <- self ;;
  match x_seq n with
  | None => ret tt
  | Some xs => match xs with [] => ret tt | _ => emit (PathPub xs) end
  end.

(** [publish_tree(self)] *)
Definition publish_tree : M unit :=
  n <- self ;;
  match tree n with
  | None => ret tt
  | Some t =>
      let ids := seq 0 (Z.to_nat (tree_size t)) in
      match ids with
      | [] => ret tt
      | _ =>
          if Nat.leb (List.length ids) (List.length (tree_state t))
          then emit (TreePub (firstn (List.length ids) (tree_state t)))
          else raise IndexError
      end
  end.

(** [publish_expl(self)] *)
Definition publish_expl : M unit :=
  n <- self ;;
  match sample_space n, guide n with
  | Some ss, Some g => emit (SampspacePub ss) ;; emit (GuidePub (xy g))
  | _, _ => ret tt
  end.

(** ** Decisions *)

(** [self.move_type == name] *)
Definition move_type_is (n : Node) (name : string) : bool :=
  match move_type n with Some mt => String.eqb mt name | None => false end.

(** [select_behavior(self)] *)
Definition select_behavior : M Behavior :=
  n <- self ;;
  (* Are we stuck? *)
  if stuck n then ret escape else
  (* Positional error norm of next_seed *)
  g <- need TypeError (goal n) ;;
  seed <- need TypeError (next_seed n) ;;
  let dist := np.norm (vsub (xy g) (xy seed)) in
  (* Are we driving? *)
  if move_type_is n "drive"
  then (if np.ltb dist (free_radius params) then ret boat else ret car)
  else
  (* Are we skidding? *)
  if move_type_is n "skid"
  then ret boat
  else raise ValueError.

(** *** The sample-space expansion of [select_exploration] *)

(** The variables the expansion loop carries from one round to the next. *)
Record Expansion : Type := mkExpansion {
  while_break_flag : bool;
  push : Z * Z * Z * Z;         (* [push[0]], ..., [push[3]] *)
  npush : Z;
  gs : State;
  last_offsets : Z * Z;
  ss_img : np.ndarray;
  ss_goal : Z * Z;
  ss_seed : Z * Z
}.

(** The flags [push_xmin], [push_xmax], [push_ymin], [push_ymax]. *)
Definition Flags : Type := (bool * bool * bool * bool)%type.

Definition flag_ymin_ymax (row row_min row_max : Z) (f : Flags) : Flags :=
  let '(xmin, xmax, ymin, ymax) := f in
  if (row =? row_min)%Z then (xmin, xmax, true, ymax)
  else if (row =? row_max)%Z then (xmin, xmax, ymin, true)
  else f.

(** "Classify boundary points" *)
Definition classify (row col row_min col_min row_max col_max : Z) (f : Flags)
  : Flags :=
  let '(xmin, xmax, ymin, ymax) := f in
  if (col =? col_min)%Z
  then flag_ymin_ymax row row_min row_max (true, xmax, ymin, ymax)
  else if (col =? col_max)%Z
  then flag_ymin_ymax row row_min row_max (xmin, true, ymin, ymax)
  else flag_ymin_ymax row row_min row_max f.

(** "Push accordingly" *)
Definition push_accordingly (step : Z) (f : Flags) (p : Z * Z * Z * Z) (k : Z)
  : (Z * Z * Z * Z) * Z :=
  let '(xmin, xmax, ymin, ymax) := f in
  let '(p0, p1, p2, p3) := p in
  let '(p0, k) := if xmin then (p0 + step, k + 1)%Z else (p0, k) in
  let '(p1, k) := if xmax then (p1 + step, k + 1)%Z else (p1, k) in
  let '(p2, k) := if ymin then (p2 + step, k + 1)%Z else (p2, k) in
  let '(p3, k) := if ymax then (p3 + step, k + 1)%Z else (p3, k) in
  ((p0, p1, p2, p3), k).

Section Expansion.

(** What the loop reads and does not change. *)
Variable occ_img_dial : np.ndarray.
Variables pmin pmax seed goal_px : Z * Z.
Variable step : Z.
Variable g : OGrid.

(** The [for (row, col) in bpts] loop of one round; the second component
    is [(offset_x[0], offset_y[0])] once it is assigned. *)
Fixpoint for_bpts (bpts : list (Z * Z)) (row_max col_max : Z) (f : Flags)
         (e : Expansion) (offsets : option (Z * Z))
  : Exn + (Expansion * option (Z * Z)) :=
  match bpts with
  | [] => inr (e, offsets)
  | (row, col) :: rest =>
      let f := classify row col 1 1 row_max col_max f in
      let '(p, k) := push_accordingly step f (push e) (npush e) in
      let '(p0, p1, p2, p3) := p in
      (* Get image cropped to sample space and offset points of interest *)
      let offset_x := (fst pmin - p0, fst pmax + p1)%Z in
      let offset_y := (snd pmin - p2, snd pmax + p3)%Z in
      let img := np.crop occ_img_dial (fst offset_y) (snd offset_y)
                         (fst offset_x) (snd offset_x) in
      let sgoal := (fst goal_px - fst offset_x, snd goal_px - fst offset_y)%Z in
      let sseed := (fst seed - fst offset_x, snd seed - fst offset_y)%Z in
      let offs := Some (fst offset_x, fst offset_y) in
      match cv2.floodFill img sgoal 69 with
      | None => inl cv2_error
      | Some test_flood =>
          match np.getitem test_flood (snd sseed) (fst sseed) with
          | None => inl IndexError
          | Some v =>
              if (v =? 69)%Z
              then
                let guide_xy :=
                  (IZR (col + fst (last_offsets e)) / cpm g + fst (origin g),
                   IZR (row + snd (last_offsets e)) / cpm g + snd (origin g)) in
                inr (mkExpansion true p k (set_xy guide_xy (gs e))
                                 (last_offsets e) img sgoal sseed, offs)
              else
                for_bpts rest row_max col_max f
                         (mkExpansion (while_break_flag e) p k (gs e)
                                      (last_offsets e) img sgoal sseed)
                         offs
          end
      end
  end.

(** "Iteratively determine how much to push out the sample space" *)
Fixpoint expand (fuel : nat) (e : Expansion) : Exn + Expansion :=
  match fuel with
  | O => inl OutOfFuel
  | S fuel' =>
      let '(p0, p1, p2, p3) := push e in
      let h := Z.of_nat (np.shape0 occ_img_dial) in
      if ((p0 <=? h) && (p1 <=? h) && (p2 <=? h) && (p3 <=? h))%Z then
        if while_break_flag e then inr e else
        (* Find dividing boundary points *)
        match boundary_analysis (ss_img e) (ss_seed e) (ss_goal e) with
        | inl x => inl x
        | inr bpts =>
            (* No boundary points means time to end *)
            match bpts with
            | [] => inr e
            | _ =>
                let row_max := (Z.of_nat (np.shape0 (ss_img e)) - 2)%Z in
                let col_max := (Z.of_nat (np.shape1 (ss_img e)) - 2)%Z in
                match for_bpts bpts row_max col_max
                               (false, false, false, false) e None with
                | inl x => inl x
                | inr (e', offsets) =>
                    (* Used for remembering the previous sample space
                       coordinates *)
                    match offsets with
                    | None => inl UnboundLocalError
                    | Some o =>
                        expand fuel'
                          (mkExpansion (while_break_flag e') (push e')
                             (npush e') (gs e') o (ss_img e') (ss_goal e')
                             (ss_seed e'))
                    end
                end
            end
        end
      else inr e
  end.

End Expansion.

(** [self.intup(self.ogrid_cpm * (p - self.ogrid_origin))] *)
Definition to_pixel (g : OGrid) (p : R * R) : Z * Z :=
  (np.trunc (cpm g * (fst p - fst (origin g))),
   np.trunc (cpm g * (snd p - snd (origin g)))).

(** The grid analysis of [select_exploration] ("Analyze ogrid to find good
    bias and sample space buffer"): [inl] is its early [return], [inr] the
    values of [b], [ss] and [gs] it leaves. *)
Definition analyze_ogrid (fuel : nat) (g : OGrid) (seed_x : State)
  : M ((GoalBias * SampleSpace * State) + (R * SampleSpace * State)) :=
  n <- self ;;
  (* Get opencv-ready image from current ogrid *)
  let occ_img :=
    np.map_cells (fun v => if np.ltb (ogrid_threshold n) (IZR v)
                           then 255%Z else 0%Z) (cells g) in
  (* Dilate the image *)
  let boat_pix := np.trunc (cpm g * boat_width params) in
  let boat_pix := (boat_pix + boat_pix mod 2)%Z in
  (if cv2_bound then ret tt else raise NameError) ;;
  (if (boat_pix <? 0)%Z then raise ValueError else ret tt) ;;
  let occ_img_dial := cv2_dilate occ_img boat_pix in
  (* Construct the initial sample space and get bounds in pixel coordinates *)
  b <- need AttributeError (behavior n) ;;
  goal_x <- need TypeError (goal n) ;;
  let ss := gen_ss b seed_x goal_x None in
  let pmin := to_pixel g (fst (fst ss), fst (snd ss)) in
  let pmax := to_pixel g (snd (fst ss), snd (snd ss)) in
  (* Other quantities in pixel coordinates *)
  let seed := to_pixel g (xy seed_x) in
  let goal_px := to_pixel g (xy goal_x) in
  let step := np.trunc (cpm g * ss_step params) in
  (* Make sure seed and goal are physically meaningful *)
  match np.getitem occ_img_dial (snd seed) (fst seed),
        np.getitem occ_img_dial (snd goal_px) (fst goal_px) with
  | Some _, Some _ =>
      (* Initializations *)
      let last := (fst pmin, snd pmin) in
      let e0 :=
        mkExpansion false (0, 0, 0, 0)%Z 0%Z goal_x last
          (np.crop occ_img_dial (snd pmin) (snd pmax) (fst pmin) (fst pmax))
          (fst goal_px - fst last, snd goal_px - snd last)%Z
          (fst seed - fst last, snd seed - snd last)%Z in
      e <- lift (expand occ_img_dial pmin pmax seed goal_px step g fuel e0) ;;
      (* Apply push in real coordinates *)
      let '(p0, p1, p2, p3) := push e in
      let push_m := map (fun p => IZR p / cpm g) [p0; p1; p2; p3] in
      let push_m := if (0 <? npush e)%Z
                    then map (fun p => p + boat_length params) push_m
                    else push_m in
      let ss := gen_ss b seed_x goal_x
                       (Some (map (fun p => p + ss_start params) push_m)) in
      (* Select bias based on density of ogrid in sample space *)
      let bias :=
        if Nat.eqb (np.size (ss_img e)) 0 then 1
        else
          let free_ratio :=
            INR (np.count_eq (ss_img e) 0) / INR (np.size (ss_img e)) in
          np.clip (free_ratio - 0.05 * IZR (npush e)) 0 0.9 in
      ret (inr (bias, ss, gs e))
  | _, _ =>
      ret (inl (BiasScalar 0, gen_ss escape seed_x goal_x None, goal_x))
  end.

(** [select_exploration(self)] *)
Definition select_exploration (fuel : nat)
  : M (GoalBias * SampleSpace * State) :=
  n <- self ;;
  (* Escaping means maximal exploration *)
  if behavior_is (behavior n) escape then
    goal_x <- need TypeError (goal n) ;;
    seed_x <- need TypeError (next_seed n) ;;
    let gs := goal_x in
    let vec := vsub (xy goal_x) (xy seed_x) in
    let dist := np.norm vec in
    let gs :=
      if np.ltb dist (2 * free_radius params)
      then set_xy (vadd vec (vscale (2 * free_radius params) (vdiv vec dist))) gs
      else gs in
    ret (BiasScalar 0, gen_ss escape seed_x goal_x None, gs)
  else
  (* Analyze ogrid to find good bias and sample space buffer *)
  shaped <-
    match ogrid n, next_seed n with
    | Some g, Some seed_x =>
        r <- analyze_ogrid fuel g seed_x ;;
        match r with
        | inl early => ret (inl early)
        | inr (b, ss, gs) => ret (inr (b, Some ss, Some gs))
        end
    | _, _ => ret (inr (1, None, goal n))        (* [ss] stays unbound *)
    end ;;
  match shaped with
  | inl early => ret early
  | inr (b, ss, gs) =>
      (* For boating, no focus means hold goal orientation *)
      if behavior_is (behavior n) boat then
        goal_x <- need TypeError (goal n) ;;
        seed_x <- need TypeError (next_seed n) ;;
        ss <- need UnboundLocalError ss ;;
        gs <- need TypeError gs ;;
        if np.ltb (np.norm (vsub (xy goal_x) (xy seed_x))) (free_radius params)
        then ret (BiasVector [1; 1; 1; 0.1; 0.1; 0], ss, gs)
        else ret (BiasVector [b; b; 1; 0; 0; 1], ss, gs)
      else
      (* For car-ing, just don't bias too much *)
      if behavior_is (behavior n) car then
        let b := np.clip b 0 0.75 in
        ss <- need UnboundLocalError ss ;;
        gs <- need TypeError gs ;;
        ret (BiasVector [b; b; 0; 0; 0.5; 0], ss, gs)
      else raise ValueError
  end.

(** ** Where it happens: one chaining iteration *)

(** Python 2's [a < b] when [a] may be [None]: [None] is below every
    number. *)
Definition py2_lt (a : option R) (b : R) : bool :=
  match a with None => true | Some x => np.ltb x b end.

Definition is_some {A} (o : option A) : bool :=
  match o with Some _ => true | None => false end.

(** [self.next_seed = self.get_ref(self.next_runtime + self.rostime()
    - self.last_update_time)] for the runtime [rt] just stored. *)
Definition seed_ahead (rt : R) : M unit :=
  now <- rostime ;;
  n <- self ;;
  last <- need TypeError (last_update_time n) ;;
  x <- call_get_ref (rt + now - last) ;;
  assign (with_next_seed x).

(** The behaviour and the exploration of a normal iteration. *)
Definition select (fuel : nat) : M unit :=
  b <- select_behavior ;;
  assign (with_behavior (Some b)) ;;
  e <- select_exploration fuel ;;
  let '(bias, ss, gd) := e in
  assign (with_goal_bias (Some bias)) ;;
  assign (with_sample_space (Some ss)) ;;
  assign (with_guide (Some gd)).

(** "No issue" *)
Definition no_issue (fuel : nat) : M unit :=
  n <- self ;;
  (if py2_lt (next_runtime n) (basic_duration params)
      && is_some (last_update_time n) && negb (stuck n)
   then
     assign (with_next_runtime (Some (basic_duration params))) ;;
     seed_ahead (basic_duration params)
   else if stuck n then assign (with_next_runtime None)
   else ret tt) ;;
  select fuel.

(** "Distant issue" *)
Definition distant_issue (fuel : nat) : M unit :=
  assign (with_next_runtime (Some (basic_duration params))) ;;
  seed_ahead (basic_duration params) ;;
  select fuel.

(** "Immediate issue", for [time_till_issue = t] *)
Definition immediate_issue (t : R) : M unit :=
  assign (with_next_runtime (Some (t / 2))) ;;
  seed_ahead (t / 2) ;;
  assign (with_behavior (Some escape)) ;;
  assign (with_goal_bias (Some (BiasScalar 0))) ;;
  n <- self ;;
  seed_x <- need TypeError (next_seed n) ;;
  goal_x <- need TypeError (goal n) ;;
  assign (with_sample_space (Some (gen_ss escape seed_x goal_x None))) ;;
  assign (with_guide (Some goal_x)).

(** The three cases on [time_till_issue], and the debug assertion. *)
Definition decide (fuel : nat) : M unit :=
  n <- self ;;
  match time_till_issue n with
  | None => no_issue fuel
  | Some Inf => distant_issue fuel
  | Some (Finite t) =>
      if np.ltb (2 * basic_duration params) t
      then distant_issue fuel
      else immediate_issue t
  end ;;
  n <- self ;;
  if stuck n && negb (is_some (time_till_issue n)) && is_some (next_runtime n)
  then raise AssertionError
  else ret tt.

(** "Update plan" *)
Definition update : M bool :=
  n <- self ;;
  b <- need AttributeError (behavior n) ;;
  s <- behaviors ;;
  let r := update_plan b n s (next_seed n) (sample_space n) (goal_bias n)
                       (guide n) (next_runtime n) in
  on_store (fun _ => snd r) ;;
  ret (fst r).

(** "We might be stuck if tree is oddly small": the test. *)
Definition oddly_small : M bool :=
  n <- self ;;
  b <- need AttributeError (behavior n) ;;
  s <- behaviors ;;
  if ((tree_size (planner_tree b s) <=? stuck_threshold params)%Z
      || np.eqb (planner_T b s) (dt params))
     && negb (plan_reached_goal b s)
  then
    goal_x <- need TypeError (goal n) ;;
    x <- need TypeError (state n) ;;
    ret (np.ltb (free_radius params) (np.norm (vsub (xy goal_x) (xy x))))
  else ret false.

(** "We might be stuck if tree is oddly small" *)
Definition might_be_stuck : M unit :=
  small <- oddly_small ;;
  n <- self ;;
  if small then
    (* Increase stuck count towards threshold *)
    let count := (stuck_count n + 1)%Z in
    assign (with_stuck_count count) ;;
    if (stuck_threshold params <? count)%Z
    then assign (with_stuck true) ;; assign (with_stuck_count 0%Z)
    else assign (with_stuck false)
  else
    assign (with_stuck false) ;; assign (with_stuck_count 0%Z).

(** "Cash-in new goods" and "Visualizers" *)
Definition cash_in : M unit :=
  n <- self ;;
  b <- need AttributeError (behavior n) ;;
  s <- behaviors ;;
  assign (with_x_seq (Some (planner_x_seq b s))) ;;
  assign (with_u_seq (Some (planner_u_seq b s))) ;;
  assign (with_tree (Some (planner_tree b s))) ;;
  now <- rostime ;;
  assign (with_last_update_time (Some now)) ;;
  assign (with_get_ref (Some (RefPlanner b))) ;;
  assign (with_get_eff (Some (EffPlanner b))) ;;
  let rt := planner_T b s in
  let rt := if np.ltb (basic_duration params) rt
            then rt * fudge_factor params else rt in
  assign (with_next_runtime (Some rt)) ;;
  x <- call_get_ref rt ;;
  assign (with_next_seed x) ;;
  assign (with_enroute_behavior (Some b)) ;;
  assign (with_time_till_issue None) ;;
  (* Visualizers *)
  publish_tree ;;
  publish_path ;;
  publish_expl.

(** "Update finished properly" *)
Definition update_finished_properly : M unit :=
  might_be_stuck ;;
  cash_in.

(** The iteration from "Update plan" on. *)
Definition update_and_finish : M (option bool) :=
  (* Update plan *)
  clean_update <- update ;;
  (if clean_update then update_finished_properly else ret tt) ;;
  (* Make sure all planners are actually unkilled *)
  for_each behaviors_list (fun b => on_store (unkill b)) ;;
  (* Unlocking, lol *)
  assign (with_busy false) ;;
  ret (Some clean_update).

(** [tree_chain(self)]; the value is [None] for the bare [return] of the
    guard and the planner's verdict otherwise.  [fuel] bounds the expansion
    loop of [select_exploration]. *)
Definition tree_chain (fuel : nat) : M (option bool) :=
  n <- self ;;
  (* Make sure we are not currently in an update *)
  if busy n then ret None else
  (* Thread locking, lol *)
  assign (with_busy true) ;;
  decide fuel ;;
  update_and_finish.

(** ** The Move action *)

(** [unpack_pose(self, msg)] *)
Definition unpack_pose (msg : Pose) : State :=
  mkState (pos_x msg) (pos_y msg) (euler_yaw (orientation msg)) 0 0 0.

(** [l[:k]] *)
Definition prefix {A} (l : list A) (k : Z) : list A :=
  firstn (np.slice_bound (List.length l) k) l.

(** [l[-1]] *)
Definition last_item {A} (l : list A) : option A :=
  nth_error l (List.length l - 1).

(** [np.arange(len(l)) * dt] *)
Definition sample_times {A} (l : list A) (step : R) : list R :=
  map (fun i => INR i * step) (seq 0 (List.length l)).

(** The loop of [rotation_move]; [None] is the value of the method when
    the loop ends on shutdown and it falls off its end. *)
Fixpoint rotation_loop (fuel : nat) (x xg : State) (tol dt_ : R)
         (x_seq : list State) (u_seq : list Effort) (T : R) (u : Effort)
  : M (option (list State * R * bool * list Effort)) :=
  match fuel with
  | O => raise OutOfFuel
  | S fuel' =>
      down <- is_shutdown ;;
      if down then ret None else
      n <- self ;;
      (* Stop if pose is infeasible *)
      if negb (is_feasible n (mkState (sx x) (sy x) (sh x) 0 0 0) zeros3)
         && negb (Nat.eqb (List.length x_seq) 0)
      then
        let portion := FPR params * INR (List.length x_seq) in
        ret (Some (prefix x_seq (np.trunc portion), T - portion * dt_, false,
                   prefix u_seq (np.trunc portion)))
      else
        let x_seq := x_seq ++ [x] in
        let u_seq := u_seq ++ [u] in
        (* Keep rotating towards goal until tolerance is met *)
        let e := erf xg x in
        if np.leb (Rabs (sh e)) tol
        then ret (Some (x_seq, T, true, u_seq))
        else
          (* Step *)
          s <- behaviors ;;
          let k := boat_lqr_gain s x u e in
          let u := mkEffort (3 * fx k) (3 * fy k) (3 * tz k) in
          let x := boat_dynamics s x u dt_ in
          rotation_loop fuel' x xg tol dt_ x_seq u_seq (T + dt_) u
  end.

(** [rotation_move(self, x, h, tol, dt)] *)
Definition rotation_move (fuel : nat) (x : State) (h tol dt_ : R)
  : M (option (list State * R * bool * list Effort)) :=
  let xg := mkState (sx x) (sy x) h (svx x) (svy x) (sw x) in
  rotation_loop fuel x xg tol dt_ [] [] 0 zeros3.

(** "Check given focus" *)
Definition check_focus (msg : MoveGoal) : M unit :=
  n <- self ;;
  let '(focus_x, focus_y, focus_z) := msg_focus msg in
  let far_away := FocusPub (1E6, 1E6) in
  if move_type_is n "skid"
  then
    if np.eqb focus_z 0
    then on_store (set_focus None) ;; emit far_away
    else
      on_store (set_focus (Some (focus_x, focus_y, 0))) ;;
      goal_x <- need TypeError (goal n) ;;
      let focus_vec := vsub (focus_x, focus_y) (xy goal_x) in
      let focus_goal :=
        mkState (sx goal_x) (sy goal_x)
                (np.arctan2 (snd focus_vec) (fst focus_vec))
                (svx goal_x) (svy goal_x) (sw goal_x) in
      set_goal focus_goal ;;
      emit (FocusPub (focus_x, focus_y))
  else
  if move_type_is n "circle"
  then
    on_store (set_focus (Some (focus_x, focus_y, focus_z))) ;;
    emit (FocusPub (focus_x, focus_y))
  else on_store (set_focus None) ;; emit far_away.

(** "Standard driving" *)
Definition standard_driving (fuel : nat) : M unit :=
  n <- self ;;
  goal_x <- need TypeError (goal n) ;;
  x <- need TypeError (state n) ;;
  (* Find the heading that points to the goal *)
  let p_err := vsub (xy goal_x) (xy x) in
  let h_goal := np.arctan2 (snd p_err) (fst p_err) in
  (* If we aren't within a cone of that heading and the goal is far away,
     construct rotation *)
  if np.ltb (pointshoot_tol params) (Rabs (angle_diff h_goal (sh x)))
     && np.ltb (free_radius params) (np.norm p_err)
  then
    let dt_rot := np.clip (dt params) 1E-6 0.01 in
    r <- rotation_move fuel x h_goal (pointshoot_tol params) dt_rot ;;
    r <- need TypeError r ;;
    let '(x_seq_rot, T_rot, rot_success, u_seq_rot) := r in
    (* If rotation failed, switch to skid *)
    (if rot_success then ret tt else assign (with_move_type (Some "skid"%string))) ;;
    (* Begin interpolating rotation move *)
    now <- rostime ;;
    assign (with_last_update_time (Some now)) ;;
    match last_item x_seq_rot with
    | Some x_last =>
        u_last <- need IndexError (last_item u_seq_rot) ;;
        assign (with_get_ref
                  (Some (RefInterp (sample_times x_seq_rot dt_rot)
                                   x_seq_rot x_last))) ;;
        assign (with_get_eff
                  (Some (EffInterp (sample_times u_seq_rot dt_rot)
                                   u_seq_rot u_last)))
    | None => ret tt
    end ;;
    (* Start tree-chaining with the end of the rotation move *)
    let '(_, _, velmax_yaw) := velmax_pos params in
    assign (with_next_runtime
              (Some (np.clip T_rot (basic_duration params)
                             (2 * PI / velmax_yaw)))) ;;
    x_last <- need IndexError (last_item x_seq_rot) ;;
    assign (with_next_seed (Some x_last))
  else
    assign (with_next_runtime (Some (basic_duration params))) ;;
    assign (with_next_seed (Some x)).

(** [np.all(np.abs(e) <= tol)] *)
Definition all_within (e tol : State) : bool :=
  np.leb (Rabs (sx e)) (sx tol) && np.leb (Rabs (sy e)) (sy tol)
  && np.leb (Rabs (sh e)) (sh tol) && np.leb (Rabs (svx e)) (svx tol)
  && np.leb (Rabs (svy e)) (svy tol) && np.leb (Rabs (sw e)) (sw tol).

(** "Over and out!" *)
Definition over_and_out : M bool :=
  n <- self ;;
  remain <- need TypeError (goal n) ;;
  assign (with_get_ref (Some (RefConst remain))) ;;
  assign (with_get_eff (Some EffZeros)) ;;
  emit Succeeded ;;
  assign (with_done true) ;;
  ret true.

(** "Begin tree-chaining loop"; callbacks of other threads are not
    interleaved. *)
Fixpoint chaining_loop (fuel rounds : nat) : M bool :=
  match rounds with
  | O => raise OutOfFuel
  | S rounds' =>
      down <- is_shutdown ;;
      if down then over_and_out else
      tree_chain fuel ;;
      n <- self ;;
      (* Check if action goal is complete *)
      goal_x <- need TypeError (goal n) ;;
      x <- need TypeError (state n) ;;
      if all_within (erf goal_x x) (real_tol params) then over_and_out else
      (* Check for abrupt termination *)
      if preempted n
      then emit Preempted ;; assign (with_done true) ;; ret false
      else chaining_loop fuel rounds'
  end.

Definition known_move_types : list string :=
  ["hold"; "drive"; "skid"; "circle"]%string.

(** [move_cb(self, msg)]; [fuel] bounds each of its loops. *)
Definition move_cb (fuel : nat) (msg : MoveGoal) : M bool :=
  (* Main callback flag *)
  assign (with_done false) ;;
  (* Make sure odom is publishing (well, at least once) *)
  n <- self ;;
  if negb (is_some (state n))
  then emit (Aborted "odom") ;; assign (with_done true) ;; ret false
  else
  (* Reset the planner system for safety *)
  reset ;;
  (* Give desired pose to everyone who needs it *)
  set_goal (unpack_pose (msg_goal msg)) ;;
  (* Check given move_type *)
  if negb (existsb (String.eqb (msg_move_type msg)) known_move_types)
  then emit (Aborted "move_type") ;; assign (with_done true) ;; ret false
  else
  assign (with_move_type (Some (msg_move_type msg))) ;;
  (* Check given focus *)
  check_focus msg ;;
  n <- self ;;
  (* Station keeping *)
  if move_type_is n "hold" then
    x <- need TypeError (state n) ;;
    set_goal x ;;
    now <- rostime ;;
    assign (with_last_update_time (Some now)) ;;
    assign (with_get_ref (Some RefGoal)) ;;
    assign (with_get_eff (Some EffZeros)) ;;
    emit Succeeded ;;
    assign (with_done true) ;;
    ret true
  else
  (* Circling *)
  if move_type_is n "circle" then
    emit (Aborted "patience") ;; assign (with_done true) ;; ret false
  else
  (* Standard driving *)
  (if move_type_is n "drive" then standard_driving fuel
   else
   (* Translate or look-at move *)
   if move_type_is n "skid" then
     x <- need TypeError (state n) ;;
     assign (with_next_runtime (Some (basic_duration params))) ;;
     assign (with_next_seed (Some x))
   else ret tt) ;;
  (* (debug) *)
  n <- self ;;
  (if is_some (next_seed n) then ret tt else raise AssertionError) ;;
  (if is_some (next_runtime n) then ret tt else raise AssertionError) ;;
  chaining_loop fuel fuel.

End Supervisor.

Arguments Done {C A} a w.
Arguments Raised {C A} e w.

Notation "x <- m ;; k" := (bind m (fun x => k))
  (at level 61, m at next level, right associativity).
Notation "m ;; k" := (bind m (fun _ => k))
  (at level 61, right associativity).

(** ** Notions for the statements *)

(** A relation between the node before and after, closed under doing
    nothing and under sequencing. *)
Class Frame (same : Node -> Node -> Prop) : Prop := {
  frame_refl : forall n, same n n;
  frame_trans : forall a b c, same a b -> same b c -> same a c
}.

(** The committed plan segment: the six attributes a clean update
    replaces together. *)
Definition same_plan (n n' : Node) : Prop :=
  x_seq n' = x_seq n /\ u_seq n' = u_seq n /\ tree n' = tree n /\
  get_ref n' = get_ref n /\ get_eff n' = get_eff n /\
  last_update_time n' = last_update_time n.

(** The stuck detector's two attributes. *)
Definition same_stuck (n n' : Node) : Prop :=
  stuck n' = stuck n /\ stuck_count n' = stuck_count n.

(** The decision of an iteration writes [next_runtime], [next_seed],
    [behavior], [goal_bias], [sample_space] and [guide], and nothing else. *)
Definition only_decided (n n' : Node) : Prop :=
  ogrid n' = ogrid n /\
  ogrid_threshold n' = ogrid_threshold n /\
  state n' = state n /\
  tracking n' = tracking n /\
  busy n' = busy n /\
  done n' = done n /\
  goal n' = goal n /\
  get_ref n' = get_ref n /\
  get_eff n' = get_eff n /\
  x_seq n' = x_seq n /\
  u_seq n' = u_seq n /\
  tree n' = tree n /\
  move_type n' = move_type n /\
  enroute_behavior n' = enroute_behavior n /\
  stuck n' = stuck n /\
  stuck_count n' = stuck_count n /\
  last_update_time n' = last_update_time n /\
  time_till_issue n' = time_till_issue n /\
  preempted n' = preempted n.

Section Notions.

Context {C : Collaborators}.

(** The state a method ends in, whichever way it ends. *)
Definition final {A} (r : Result A) : World :=
  match r with Done _ w => w | Raised _ w => w end.

(** [m] relates the node it starts from to the node it ends in. *)
Definition keeps (same : Node -> Node -> Prop) {A} (m : M A) : Prop :=
  forall w, same (node w) (node (final (m w))).

(** The pixel indices [is_feasible] looks up for the state [x]. *)
Definition footprint_pixels (g : OGrid) (x : State) : list (Z * Z) :=
  map (fun p => to_pixel g (sx x + (cos (sh x) * fst p - sin (sh x) * snd p),
                            sy x + (sin (sh x) * fst p + cos (sh x) * snd p)))
      (vps params).

(** The world once [tree_chain] has taken the [busy] flag. *)
Definition locked (w : World) : World :=
  with_node (with_busy true (node w)) w.

(** [w'] is [w] after one [tree_chain] whose planner update was clean and
    whose "oddly small" test gave [small]. *)
Definition clean_round (fuel : nat) (small : bool) (w w' : World) : Prop :=
  busy (node w) = false /\
  exists w1 w2,
    decide fuel (locked w) = Done tt w1 /\
    update w1 = Done true w2 /\
    oddly_small w2 = Done small w2 /\
    tree_chain fuel w = Done (Some true) w'.

(** [k] clean rounds in a row, each with an oddly small tree, nothing
    happening in between. *)
Inductive streak (fuel : nat) : nat -> World -> World -> Prop :=
| streak_none (w : World) : streak fuel 0 w w
| streak_more (k : nat) (w w' w'' : World) :
    streak fuel k w w' ->
    clean_round fuel true w' w'' ->
    streak fuel (S k) w w''.

(** The rest of a clean iteration, after the detector. *)
Definition cash_in_and_unlock : M (option bool) :=
  cash_in ;;
  for_each behaviors_list (fun b => on_store (unkill b)) ;;
  assign (with_busy false) ;;
  ret (Some true).

(** The guide point the escape case computes. *)
Definition escape_guide (seed_x goal_x : State) : State :=
  let vec := vsub (xy goal_x) (xy seed_x) in
  let dist := np.norm vec in
  if np.ltb dist (2 * free_radius params)
  then set_xy (vadd vec (vscale (2 * free_radius params) (vdiv vec dist)))
              goal_x
  else goal_x.

(** The node as [reset] leaves it. *)
Definition reset_node (n : Node) : Node :=
  {| ogrid := ogrid n; ogrid_threshold := ogrid_threshold n;
     state := state n; tracking := tracking n; busy := busy n;
     done := done n;
     goal := None; get_ref := None; get_eff := None; x_seq := None;
     u_seq := None; tree := None;
     move_type := None; behavior := None; enroute_behavior := None;
     goal_bias := None; sample_space := None; guide := None;
     stuck := false; stuck_count := 0%Z;
     last_update_time := None; next_runtime := None; next_seed := None;
     time_till_issue := None; preempted := false |}.

(** Every planner after [f] was called on each of them in turn. *)
Definition on_all (f : Behavior -> Store -> Store) (s : Store) : Store :=
  f escape (f boat (f car s)).

(** The world a request meets once odometry is in: after the [done] flag
    is lowered, [reset], and [set_goal] of the requested pose. *)
Definition prepared (msg : MoveGoal) (w : World) : World :=
  let x := unpack_pose (msg_goal msg) in
  with_out (out w ++ [GoalPub x])
    (with_store (on_all (fun b => planner_set_goal b x)
                        (on_all unkill (store w)))
       (with_node (with_goal (Some x)
                     (reset_node (with_done false (node w)))) w)).

(** The committed plan and the behaviour attributes are empty, as [reset]
    leaves them. *)
Definition plan_cleared (n : Node) : Prop :=
  get_ref n = None /\ get_eff n = None /\ x_seq n = None /\
  u_seq n = None /\ tree n = None /\ last_update_time n = None /\
  behavior n = None /\ enroute_behavior n = None.

(** The failure code of a request that fails a precondition of [move_cb]:
    no odometry yet, an unknown move type, or a circle. *)
Definition failure_code (msg : MoveGoal) (n : Node) : option string :=
  if negb (is_some (state n)) then Some "odom"%string
  else if negb (existsb (String.eqb (msg_move_type msg)) known_move_types)
  then Some "move_type"%string
  else if String.eqb (msg_move_type msg) "circle"
  then Some "patience"%string
  else None.

(** The node a rejected request leaves.  Without odometry only [done] is
    written.  Otherwise the node has been reset and holds the requested
    goal, and for a circle the move type as well. *)
Definition after_rejection (msg : MoveGoal) (n : Node) : Node :=
  if negb (is_some (state n)) then with_done true n
  else
    let requested := with_goal (Some (unpack_pose (msg_goal msg)))
                               (reset_node n) in
    if negb (existsb (String.eqb (msg_move_type msg)) known_move_types)
    then with_done true requested
    else with_done true (with_move_type (Some "circle"%string) requested).

End Notions.

(** ** Concrete collaborators and states, for the examples *)

Module Demo.

Local Open Scope R_scope.

(** A stand-in for the [behaviors] module: its planners are killed or
    not, and a killed planner's update is not clean. *)
Record Planners : Type := mkPlanners {
  killed : bool;
  focus : option (R * R * R);
  planner_goal : option State
}.

Definition origin_state : State := mkState 0 0 0 0 0 0.

Definition demo_params : Params :=
  {| dt := 1; basic_duration := 1; pointshoot_tol := 1; free_radius := 1;
     real_tol := origin_state; velmax_pos := (1, 1, 1);
     stuck_threshold := 1; fudge_factor := 1; FPR := 1; ss_step := 1;
     ss_start := 1; boat_width := 1; boat_length := 1;
     vps := [(0, 0)]; vps_spacing := 1 |}.

(** The tree a demo planner holds: one node. *)
Definition small_tree : Tree := mkTree 1 [origin_state].

Definition collaborators (cv2_is_bound : bool) : Collaborators :=
  {| params := demo_params;
     cv2_bound := cv2_is_bound;
     cv2_dilate := fun src _ => src;
     Store := Planners;
     gen_ss := fun _ seed goal _ => ((sx seed, sx goal), (sy seed, sy goal));
     update_plan := fun _ _ s _ _ _ _ _ => (negb (killed s), s);
     unkill := fun _ s => mkPlanners false (focus s) (planner_goal s);
     kill_update := fun _ s => mkPlanners true (focus s) (planner_goal s);
     planner_set_goal := fun _ x s => mkPlanners (killed s) (focus s) (Some x);
     set_focus := fun f s => mkPlanners (killed s) f (planner_goal s);
     planner_x_seq := fun _ _ => [origin_state];
     planner_u_seq := fun _ _ => [zeros3];
     planner_tree := fun _ _ => small_tree;
     planner_T := fun _ _ => 1;
     plan_reached_goal := fun _ _ => false;
     get_state := fun _ _ _ => origin_state;
     get_effort := fun _ _ _ => zeros3;
     boat_lqr_gain := fun _ _ _ _ => zeros3;
     boat_dynamics := fun _ x _ _ => x;
     rostime_at := fun k => INR k;
     is_shutdown_at := fun _ => false;
     interp1d_state := fun _ _ fill _ => fill;
     interp1d_effort := fun _ _ fill _ => fill;
     euler_yaw := fun _ => 0 |}.

(** The node as [__init__] leaves it, with the threshold 90 of the
    launch default. *)
Definition fresh : Node :=
  {| ogrid := None; ogrid_threshold := 90; state := None; tracking := None;
     busy := false; done := true;
     goal := None; get_ref := None; get_eff := None; x_seq := None;
     u_seq := None; tree := None;
     move_type := None; behavior := None; enroute_behavior := None;
     goal_bias := None; sample_space := None; guide := None;
     stuck := false; stuck_count := 0%Z;
     last_update_time := None; next_runtime := None; next_seed := None;
     time_till_issue := None; preempted := false |}.

Definition world (c : bool) (n : Node) (is_killed : bool)
  : @World (collaborators c) :=
  @mkWorld (collaborators c) n (mkPlanners is_killed None None) 0 [].

(** A two-cell grid, one row, both cells free; one cell per meter. *)
Definition two_cells : OGrid :=
  mkOGrid (np.mk_ndarray 1 2 [[0; 0]%Z]) (0, 0) 1.

(** The node with that grid, and a vehicle one meter left of it. *)
Definition with_two_cells : Node :=
  {| ogrid := Some two_cells; ogrid_threshold := 90; state := None;
     tracking := None; busy := false; done := true;
     goal := None; get_ref := None; get_eff := None; x_seq := None;
     u_seq := None; tree := None;
     move_type := None; behavior := None; enroute_behavior := None;
     goal_bias := None; sample_space := None; guide := None;
     stuck := false; stuck_count := 0%Z;
     last_update_time := None; next_runtime := None; next_seed := None;
     time_till_issue := None; preempted := false |}.

Definition left_of_grid : State := mkState (-1) 0 0 0 0 0.

(** The node after odometry at the origin. *)
Definition with_odom : Node :=
  {| ogrid := None; ogrid_threshold := 90; state := Some origin_state;
     tracking := None; busy := false; done := true;
     goal := None; get_ref := None; get_eff := None; x_seq := None;
     u_seq := None; tree := None;
     move_type := None; behavior := None; enroute_behavior := None;
     goal_bias := None; sample_space := None; guide := None;
     stuck := false; stuck_count := 0%Z;
     last_update_time := None; next_runtime := None; next_seed := None;
     time_till_issue := None; preempted := false |}.

Definition pose_1_2 : Pose := mkPose 1 2 (mkQuat 0 0 0 1).

Definition fly : MoveGoal := mkMove pose_1_2 "fly" (0, 0, 0).
Definition circle_move : MoveGoal := mkMove pose_1_2 "circle" (0, 0, 0).

(** A node in the middle of a move: a committed constant reference, the
    goal four meters ahead, and an issue found at time 0 of the plan. *)
Definition goal_ahead : State := mkState 4 0 0 0 0 0.

Definition with_issue : Node :=
  {| ogrid := None; ogrid_threshold := 90; state := Some origin_state;
     tracking := None; busy := false; done := false;
     goal := Some goal_ahead; get_ref := Some (RefConst origin_state);
     get_eff := Some EffZeros; x_seq := Some [origin_state];
     u_seq := Some [zeros3]; tree := Some small_tree;
     move_type := Some "drive"%string; behavior := Some car;
     enroute_behavior := Some car;
     goal_bias := None; sample_space := None; guide := None;
     stuck := false; stuck_count := 0%Z;
     last_update_time := Some 0; next_runtime := Some 1;
     next_seed := Some origin_state;
     time_till_issue := Some (Finite 0); preempted := false |}.

(** A node that escapes, its next seed one meter short of the goal. *)
Definition seed_near : State := mkState 3 0 0 0 0 0.

Definition escaping : Node :=
  {| ogrid := None; ogrid_threshold := 90; state := Some origin_state;
     tracking := None; busy := false; done := false;
     goal := Some goal_ahead; get_ref := None; get_eff := None;
     x_seq := None; u_seq := None; tree := None;
     move_type := Some "drive"%string; behavior := Some escape;
     enroute_behavior := None;
     goal_bias := None; sample_space := None; guide := None;
     stuck := true; stuck_count := 0%Z;
     last_update_time := None; next_runtime := None;
     next_seed := Some seed_near;
     time_till_issue := None; preempted := false |}.

(** A 3-by-3 image whose corner (0, 0) is cut off by two occupied cells. *)
Definition corner_cut : np.ndarray :=
  np.mk_ndarray 3 3 [[0; 255; 0]; [255; 0; 0]; [0; 0; 0]]%Z.

(** A 3-by-3 image with no occupied cell. *)
Definition all_clear : np.ndarray :=
  np.mk_ndarray 3 3 [[0; 0; 0]; [0; 0; 0]; [0; 0; 0]]%Z.

(** The node while an update is in progress. *)
Definition updating : Node := with_busy true fresh.

(** The move interrupted by an issue, planners alive or killed. *)
Definition w_issue (is_killed : bool) : @World (collaborators true) :=
  world true with_issue is_killed.

(** What the decision leaves: an escape for half of the zero seconds to
    the issue, from the committed reference. *)
Definition w_decided (is_killed : bool) : @World (collaborators true) :=
  @mkWorld (collaborators true)
    (with_guide (Some goal_ahead)
       (with_sample_space (Some ((0, 4), (0, 0)))
          (with_goal_bias (Some (BiasScalar 0))
             (with_behavior (Some escape)
                (with_next_seed (Some origin_state)
                   (with_next_runtime (Some (0 / 2))
                      (with_busy true with_issue)))))))
    (mkPlanners is_killed None None) 1 [].

(** The world after the whole iteration, when the update was clean. *)
Definition w_chained : @World (collaborators true) :=
  @mkWorld (collaborators true)
    (with_busy false
       (with_time_till_issue None
          (with_enroute_behavior (Some escape)
             (with_next_seed (Some origin_state)
                (with_next_runtime (Some 1)
                   (with_get_eff (Some (EffPlanner escape))
                      (with_get_ref (Some (RefPlanner escape))
                         (with_last_update_time (Some (INR 1))
                            (with_tree (Some small_tree)
                               (with_u_seq (Some [zeros3])
                                  (with_x_seq (Some [origin_state])
                                     (with_stuck_count 1%Z
                                        (node (w_decided false))))))))))))))
    (mkPlanners false None None) 2
    [TreePub [origin_state]; PathPub [origin_state];
     SampspacePub ((0, 4), (0, 0)); GuidePub (4, 0)].

(** The node with odometry, before any move. *)
Definition w_odom : @World (collaborators true) := world true with_odom false.

End Demo.

(** ** The subscribers and the plan check *)

(** [self.ogrid = v], [self.state = v] and [self.tracking = v]: the
    attributes that only the subscribers write. *)
Definition with_ogrid (v : option OGrid) (n : Node) : Node :=
  {| ogrid := v; ogrid_threshold := ogrid_threshold n; state := state n;
     tracking := tracking n; busy := busy n; done := done n; goal := goal n;
     get_ref := get_ref n; get_eff := get_eff n; x_seq := x_seq n;
     u_seq := u_seq n; tree := tree n; move_type := move_type n;
     behavior := behavior n; enroute_behavior := enroute_behavior n;
     goal_bias := goal_bias n; sample_space := sample_space n;
     guide := guide n; stuck := stuck n; stuck_count := stuck_count n;
     last_update_time := last_update_time n;
     next_runtime := next_runtime n; next_seed := next_seed n;
     time_till_issue := time_till_issue n; preempted := preempted n |}.
Definition with_state (v : option State) (n : Node) : Node :=
  {| ogrid := ogrid n; ogrid_threshold := ogrid_threshold n; state := v;
     tracking := tracking n; busy := busy n; done := done n; goal := goal n;
     get_ref := get_ref n; get_eff := get_eff n; x_seq := x_seq n;
     u_seq := u_seq n; tree := tree n; move_type := move_type n;
     behavior := behavior n; enroute_behavior := enroute_behavior n;
     goal_bias := goal_bias n; sample_space := sample_space n;
     guide := guide n; stuck := stuck n; stuck_count := stuck_count n;
     last_update_time := last_update_time n;
     next_runtime := next_runtime n; next_seed := next_seed n;
     time_till_issue := time_till_issue n; preempted := preempted n |}.
Definition with_tracking (v : option bool) (n : Node) : Node :=
  {| ogrid := ogrid n; ogrid_threshold := ogrid_threshold n;
     state := state n; tracking := v; busy := busy n; done := done n;
     goal := goal n; get_ref := get_ref n; get_eff := get_eff n;
     x_seq := x_seq n; u_seq := u_seq n; tree := tree n;
     move_type := move_type n; behavior := behavior n;
     enroute_behavior := enroute_behavior n; goal_bias := goal_bias n;
     sample_space := sample_space n; guide := guide n; stuck := stuck n;
     stuck_count := stuck_count n; last_update_time := last_update_time n;
     next_runtime := next_runtime n; next_seed := next_seed n;
     time_till_issue := time_till_issue n; preempted := preempted n |}.

(** [l[k:]] *)
Definition suffix {A} (l : list A) (k : Z) : list A :=
  skipn (np.slice_bound (List.length l) k) l.

(** [np.array(data).reshape((h, w))], row after row; [None] is numpy's
    [ValueError] for data whose size is not [h * w]. *)
Definition reshape (data : list Z) (h w : nat) : option np.ndarray :=
  if Nat.eqb (List.length data) (h * w)
  then Some (np.tabulate h w (fun r c => nth (r * w + c) data 0%Z))
  else None.

(** The OccupancyGrid message, as far as [ogrid_cb] reads it. *)
Record OccupancyGrid : Type := mkOccupancyGrid {
  info_height : nat;
  info_width : nat;
  info_resolution : R;
  info_origin : R * R;          (* [info.origin.position.x], [.y] *)
  msg_data : list Z
}.

(** The Odometry message, as far as [unpack_odom] reads it; the frame
    names of its header go into the headers of what is published, which
    the events do not carry. *)
Record Odometry : Type := mkOdometry {
  odom_pose : Pose;
  twist_linear : R * R;
  twist_angular_z : R
}.

(** An exception of the subscribers that [Exn] does not list: Python's
    division of a float by the float zero. *)
Inductive Fault : Type := ZeroDivisionError.

(** numpy's part in the search for a clear path: the rows of [sline],
    from the start, the goal, and the numerator and the denominator of
    [npoints].  [np.linspace], the list repetition [[h] * npoints],
    [np.zeros] and [np.vstack] are handed the float [npoints] as a count;
    what they make of it (truncation, a warning, an exception, a product)
    is numpy's, and differs between its versions. *)
Class Numpy : Type := {
  sline_rows : State -> State -> R -> R -> Exn + list State
}.

Section Subscribers.

Context {C : Collaborators} {N : Numpy}.

(** A row after [p_seq[:, 3:] = 0]. *)
Definition at_rest (x : State) : State :=
  mkState (sx x) (sy x) (sh x) 0 0 0.

(** The [for i, (x, u) in enumerate(...)] loop of [reevaluate_plan]: the
    index at which it finds a row that is not feasible, counting from
    [i]. *)
Fixpoint first_infeasible (n : Node) (p_seq : list State) (i : nat)
  : option nat :=
  match p_seq with
  | [] => None
  | x :: rest =>
      if is_feasible n x zeros3
      then first_infeasible n rest (S i)
      else Some i
  end.

(** [for behavior in self.behaviors_list: behavior.planner.kill_update()] *)
Definition kill_all : M unit :=
  for_each behaviors_list (fun b => on_store (kill_update b)).

(** "If we are escaping, check if we have a clear path again"; the value
    says whether the method returned from inside. *)
Definition clear_path_again : M bool :=
  n <- self ;;
  if behavior_is (enroute_behavior n) escape then
    now <- rostime ;;
    last <- need TypeError (last_update_time n) ;;
    start <- call_get_ref (now - last) ;;
    goal_x <- need TypeError (goal n) ;;
    start <- need TypeError start ;;
    let p_err := vsub (xy goal_x) (xy start) in
    sline <- lift (sline_rows start goal_x (np.norm p_err)
                              (vps_spacing params)) ;;
    let checks := map (fun x => is_feasible n x zeros3) sline in
    if forallb (fun c => c) checks then
      assign (with_time_till_issue (Some Inf)) ;;
      assign (with_move_type (Some "drive"%string)) ;;
      kill_all ;;
      assign (with_stuck false) ;;
      assign (with_stuck_count 0%Z) ;;
      ret true
    else ret false
  else ret false.

(** [reevaluate_plan(self)]; [inl ZeroDivisionError] is the division by a
    zero [params.dt] leaving the method. *)
Definition reevaluate_plan : M (Fault + unit) :=
  n <- self ;;
  (* Make sure we are not already fixing the plan *)
  if is_some (time_till_issue n) then ret (inr tt) else
  (* Make sure a plan exists *)
  match last_update_time n, x_seq n with
  | Some last, Some xs =>
      (* Timesteps since last update *)
      now <- rostime ;;
      if np.eqb (dt params) 0 then ret (inl ZeroDivisionError) else
      let iters_passed := np.trunc ((now - last) / dt params) in
      (* Check that all points in the plan are still feasible *)
      let p_seq := map at_rest (suffix xs iters_passed) in
      match first_infeasible n p_seq 0 with
      | Some i =>
          assign (with_time_till_issue (Some (Finite (INR i * dt params)))) ;;
          kill_all ;;
          ret (inr tt)
      | None =>
          (* If we are escaping, check if we have a clear path again *)
          returned <- clear_path_again ;;
          if returned then ret (inr tt) else
          (* No concerns *)
          assign (with_time_till_issue None) ;;
          ret (inr tt)
      end
  | _, _ => ret (inr tt)
  end.

(** [ogrid_cb(self, msg)].  The outer [None]: with a resolution of zero
    the division raises after the array and the origin were stored and
    before the cells per meter are, which leaves a grid that the record
    [OGrid] has no value for. *)
Definition ogrid_cb (msg : OccupancyGrid) (w : World)
  : option (Result (Fault + unit)) :=
  match reshape (msg_data msg) (info_height msg) (info_width msg) with
  | None => Some (Raised ValueError w)
  | Some a =>
      if np.eqb (info_resolution msg) 0 then None
      else
        let g := mkOGrid a (info_origin msg) (1 / info_resolution msg) in
        Some (reevaluate_plan (with_node (with_ogrid (Some g) (node w)) w))
  end.

(** [unpack_odom(self, msg)] *)
Definition unpack_odom (msg : Odometry) : State :=
  mkState (pos_x (odom_pose msg)) (pos_y (odom_pose msg))
          (euler_yaw (orientation (odom_pose msg)))
          (fst (twist_linear msg)) (snd (twist_linear msg))
          (twist_angular_z msg).

(** [np.all(np.abs(e) < 2*np.array(tol))] *)
Definition all_below_twice (e tol : State) : bool :=
  np.ltb (Rabs (sx e)) (2 * sx tol) && np.ltb (Rabs (sy e)) (2 * sy tol)
  && np.ltb (Rabs (sh e)) (2 * sh tol) && np.ltb (Rabs (svx e)) (2 * svx tol)
  && np.ltb (Rabs (svy e)) (2 * svy tol) && np.ltb (Rabs (sw e)) (2 * sw tol).

(** [odom_cb(self, msg)] *)
Definition odom_cb (msg : Odometry) : M unit :=
  let x := unpack_odom msg in
  assign (with_state (Some x)) ;;
  n <- self ;;
  match get_ref n, last_update_time n with
  | Some _, Some last =>
      now <- rostime ;;
      ref <- call_get_ref (now - last) ;;
      ref <- need TypeError ref ;;
      if all_below_twice (erf ref x) (real_tol params)
      then assign (with_tracking (Some true))
      else assign (with_tracking (Some false))
  | _, _ => ret tt
  end.

End Subscribers.

(** ** More notions for the statements *)

(** The lock of [tree_chain]. *)
Definition same_busy (n n' : Node) : Prop := busy n' = busy n.

(** The flag of [move_cb]. *)
Definition same_done (n n' : Node) : Prop := done n' = done n.

(** What only [__init__] and the subscribers write: the grid, its
    threshold, the vehicle's state and the tracking verdict. *)
Definition same_sensed (n n' : Node) : Prop :=
  ogrid n' = ogrid n /\ ogrid_threshold n' = ogrid_threshold n /\
  state n' = state n /\ tracking n' = tracking n.

(** The one-time initializations of [__init__], which [reset] leaves
    alone. *)
Definition same_onetime (n n' : Node) : Prop :=
  same_sensed n n' /\ busy n' = busy n /\ done n' = done n.

(** [reevaluate_plan] writes [time_till_issue], [move_type], [stuck] and
    [stuck_count], and nothing else. *)
Definition only_issue (n n' : Node) : Prop :=
  ogrid n' = ogrid n /\
  ogrid_threshold n' = ogrid_threshold n /\
  state n' = state n /\
  tracking n' = tracking n /\
  busy n' = busy n /\
  done n' = done n /\
  goal n' = goal n /\
  get_ref n' = get_ref n /\
  get_eff n' = get_eff n /\
  x_seq n' = x_seq n /\
  u_seq n' = u_seq n /\
  tree n' = tree n /\
  behavior n' = behavior n /\
  enroute_behavior n' = enroute_behavior n /\
  goal_bias n' = goal_bias n /\
  sample_space n' = sample_space n /\
  guide n' = guide n /\
  last_update_time n' = last_update_time n /\
  next_runtime n' = next_runtime n /\
  next_seed n' = next_seed n /\
  preempted n' = preempted n.

(** [odom_cb] writes [state] and [tracking], and nothing else. *)
Definition only_odom (n n' : Node) : Prop :=
  ogrid n' = ogrid n /\
  ogrid_threshold n' = ogrid_threshold n /\
  busy n' = busy n /\
  done n' = done n /\
  goal n' = goal n /\
  get_ref n' = get_ref n /\
  get_eff n' = get_eff n /\
  x_seq n' = x_seq n /\
  u_seq n' = u_seq n /\
  tree n' = tree n /\
  move_type n' = move_type n /\
  behavior n' = behavior n /\
  enroute_behavior n' = enroute_behavior n /\
  goal_bias n' = goal_bias n /\
  sample_space n' = sample_space n /\
  guide n' = guide n /\
  stuck n' = stuck n /\
  stuck_count n' = stuck_count n /\
  last_update_time n' = last_update_time n /\
  next_runtime n' = next_runtime n /\
  next_seed n' = next_seed n /\
  time_till_issue n' = time_till_issue n /\
  preempted n' = preempted n.

(** A goal bias the planner can use as probabilities: the number 0, or
    six weights between 0 and 1. *)
Definition bias_in_range (gb : GoalBias) : Prop :=
  match gb with
  | BiasScalar b => b = 0
  | BiasVector bs =>
      List.length bs = 6%nat /\ Forall (fun b => 0 <= b <= 1) bs
  end.

(** The action result [e] is the one that goes with the value [r] of
    [move_cb]. *)
Definition reports (r : bool) (e : Event) : Prop :=
  match e with
  | Succeeded => r = true
  | Aborted _ | Preempted => r = false
  | _ => False
  end.

Section MoreNotions.

Context {C : Collaborators}.

(** How [tree_chain] leaves its lock, entered with [busy = b]: as it was
    on a return, taken when an exception left the method. *)
Definition lock_after (b : bool) {A} (r : Result A) : Prop :=
  match r with
  | Done _ w' => busy (node w') = b
  | Raised _ w' => b = false /\ busy (node w') = true
  end.

(** How a method leaves the flag [done] that held [d] before: raised on
    a return, as it was when an exception left the method. *)
Definition flag_after (d : bool) {A} (r : Result A) : Prop :=
  match r with
  | Done _ w' => done (node w') = true
  | Raised _ w' => done (node w') = d
  end.

(** The last thing sent before a return is the action result that goes
    with the value returned. *)
Definition result_reported (r : Result bool) : Prop :=
  match r with
  | Done b w' => exists sent e, out w' = sent ++ [e] /\ reports b e
  | Raised _ _ => True
  end.

(** What [m] sends: the output after [m] is the output before followed
    by events that all satisfy [P], however [m] ends. *)
Definition sends (P : Event -> Prop) {A} (m : M A) : Prop :=
  forall w, exists sent,
    out (final (m w)) = out w ++ sent /\ Forall P sent.

(** An event other than the rejection for missing odometry,
    [set_aborted(MoveResult('odom'))]. *)
Definition no_odom_abort (e : Event) : Prop := e <> Aborted "odom".

End MoreNotions.

(** ** More scenes for the examples *)

Module Scenes.

Import Demo.

Definition right_of_grid : State := mkState 2 0 0 0 0 0.

Definition turned_once : State := mkState 0 0 (2 * PI) 1 1 1.

(** A node with no move, a goal and a seed: not stuck, holding. *)
Definition on_hold : Node :=
  with_move_type (Some "hold"%string) (with_stuck false escaping).

(** A node that boats, and one that drives a car over the two-cell
    grid. *)
Definition boating : Node :=
  with_behavior (Some boat) (with_stuck false escaping).

Definition carting : Node :=
  with_ogrid (Some two_cells)
             (with_behavior (Some car) (with_stuck false escaping)).

Definition hold_move : MoveGoal := mkMove pose_1_2 "hold" (0, 0, 0).
Definition skid_move : MoveGoal := mkMove pose_1_2 "skid" (0, 0, 0).

(** A node with a committed plan and no issue; the same over the
    two-cell grid with a plan that leaves the grid; the same escaping. *)
Definition cruising : Node := with_time_till_issue None with_issue.

Definition blocked : Node :=
  with_x_seq (Some [right_of_grid]) (with_ogrid (Some two_cells) cruising).

Definition escaping_on_plan : Node :=
  with_enroute_behavior (Some escape) cruising.

(** A numpy for which the straight line is its two ends. *)
Definition two_ends : Numpy :=
  {| sline_rows := fun start goal_x _ _ => inr [start; goal_x] |}.

(** The message of a one-by-two grid, and one of odometry. *)
Definition grid_msg : OccupancyGrid :=
  mkOccupancyGrid 1 2 1 (0, 0) [0; 0]%Z.

Definition odom_msg : Odometry := mkOdometry pose_1_2 (0, 0) 0.

End Scenes.

(* ================================================================== *)
(** * Part II: theorems *)
(* ================================================================== *)

Local Open Scope R_scope.

(** ** Numbers *)

Lemma trunc_IZR (z : Z) : np.trunc (IZR z) = z.
Proof.
  unfold np.trunc. destruct (Rle_dec 0 (IZR z)).
  - apply ZfloorZ.
  - apply Zceil_eq. lra.
Qed.

Lemma cos_period_Z (x : R) (k : Z) : cos (x + 2 * IZR k * PI) = cos x.
Proof.
  destruct (Z_le_gt_dec 0 k) as [Hk | Hk].
  - rewrite <- (Z2Nat.id k Hk), <- INR_IZR_INZ. apply cos_period.
  - rewrite <- (cos_period (x + 2 * IZR k * PI) (Z.to_nat (- k))).
    f_equal. rewrite INR_IZR_INZ, Z2Nat.id by lia. rewrite opp_IZR. ring.
Qed.

Lemma sin_period_Z (x : R) (k : Z) : sin (x + 2 * IZR k * PI) = sin x.
Proof.
  destruct (Z_le_gt_dec 0 k) as [Hk | Hk].
  - rewrite <- (Z2Nat.id k Hk), <- INR_IZR_INZ. apply sin_period.
  - rewrite <- (sin_period (x + 2 * IZR k * PI) (Z.to_nat (- k))).
    f_equal. rewrite INR_IZR_INZ, Z2Nat.id by lia. rewrite opp_IZR. ring.
Qed.

Lemma atan_nonpos (t : R) : t <= 0 -> atan t <= 0.
Proof.
  intros [Ht | ->].
  - left. rewrite <- atan_0. now apply atan_increasing.
  - rewrite atan_0. lra.
Qed.

Lemma atan_pos (t : R) : 0 < t -> 0 < atan t.
Proof. intros Ht. rewrite <- atan_0. now apply atan_increasing. Qed.

(** [np.arctan2] lands in the half-open turn (-pi, pi]. *)
Lemma arctan2_range (y x : R) : - PI < np.arctan2 y x <= PI.
Proof.
  pose proof PI_RGT_0 as Hpi.
  unfold np.arctan2.
  destruct (Rlt_dec 0 x) as [Hx | Hx].
  - pose proof (atan_bound (y / x)). lra.
  - destruct (Rlt_dec x 0) as [Hx' | Hx'].
    + pose proof (atan_bound (y / x)) as Hb.
      assert (Hinv : / x < 0) by now apply Rinv_lt_0_compat.
      destruct (Rle_dec 0 y) as [Hy | Hy].
      * assert (y / x <= 0) by (unfold Rdiv; nra).
        pose proof (atan_nonpos H). lra.
      * assert (0 < y / x) by (unfold Rdiv; nra).
        pose proof (atan_pos H). lra.
    + destruct (Rlt_dec 0 y); [lra |]. destruct (Rlt_dec y 0); lra.
Qed.

(** ** The SO(2) error *)

(** C9. For all angles [a], [b] and all integers [k], [m], the difference
    of [a + 2 k pi] and [b + 2 m pi] is the difference of [a] and [b], and
    it lies in (-pi, pi]. *)
Theorem angle_diff_mod_2pi (a b : R) (k m : Z) :
  angle_diff (a + 2 * IZR k * PI) (b + 2 * IZR m * PI) = angle_diff a b /\
  - PI < angle_diff (a + 2 * IZR k * PI) (b + 2 * IZR m * PI) <= PI.
Proof.
  split.
  - unfold angle_diff. now rewrite !cos_period_Z, !sin_period_Z.
  - apply arctan2_range.
Qed.

(** ** The feasibility oracle *)

Section Feasibility.

Context {C : Collaborators}.

(** Without a grid every state is feasible. *)
Lemma is_feasible_no_grid (n : Node) (x : State) (u : Effort) :
  ogrid n = None -> is_feasible n x u = true.
Proof. unfold is_feasible. now intros ->. Qed.

(** With a grid, the verdict is decided by numpy's lookup of the footprint
    pixels: [false] when the lookup raises, else whether every value is
    below the threshold. *)
Lemma is_feasible_grid (n : Node) (g : OGrid) (x : State) (u : Effort) :
  ogrid n = Some g ->
  is_feasible n x u =
  match np.getitems (cells g)
                    (map (fun i => (snd i, fst i)) (footprint_pixels g x)) with
  | None => false
  | Some grid_values =>
      forallb (fun v => np.ltb (IZR v) (ogrid_threshold n)) grid_values
  end.
Proof.
  unfold is_feasible, footprint_pixels, to_pixel. intros ->.
  now rewrite !map_map.
Qed.

(** C10. The effort never influences the verdict: for the same node (and
    so the same grid) and state, any two efforts get the same answer. *)
Theorem is_feasible_effort_irrelevant (n : Node) (x : State) (u1 u2 : Effort) :
  is_feasible n x u1 = is_feasible n x u2.
Proof. reflexivity. Qed.

End Feasibility.

(** C1. A footprint point left of the grid is not rejected: its pixel
    column is -1, outside the two columns of the grid, numpy resolves -1 to
    the last column, and [is_feasible] answers [true]. *)
Theorem is_feasible_negative_index_wraps :
  @footprint_pixels (Demo.collaborators true) Demo.two_cells Demo.left_of_grid
    = [(-1, 0)%Z] /\
  np.index (np.shape1 (cells Demo.two_cells)) (-1) = Some 1%nat /\
  @is_feasible (Demo.collaborators true) Demo.with_two_cells
               Demo.left_of_grid zeros3 = true.
Proof.
  assert (Hpix : @footprint_pixels (Demo.collaborators true) Demo.two_cells
                   Demo.left_of_grid = [(-1, 0)%Z]).
  { unfold footprint_pixels, to_pixel. cbn.
    rewrite cos_0, sin_0.
    replace (1 * (-1 + (1 * 0 - 0 * 0) - 0)) with (IZR (-1)) by lra.
    replace (1 * (0 + (0 * 0 + 1 * 0) - 0)) with (IZR 0) by lra.
    now rewrite !trunc_IZR. }
  split; [exact Hpix | split; [reflexivity |]].
  rewrite (@is_feasible_grid (Demo.collaborators true) _ Demo.two_cells)
    by reflexivity.
  rewrite Hpix.
  replace (np.getitems (cells Demo.two_cells)
             (map (fun i => (snd i, fst i)) [(-1, 0)%Z]))
    with (Some [0%Z]) by (vm_compute; reflexivity).
  cbn. unfold np.ltb. destruct (Rlt_dec 0 90); [reflexivity | lra].
Qed.

(** ** What a method leaves alone *)

Section Frames.

Context {C : Collaborators}.

Context (same : Node -> Node -> Prop) {F : Frame same}.

Lemma keeps_ret {A} (a : A) : keeps same (ret a).
Proof. intros w. apply frame_refl. Qed.

Lemma keeps_raise {A} (e : Exn) : keeps same (@raise C A e).
Proof. intros w. apply frame_refl. Qed.

Lemma keeps_bind {A B} (m : M A) (k : A -> M B) :
  keeps same m -> (forall a, keeps same (k a)) -> keeps same (bind m k).
Proof.
  intros Hm Hk w. unfold bind. specialize (Hm w).
  destruct (m w) as [a w' | e w']; cbn in *.
  - eapply frame_trans; [exact Hm | apply Hk].
  - exact Hm.
Qed.

Lemma keeps_self : keeps same self.
Proof. intros w. apply frame_refl. Qed.

Lemma keeps_behaviors : keeps same behaviors.
Proof. intros w. apply frame_refl. Qed.

Lemma keeps_on_store (f : Store -> Store) : keeps same (on_store f).
Proof. intros w. apply frame_refl. Qed.

Lemma keeps_rostime : keeps same rostime.
Proof. intros w. apply frame_refl. Qed.

Lemma keeps_is_shutdown : keeps same is_shutdown.
Proof. intros w. apply frame_refl. Qed.

Lemma keeps_emit (e : Event) : keeps same (emit e).
Proof. intros w. apply frame_refl. Qed.

Lemma keeps_need {A} (e : Exn) (o : option A) : keeps same (need e o).
Proof. destruct o; [apply keeps_ret | apply keeps_raise]. Qed.

Lemma keeps_lift {A} (r : Exn + A) : keeps same (lift r).
Proof. destruct r; [apply keeps_raise | apply keeps_ret]. Qed.

Lemma keeps_assign (f : Node -> Node) :
  (forall n, same n (f n)) -> keeps same (assign f).
Proof. intros Hf w. apply Hf. Qed.

Lemma keeps_for_each {A} (l : list A) (body : A -> M unit) :
  (forall a, keeps same (body a)) -> keeps same (for_each l body).
Proof.
  intros Hb. induction l as [| a l IH]; cbn.
  - apply keeps_ret.
  - apply keeps_bind; [apply Hb | intros _; exact IH].
Qed.

End Frames.

(** One step of a frame proof: split a sequence, close a primitive, or
    branch on what a conditional looks at. *)
Ltac keeps_step :=
  lazymatch goal with
  | |- keeps _ (bind _ _) => apply keeps_bind; try exact _; [| intros ?]
  | |- keeps _ (ret _) => apply keeps_ret; exact _
  | |- keeps _ (raise _) => apply keeps_raise; exact _
  | |- keeps _ self => apply keeps_self; exact _
  | |- keeps _ behaviors => apply keeps_behaviors; exact _
  | |- keeps _ (on_store _) => apply keeps_on_store; exact _
  | |- keeps _ rostime => apply keeps_rostime; exact _
  | |- keeps _ is_shutdown => apply keeps_is_shutdown; exact _
  | |- keeps _ (emit _) => apply keeps_emit; exact _
  | |- keeps _ (need _ _) => apply keeps_need; exact _
  | |- keeps _ (lift _) => apply keeps_lift; exact _
  | |- keeps _ (for_each _ _) => apply keeps_for_each; try exact _; intros ?
  | |- keeps _ (assign _) => apply keeps_assign; intros ?
  | |- keeps _ (if ?b then _ else _) => destruct b
  | |- keeps _ (match ?x with _ => _ end) => destruct x
  end.

#[export] Instance same_plan_frame : Frame same_plan.
Proof.
  split.
  - intros n. repeat split.
  - intros a b c (H1 & H2 & H3 & H4 & H5 & H6) (K1 & K2 & K3 & K4 & K5 & K6).
    repeat split; congruence.
Qed.

#[export] Instance same_stuck_frame : Frame same_stuck.
Proof.
  split.
  - intros n. split; reflexivity.
  - intros a b c [H1 H2] [K1 K2]. split; congruence.
Qed.

(** Attribute assignments unfold to the record they build. *)
Create HintDb node.
#[export] Hint Unfold
  with_busy with_done with_goal with_get_ref with_get_eff with_x_seq
  with_u_seq with_tree with_move_type with_behavior with_enroute_behavior
  with_goal_bias with_sample_space with_guide with_stuck with_stuck_count
  with_last_update_time with_next_runtime with_next_seed
  with_time_till_issue with_preempted
  with_node with_store with_ticks with_out : node.

#[export] Instance only_decided_frame : Frame only_decided.
Proof.
  split.
  - intros n. repeat split.
  - intros a b c Hab Hbc. unfold only_decided in *.
    repeat match goal with H : _ /\ _ |- _ => destruct H end.
    repeat split; congruence.
Qed.

Lemma only_decided_plan (n n' : Node) : only_decided n n' -> same_plan n n'.
Proof. unfold only_decided, same_plan. tauto. Qed.

Lemma only_decided_stuck (n n' : Node) : only_decided n n' -> same_stuck n n'.
Proof. unfold only_decided, same_stuck. tauto. Qed.

Section Chaining.

Context {C : Collaborators}.

Lemma tree_chain_not_busy (fuel : nat) (w : World) :
  busy (node w) = false ->
  tree_chain fuel w = (decide fuel ;; update_and_finish) (locked w).
Proof. intros Hb. unfold tree_chain, bind, self. now rewrite Hb. Qed.

(** C7. A call of [tree_chain] while [busy] is set returns at once, with
    the bare [return], and leaves everything as it was: the node's
    attributes, the planners, and what was sent out. *)
Theorem tree_chain_busy_returns (fuel : nat) (w : World) :
  busy (node w) = true -> tree_chain fuel w = Done None w.
Proof. intros Hb. unfold tree_chain, bind, self. now rewrite Hb. Qed.

(** *** The committed plan is left alone up to the update *)

Ltac keeps_plan :=
  repeat keeps_step; try (repeat split; reflexivity).

Lemma call_get_ref_keeps same {F : Frame same} (t : R) :
  keeps same (call_get_ref t).
Proof. unfold call_get_ref. repeat keeps_step. Qed.

Lemma select_behavior_keeps same {F : Frame same} :
  keeps same select_behavior.
Proof. unfold select_behavior. repeat keeps_step. Qed.

Lemma analyze_ogrid_keeps same {F : Frame same} fuel g seed_x :
  keeps same (analyze_ogrid fuel g seed_x).
Proof. unfold analyze_ogrid. repeat keeps_step. Qed.

Lemma select_exploration_keeps same {F : Frame same} fuel :
  keeps same (select_exploration fuel).
Proof.
  unfold select_exploration.
  repeat (apply analyze_ogrid_keeps; try exact _) || keeps_step.
Qed.

Lemma seed_ahead_only_decides rt : keeps only_decided (seed_ahead rt).
Proof.
  unfold seed_ahead.
  repeat (apply call_get_ref_keeps; try exact _) || keeps_step.
  repeat split.
Qed.

Lemma select_only_decides fuel : keeps only_decided (select fuel).
Proof.
  unfold select.
  repeat first [ apply select_behavior_keeps; exact _
               | apply select_exploration_keeps; exact _
               | keeps_step ];
    repeat split.
Qed.

Lemma decide_only_decides fuel : keeps only_decided (decide fuel).
Proof.
  unfold decide, no_issue, distant_issue, immediate_issue.
  repeat first [ apply select_only_decides
               | apply seed_ahead_only_decides
               | keeps_step ];
    repeat split.
Qed.

Lemma update_keeps same {F : Frame same} : keeps same update.
Proof. unfold update. repeat keeps_step. Qed.

(** C4. When the planner's update is not clean (it was killed), the
    iteration returns [false] and the committed plan segment is the one
    it started with: [x_seq], [u_seq], [tree], [get_ref], [get_eff] and
    [last_update_time] are untouched. *)
Theorem tree_chain_killed_update (fuel : nat) (w w1 w2 : World) :
  busy (node w) = false ->
  decide fuel (locked w) = Done tt w1 ->
  update w1 = Done false w2 ->
  exists w',
    tree_chain fuel w = Done (Some false) w' /\
    x_seq (node w') = x_seq (node w) /\
    u_seq (node w') = u_seq (node w) /\
    tree (node w') = tree (node w) /\
    get_ref (node w') = get_ref (node w) /\
    get_eff (node w') = get_eff (node w) /\
    last_update_time (node w') = last_update_time (node w).
Proof.
  intros Hbusy Hdecide Hupdate.
  pose proof (decide_only_decides fuel (locked w)) as Hd.
  rewrite Hdecide in Hd. apply only_decided_plan in Hd. cbn in Hd.
  pose proof (update_keeps (same := same_plan) w1) as Hu.
  rewrite Hupdate in Hu. cbn in Hu.
  rewrite (tree_chain_not_busy fuel w Hbusy).
  unfold bind at 1. rewrite Hdecide.
  unfold update_and_finish, bind at 1. rewrite Hupdate.
  eexists. split; [reflexivity |].
  cbn. destruct Hd as (D1 & D2 & D3 & D4 & D5 & D6).
  destruct Hu as (U1 & U2 & U3 & U4 & U5 & U6).
  unfold with_busy in *. cbn in *.
  repeat split; congruence.
Qed.

(** *** The immediate-issue case *)

Lemma eval_ref_goal (f : RefFn) (n n' : Node) (s : Store) (t : R) :
  goal n' = goal n -> eval_ref f n' s t = eval_ref f n s t.
Proof. intros H. destruct f; cbn; congruence. Qed.

Lemma ltb_false (a b : R) : b <= a -> np.ltb a b = false.
Proof.
  intros H. unfold np.ltb. destruct (Rlt_dec a b); [lra | reflexivity].
Qed.

Lemma ltb_true (a b : R) : a < b -> np.ltb a b = true.
Proof.
  intros H. unfold np.ltb. destruct (Rlt_dec a b); [reflexivity | lra].
Qed.

(** What [decide] leaves when the issue is immediate. *)
Lemma decide_immediate_issue (fuel : nat) (w : World)
      (t last : R) (f : RefFn) (g seed : State) :
  time_till_issue (node w) = Some (Finite t) ->
  t <= 2 * basic_duration params ->
  last_update_time (node w) = Some last ->
  get_ref (node w) = Some f ->
  goal (node w) = Some g ->
  eval_ref f (node w) (store w) (t / 2 + rostime_at (ticks w) - last)
    = Some seed ->
  exists w1,
    decide fuel (locked w) = Done tt w1 /\
    next_runtime (node w1) = Some (t / 2) /\
    next_seed (node w1) = Some seed /\
    behavior (node w1) = Some escape /\
    goal_bias (node w1) = Some (BiasScalar 0) /\
    sample_space (node w1) = Some (gen_ss escape seed g None) /\
    guide (node w1) = Some g /\
    store w1 = store w.
Proof.
  intros Htti Ht Hlast Href Hgoal Hseed.
  destruct w as [n s k o]. cbn in *.
  unfold decide, immediate_issue, seed_ahead, call_get_ref.
  unfold bind, self, assign, need, rostime, behaviors, ret, locked.
  cbn. rewrite Htti, (ltb_false Ht). autounfold with node. cbn.
  rewrite Hlast. cbn. rewrite Href. cbn.
  rewrite (@eval_ref_goal f n) by reflexivity. rewrite Hseed. cbn.
  rewrite Hgoal. cbn. rewrite Htti. cbn. rewrite andb_false_r.
  eexists. split; [reflexivity |]. cbn. repeat split.
Qed.

(** C3. An iteration entered with an issue at most [2 * basic_duration]
    away sets the runtime to half the time till the issue, seeds from the
    committed reference that runtime ahead of now, and plans with
    [escape], goal bias 0, the sample space [escape.gen_ss(seed, goal)]
    and the goal as guide: these are the attributes after the decision
    and the arguments of the planner's [update_plan]. *)
Theorem tree_chain_immediate_issue (fuel : nat) (w : World)
        (t last : R) (f : RefFn) (g : State) :
  busy (node w) = false ->
  time_till_issue (node w) = Some (Finite t) ->
  t <= 2 * basic_duration params ->
  last_update_time (node w) = Some last ->
  get_ref (node w) = Some f ->
  goal (node w) = Some g ->
  exists (seed : State) (w1 : World),
    eval_ref f (node w) (store w) (t / 2 + rostime_at (ticks w) - last)
      = Some seed /\
    decide fuel (locked w) = Done tt w1 /\
    tree_chain fuel w = update_and_finish w1 /\
    next_runtime (node w1) = Some (t / 2) /\
    next_seed (node w1) = Some seed /\
    behavior (node w1) = Some escape /\
    goal_bias (node w1) = Some (BiasScalar 0) /\
    sample_space (node w1) = Some (gen_ss escape seed g None) /\
    guide (node w1) = Some g /\
    update w1 =
      (let r := update_plan escape (node w1) (store w) (Some seed)
                  (Some (gen_ss escape seed g None)) (Some (BiasScalar 0))
                  (Some g) (Some (t / 2)) in
       Done (fst r) (with_store (snd r) w1)).
Proof.
  intros Hbusy Htti Ht Hlast Href Hgoal.
  assert (Hseed : exists seed,
             eval_ref f (node w) (store w)
                      (t / 2 + rostime_at (ticks w) - last) = Some seed).
  { destruct f; cbn; eauto. }
  destruct Hseed as [seed Hseed]. exists seed.
  destruct (decide_immediate_issue fuel w Htti Ht Hlast Href Hgoal Hseed)
    as (w1 & Hd & Hrt & Hns & Hb & Hgb & Hss & Hgd & Hst).
  exists w1. split; [exact Hseed |]. split; [exact Hd |].
  split.
  { rewrite (tree_chain_not_busy fuel w Hbusy).
    unfold bind at 1. now rewrite Hd. }
  repeat (split; [assumption |]).
  unfold update, bind, self, need, behaviors, on_store, ret.
  rewrite Hb, Hrt, Hns, Hgb, Hss, Hgd, Hst. reflexivity.
Qed.

(** *** The stuck detector *)

Lemma keeps_done same {A} (m : M A) (w w' : World) (a : A) :
  keeps same m -> m w = Done a w' -> same (node w) (node w').
Proof. intros Hk Hm. specialize (Hk w). now rewrite Hm in Hk. Qed.

(** What "We might be stuck" does to the detector, given the verdict of
    the "oddly small" test. *)
Lemma might_be_stuck_done (w : World) (small : bool) :
  oddly_small w = Done small w ->
  exists w',
    might_be_stuck w = Done tt w' /\
    stuck (node w') =
      (if small
       then (stuck_threshold params <? stuck_count (node w) + 1)%Z
       else false) /\
    stuck_count (node w') =
      (if small
       then if (stuck_threshold params <? stuck_count (node w) + 1)%Z
            then 0%Z else (stuck_count (node w) + 1)%Z
       else 0%Z).
Proof.
  intros Hsmall. unfold might_be_stuck, bind. rewrite Hsmall.
  unfold self, assign, bind.
  destruct small; [destruct (Z.ltb _ _) |];
    eexists; (split; [reflexivity |]); cbn; split; reflexivity.
Qed.

Lemma publish_tree_keeps same {F : Frame same} : keeps same publish_tree.
Proof. unfold publish_tree. repeat keeps_step. Qed.

Lemma publish_path_keeps same {F : Frame same} : keeps same publish_path.
Proof. unfold publish_path. repeat keeps_step. Qed.

Lemma publish_expl_keeps same {F : Frame same} : keeps same publish_expl.
Proof. unfold publish_expl. repeat keeps_step. Qed.

Lemma cash_in_and_unlock_keeps_stuck : keeps same_stuck cash_in_and_unlock.
Proof.
  unfold cash_in_and_unlock, cash_in.
  repeat first [ apply call_get_ref_keeps; exact _
               | apply publish_tree_keeps; exact _
               | apply publish_path_keeps; exact _
               | apply publish_expl_keeps; exact _
               | keeps_step ];
    split; reflexivity.
Qed.

(** One clean round, seen from the detector. *)
Lemma clean_round_detector (fuel : nat) (small : bool) (w w' : World) :
  clean_round fuel small w w' ->
  stuck (node w') =
    (if small
     then (stuck_threshold params <? stuck_count (node w) + 1)%Z
     else false) /\
  stuck_count (node w') =
    (if small
     then if (stuck_threshold params <? stuck_count (node w) + 1)%Z
          then 0%Z else (stuck_count (node w) + 1)%Z
     else 0%Z).
Proof.
  intros (Hbusy & w1 & w2 & Hdecide & Hupdate & Hsmall & Hchain).
  pose proof (keeps_done _ (decide_only_decides fuel) Hdecide) as Hd.
  apply only_decided_stuck in Hd. destruct Hd as [_ Hd]. cbn in Hd.
  pose proof (keeps_done _ (update_keeps (same := same_stuck)) Hupdate)
    as [_ Hu].
  destruct (might_be_stuck_done Hsmall) as (w3 & Hm & Hs & Hc).
  rewrite (tree_chain_not_busy fuel w Hbusy) in Hchain.
  unfold bind at 1 in Hchain. rewrite Hdecide in Hchain.
  unfold update_and_finish, bind at 1 in Hchain. rewrite Hupdate in Hchain.
  unfold update_finished_properly in Hchain.
  assert (Htail : cash_in_and_unlock w3 = Done (Some true) w').
  { revert Hchain. unfold cash_in_and_unlock, bind. rewrite Hm.
    now destruct (cash_in w3). }
  pose proof (keeps_done _ cash_in_and_unlock_keeps_stuck Htail) as [Ts Tc].
  unfold with_busy in Hd. cbn in Hd.
  rewrite Ts, Tc, Hs, Hc, Hu, Hd. split; reflexivity.
Qed.

(** C5. A clean update with an oddly small tree, the goal not reached
    and farther than [free_radius] adds one to the stuck counter; [stuck]
    becomes true, and the counter returns to 0, when the counter so
    increased exceeds [stuck_threshold], and [stuck] is false otherwise.
    Any other clean update clears [stuck] and the counter.  From a
    counter of 0, [stuck] is therefore false after [stuck_threshold] such
    updates in a row and true after [stuck_threshold + 1]. *)
Theorem stuck_after_threshold_plus_one (fuel : nat) :
  (forall (small : bool) (w w' : World),
      clean_round fuel small w w' ->
      if small then
        if (stuck_threshold params <? stuck_count (node w) + 1)%Z
        then stuck (node w') = true /\ stuck_count (node w') = 0%Z
        else stuck (node w') = false /\
             stuck_count (node w') = (stuck_count (node w) + 1)%Z
      else stuck (node w') = false /\ stuck_count (node w') = 0%Z) /\
  (forall (k : nat) (w w' : World),
      streak fuel k w w' ->
      stuck_count (node w) = 0%Z ->
      ((Z.of_nat k <= stuck_threshold params)%Z ->
       stuck_count (node w') = Z.of_nat k /\
       (k <> 0%nat -> stuck (node w') = false)) /\
      (k <> 0%nat -> Z.of_nat k = (stuck_threshold params + 1)%Z ->
       stuck (node w') = true /\ stuck_count (node w') = 0%Z)).
Proof.
  assert (Hround : forall (small : bool) (w w' : World),
      clean_round fuel small w w' ->
      if small then
        if (stuck_threshold params <? stuck_count (node w) + 1)%Z
        then stuck (node w') = true /\ stuck_count (node w') = 0%Z
        else stuck (node w') = false /\
             stuck_count (node w') = (stuck_count (node w) + 1)%Z
      else stuck (node w') = false /\ stuck_count (node w') = 0%Z).
  { intros small w w' H. destruct (clean_round_detector H) as [Hs Hc].
    destruct small; [destruct (Z.ltb _ _) |]; now split. }
  split; [exact Hround |].
  intros k w w' Hstreak Hzero.
  induction Hstreak as [w | k w w' w'' Hstreak IH Hlast].
  - split; [intros _; split; [exact Hzero | congruence] | congruence].
  - specialize (IH Hzero). specialize (Hround true _ _ Hlast). cbn in Hround.
    split; [intros Hk | intros _ Hk].
    + destruct (proj1 IH ltac:(lia)) as [Hcount _]. rewrite Hcount in Hround.
      destruct (Z.ltb_spec (stuck_threshold params) (Z.of_nat k + 1));
        [lia |].
      destruct Hround as [Hs Hc]. split; [rewrite Hc; lia | now intros _].
    + destruct (proj1 IH ltac:(lia)) as [Hcount _]. rewrite Hcount in Hround.
      destruct (Z.ltb_spec (stuck_threshold params) (Z.of_nat k + 1));
        [exact Hround | lia].
Qed.

End Chaining.


(** ** Exploration when escaping *)

Lemma norm_on_axis (a : R) : 0 <= a -> np.norm (a, 0) = a.
Proof.
  intros Ha. unfold np.norm. cbn.
  replace (a * a + 0 * 0) with (a * a) by ring. now apply sqrt_square.
Qed.

Section Escaping.

Context {C : Collaborators}.

(** With the behaviour [escape], the goal bias is 0, the sample space is
    [escape.gen_ss(next_seed, goal)], and the guide is [escape_guide]. *)
Lemma select_exploration_escape (fuel : nat) (w : World) (seed_x goal_x : State) :
  behavior (node w) = Some escape ->
  goal (node w) = Some goal_x ->
  next_seed (node w) = Some seed_x ->
  select_exploration fuel w =
  Done (BiasScalar 0, gen_ss escape seed_x goal_x None,
        escape_guide seed_x goal_x) w.
Proof.
  intros Hb Hg Hs.
  unfold select_exploration, bind, self, need, ret.
  now rewrite Hb, Hg, Hs.
Qed.

(** A goal at least [2 * free_radius] from the seed is its own guide. *)
Lemma escape_guide_far (seed_x goal_x : State) :
  2 * free_radius params <= np.norm (vsub (xy goal_x) (xy seed_x)) ->
  escape_guide seed_x goal_x = goal_x.
Proof.
  intros H. unfold escape_guide. cbv zeta.
  unfold np.ltb. destruct (Rlt_dec _ _); [lra | reflexivity].
Qed.

End Escaping.

(** C6. With the seed at (3, 0), the goal at (4, 0) and a free radius of
    1, the goal is nearer than [2 * free_radius] to the seed, and the guide
    is (3, 0): the seed itself, at distance 0 from the seed and not
    [2 * free_radius] or more along the ray to the goal.  The bias is 0
    and the sample space is [escape.gen_ss(next_seed, goal)]. *)
Theorem escape_guide_not_pushed_from_seed :
  let w := Demo.world true Demo.escaping false in
  np.norm (vsub (xy Demo.goal_ahead) (xy Demo.seed_near)) = 1 /\
  2 * free_radius (@params (Demo.collaborators true)) = 2 /\
  exists gs,
    select_exploration 0 w =
      Done (BiasScalar 0,
            @gen_ss (Demo.collaborators true) escape Demo.seed_near
                    Demo.goal_ahead None,
            gs) w /\
    xy gs = (3, 0) /\
    np.norm (vsub (xy gs) (xy Demo.seed_near)) = 0.
Proof.
  cbv zeta.
  assert (Hdist : np.norm (vsub (xy Demo.goal_ahead) (xy Demo.seed_near)) = 1).
  { unfold vsub. cbn. replace (4 - 3) with 1 by lra.
    replace (0 - 0) with 0 by lra. apply norm_on_axis. lra. }
  split; [exact Hdist |]. split; [cbn; lra |].
  exists (@escape_guide (Demo.collaborators true) Demo.seed_near Demo.goal_ahead).
  split.
  { now apply select_exploration_escape. }
  unfold escape_guide. cbv zeta. rewrite Hdist.
  assert (Hlt : np.ltb 1 (2 * free_radius (@params (Demo.collaborators true)))
                = true).
  { unfold np.ltb. destruct (Rlt_dec _ _) as [| H]; [reflexivity |].
    cbn in H. lra. }
  rewrite Hlt. unfold set_xy, vadd, vscale, vdiv, vsub, xy. cbn.
  split.
  - f_equal; lra.
  - replace (4 - 3 + 2 * 1 * ((4 - 3) / 1) - 3) with 0 by lra.
    replace (0 - 0 + 2 * 1 * ((0 - 0) / 1) - 0) with 0 by lra.
    apply norm_on_axis. lra.
Qed.


(** ** Running a method step by step *)

Section Running.

Context {C : Collaborators}.

Lemma run_done {A B} (m : M A) (k : A -> M B) (w w' : World) (a : A) :
  m w = Done a w' -> bind m k w = k a w'.
Proof. intros H. unfold bind. now rewrite H. Qed.

Lemma run_raised {A B} (m : M A) (k : A -> M B) (w w' : World) (e : Exn) :
  m w = Raised e w' -> bind m k w = Raised e w'.
Proof. intros H. unfold bind. now rewrite H. Qed.

Lemma run_assign {B} (f : Node -> Node) (k : unit -> M B) (w : World) :
  bind (assign f) k w = k tt (with_node (f (node w)) w).
Proof. reflexivity. Qed.

Lemma run_self {B} (k : Node -> M B) (w : World) :
  bind self k w = k (node w) w.
Proof. reflexivity. Qed.

Lemma run_behaviors {B} (k : Store -> M B) (w : World) :
  bind behaviors k w = k (store w) w.
Proof. reflexivity. Qed.

Lemma run_on_store {B} (f : Store -> Store) (k : unit -> M B) (w : World) :
  bind (on_store f) k w = k tt (with_store (f (store w)) w).
Proof. reflexivity. Qed.

Lemma run_emit {B} (e : Event) (k : unit -> M B) (w : World) :
  bind (emit e) k w = k tt (with_out (out w ++ [e]) w).
Proof. reflexivity. Qed.

Lemma run_rostime {B} (k : R -> M B) (w : World) :
  bind rostime k w = k (rostime_at (ticks w)) (with_ticks (S (ticks w)) w).
Proof. reflexivity. Qed.

Lemma run_ret {A B} (a : A) (k : A -> M B) (w : World) :
  bind (ret a) k w = k a w.
Proof. reflexivity. Qed.

Lemma run_need {A B} (e : Exn) (a : A) (k : A -> M B) (w : World) :
  bind (need e (Some a)) k w = k a w.
Proof. reflexivity. Qed.

Lemma run_bind {A B D} (m : M A) (k : A -> M B) (k' : B -> M D) (w : World) :
  bind (bind m k) k' w = bind m (fun a => bind (k a) k') w.
Proof. unfold bind. now destruct (m w). Qed.

End Running.

(** One step of a run: the method at the head of a sequence is done. *)
Ltac run_step :=
  first [ rewrite run_assign | rewrite run_self | rewrite run_behaviors
        | rewrite run_on_store | rewrite run_emit | rewrite run_rostime
        | rewrite run_ret | rewrite run_need | rewrite run_bind ];
  cbv beta.

(** ** Rejected Move requests *)

Section Rejections.

Context {C : Collaborators}.

Lemma reset_done (w : World) :
  reset w = Done tt (with_store (on_all unkill (store w))
                       (with_node (reset_node (node w)) w)).
Proof. reflexivity. Qed.

Lemma set_goal_done (x : State) (w : World) :
  set_goal x w =
  Done tt (with_out (out w ++ [GoalPub x])
             (with_store (on_all (fun b => planner_set_goal b x) (store w))
                (with_node (with_goal (Some x) (node w)) w))).
Proof. reflexivity. Qed.

(** [move_cb] up to "Check given move_type". *)
Lemma move_cb_prepared (fuel : nat) (msg : MoveGoal) (w : World) :
  state (node w) <> None ->
  move_cb fuel msg w =
  (if negb (existsb (String.eqb (msg_move_type msg)) known_move_types)
   then emit (Aborted "move_type") ;; assign (with_done true) ;; ret false
   else
     assign (with_move_type (Some (msg_move_type msg))) ;;
     check_focus msg ;;
     n <- self ;;
     if move_type_is n "hold" then
       x <- need TypeError (state n) ;;
       set_goal x ;;
       now <- rostime ;;
       assign (with_last_update_time (Some now)) ;;
       assign (with_get_ref (Some RefGoal)) ;;
       assign (with_get_eff (Some EffZeros)) ;;
       emit Succeeded ;;
       assign (with_done true) ;;
       ret true
     else
     if move_type_is n "circle" then
       emit (Aborted "patience") ;; assign (with_done true) ;; ret false
     else
     (if move_type_is n "drive" then standard_driving fuel
      else
      if move_type_is n "skid" then
        x <- need TypeError (state n) ;;
        assign (with_next_runtime (Some (basic_duration params))) ;;
        assign (with_next_seed (Some x))
      else ret tt) ;;
     n <- self ;;
     (if is_some (next_seed n) then ret tt else raise AssertionError) ;;
     (if is_some (next_runtime n) then ret tt else raise AssertionError) ;;
     chaining_loop fuel fuel) (prepared msg w).
Proof.
  intros Hs. unfold move_cb.
  rewrite run_assign. cbv beta. rewrite run_self. cbv beta.
  replace (state (node (with_node (with_done false (node w)) w)))
    with (state (node w)) by reflexivity.
  destruct (state (node w)); [| congruence]. cbn [is_some negb].
  erewrite run_done by apply reset_done.
  erewrite run_done by apply set_goal_done.
  reflexivity.
Qed.

Lemma move_cb_no_odom (fuel : nat) (msg : MoveGoal) (w : World) :
  state (node w) = None ->
  move_cb fuel msg w =
  Done false (with_out (out w ++ [Aborted "odom"])
                (with_node (with_done true (node w)) w)).
Proof.
  intros Hs. unfold move_cb.
  rewrite run_assign. cbv beta. rewrite run_self. cbv beta.
  replace (state (node (with_node (with_done false (node w)) w)))
    with (state (node w)) by reflexivity.
  rewrite Hs. cbn [is_some negb].
  destruct w as [n s k o]. now destruct n.
Qed.

Lemma move_cb_unknown_move_type (fuel : nat) (msg : MoveGoal) (w : World) :
  state (node w) <> None ->
  existsb (String.eqb (msg_move_type msg)) known_move_types = false ->
  move_cb fuel msg w =
  Done false (with_out (out (prepared msg w) ++ [Aborted "move_type"])
                (with_node (with_done true (node (prepared msg w)))
                           (prepared msg w))).
Proof.
  intros Hs Hm. rewrite (move_cb_prepared fuel msg w Hs), Hm. reflexivity.
Qed.

(** What "Check given focus" does for a circle: it stores the focus in the
    boat and publishes it. *)
Lemma check_focus_circle (msg : MoveGoal) (w : World) :
  move_type (node w) = Some "circle"%string ->
  check_focus msg w =
  Done tt (with_out (out w ++ [FocusPub (fst (fst (msg_focus msg)),
                                          snd (fst (msg_focus msg)))])
             (with_store (set_focus (Some (msg_focus msg)) (store w)) w)).
Proof.
  intros Hm. unfold check_focus. rewrite run_self. cbv beta.
  destruct (msg_focus msg) as [[focus_x focus_y] focus_z].
  unfold move_type_is. rewrite Hm. reflexivity.
Qed.

Lemma move_cb_circle (fuel : nat) (msg : MoveGoal) (w : World) :
  state (node w) <> None ->
  msg_move_type msg = "circle"%string ->
  exists w',
    move_cb fuel msg w = Done false w' /\
    (exists sent, out w' = out w ++ sent ++ [Aborted "patience"]) /\
    node w' = with_done true
                (with_move_type (Some "circle"%string)
                                (node (prepared msg w))).
Proof.
  intros Hs Hm. rewrite (move_cb_prepared fuel msg w Hs), Hm.
  replace (existsb (String.eqb "circle") known_move_types) with true
    by reflexivity.
  cbn [negb]. rewrite run_assign. cbv beta.
  erewrite run_done; [| apply check_focus_circle; reflexivity].
  rewrite run_self. cbv beta.
  eexists. split; [reflexivity |]. split; [| reflexivity].
  exists [GoalPub (unpack_pose (msg_goal msg));
          FocusPub (fst (fst (msg_focus msg)), snd (fst (msg_focus msg)))].
  cbn. now rewrite <- !app_assoc.
Qed.

(** C2. A request that fails a precondition ends the action with the
    matching failure code and [move_cb] returns [False].  Without odometry
    the node's attributes other than [done] are as before.  For an unknown
    move type or a circle the node has been reset before the rejection: the
    committed plan and the behaviour attributes are empty, and the goal is
    the requested pose; for a circle [move_type] is "circle". *)
Theorem move_cb_rejected (fuel : nat) (msg : MoveGoal) (w : World)
        (code : string) :
  failure_code msg (node w) = Some code ->
  exists w',
    move_cb fuel msg w = Done false w' /\
    (exists sent, out w' = out w ++ sent ++ [Aborted code]) /\
    node w' = after_rejection msg (node w) /\
    (state (node w) = None ->
     goal (node w') = goal (node w) /\ same_plan (node w) (node w') /\
     move_type (node w') = move_type (node w) /\
     behavior (node w') = behavior (node w)) /\
    (state (node w) <> None ->
     goal (node w') = Some (unpack_pose (msg_goal msg)) /\
     plan_cleared (node w') /\
     move_type (node w') =
       (if String.eqb (msg_move_type msg) "circle"
        then Some "circle"%string else None)).
Proof.
  unfold failure_code, after_rejection. intros Hcode.
  destruct (state (node w)) as [x |] eqn:Hx; cbn [is_some negb] in *.
  - assert (Hs : state (node w) <> None) by congruence.
    destruct (existsb (String.eqb (msg_move_type msg)) known_move_types)
      eqn:Hknown; cbn [negb] in *.
    + destruct (String.eqb_spec (msg_move_type msg) "circle") as [Hc | Hc];
        [| discriminate].
      injection Hcode as <-.
      destruct (move_cb_circle fuel msg w Hs Hc) as (w' & Hrun & Hout & Hn).
      exists w'. split; [exact Hrun |]. split; [exact Hout |].
      rewrite Hn. split; [reflexivity |].
      split; [congruence |]. intros _. repeat split.
    + injection Hcode as <-.
      rewrite (move_cb_unknown_move_type fuel msg w Hs Hknown).
      eexists. split; [reflexivity |].
      split; [exists [GoalPub (unpack_pose (msg_goal msg))]; cbn;
              now rewrite <- !app_assoc |].
      split; [reflexivity |]. split; [congruence |]. intros _.
      destruct (String.eqb_spec (msg_move_type msg) "circle") as [Hc | Hc].
      * rewrite Hc in Hknown. discriminate.
      * repeat split.
  - injection Hcode as <-.
    rewrite (move_cb_no_odom fuel msg w Hx).
    eexists. split; [reflexivity |].
    split; [now exists [] |]. split; [reflexivity |].
    split; [intros _; repeat split | congruence].
Qed.

End Rejections.


(** ** The flood fill *)

Module FloodFacts.

Import np cv2.
Local Open Scope Z_scope.

Lemma pixel_eqb_eq (p q : Pixel) : pixel_eqb p q = true <-> p = q.
Proof.
  unfold pixel_eqb. destruct p as [pr pc], q as [qr qc]. cbn.
  rewrite andb_true_iff, !Z.eqb_eq. split; [intros [-> ->] | intros [= -> ->]];
    auto.
Qed.

Lemma mem_In (p : Pixel) (l : list Pixel) : mem p l = true <-> In p l.
Proof.
  unfold mem. rewrite existsb_exists. split.
  - intros (q & Hq & Heq). apply pixel_eqb_eq in Heq. now subst.
  - intros Hp. exists p. split; [exact Hp | now apply pixel_eqb_eq].
Qed.

Section Flood.

Variable a : ndarray.
Variable v : Z.
Variable start : Pixel.

Lemma fillable_connected (q r : Pixel) :
  connected a v start q -> In r (neighbours q) -> fillable a v r = true ->
  connected a v start r.
Proof.
  unfold fillable. intros Hq Hr Hf. apply andb_true_iff in Hf as [Hi Hv].
  apply Z.eqb_eq in Hv. now apply connected_step with q.
Qed.

(** Soundness: the flood only takes pixels joined to the start. *)
Lemma flood_sound (fuel : nat) : forall (mask work : list Pixel),
  (forall q, In q mask -> connected a v start q) ->
  (forall p, In p work -> fillable a v p = true -> connected a v start p) ->
  forall q, In q (flood fuel a v mask work) -> connected a v start q.
Proof.
  induction fuel as [| fuel IH]; intros mask work Hmask Hwork q; cbn [flood].
  - apply Hmask.
  - destruct work as [| p rest]; [apply Hmask |].
    fold (fillable a v p).
    destruct (fillable a v p && negb (mem p mask)) eqn:Htake.
    + apply andb_true_iff in Htake as [Hf _].
      assert (Hp : connected a v start p) by (apply Hwork; [now left | exact Hf]).
      apply IH.
      * intros q' [<- | Hq']; [exact Hp | now apply Hmask].
      * intros r Hr Hfr. apply in_app_or in Hr as [Hr | Hr].
        -- now apply fillable_connected with p.
        -- apply Hwork; [now right | exact Hfr].
    + apply IH; [exact Hmask |].
      intros r Hr. apply Hwork. now right.
Qed.

Lemma inside_all_pixels (p : Pixel) : inside a p = true -> In p (all_pixels a).
Proof.
  unfold inside, all_pixels. destruct p as [r c]. cbn.
  rewrite !andb_true_iff, !Z.leb_le, !Z.ltb_lt. intros [[[H1 H2] H3] H4].
  apply in_prod; apply in_map_iff.
  - exists (Z.to_nat r). split; [lia | apply in_seq; lia].
  - exists (Z.to_nat c). split; [lia | apply in_seq; lia].
Qed.

Lemma inside_bounded (l : list Pixel) :
  NoDup l -> (forall q, In q l -> inside a q = true) ->
  (length l <= shape0 a * shape1 a)%nat.
Proof.
  intros Hnd Hin.
  replace (shape0 a * shape1 a)%nat with (length (all_pixels a)).
  - apply NoDup_incl_length; [exact Hnd |].
    intros q Hq. now apply inside_all_pixels, Hin.
  - unfold all_pixels, Pixel. now rewrite length_prod, !length_map, !length_seq.
Qed.

(** Completeness: with fuel for every step, the flood keeps what it had,
    takes every fillable pixel it was given, and ends closed under
    neighbours. *)
Lemma flood_complete (fuel : nat) : forall (mask work : list Pixel),
  NoDup mask ->
  (forall q, In q mask -> inside a q = true) ->
  (5 * (shape0 a * shape1 a - length mask) + length work < fuel)%nat ->
  closed_under a v mask work ->
  incl mask (flood fuel a v mask work) /\
  (forall p, In p work -> fillable a v p = true ->
             In p (flood fuel a v mask work)) /\
  closed_under a v (flood fuel a v mask work) [].
Proof.
  induction fuel as [| fuel IH]; intros mask work Hnd Hin Hfuel Hcl; [lia |].
  cbn [flood]. destruct work as [| p rest].
  - split; [apply incl_refl |]. split; [intros p [] |].
    intros q Hq r Hr Hf. destruct (Hcl q Hq r Hr Hf) as [H | []]. now left.
  - fold (fillable a v p).
    destruct (fillable a v p && negb (mem p mask)) eqn:Htake.
    + apply andb_true_iff in Htake as [Hf Hnew].
      assert (Hnotin : ~ In p mask).
      { intros Hp. apply mem_In in Hp. now rewrite Hp in Hnew. }
      assert (Hinside : inside a p = true).
      { unfold fillable in Hf. now apply andb_true_iff in Hf as [Hi _]. }
      assert (Hnd' : NoDup (p :: mask)) by now constructor.
      assert (Hin' : forall q, In q (p :: mask) -> inside a q = true).
      { intros q [<- | Hq]; [exact Hinside | now apply Hin]. }
      pose proof (inside_bounded Hnd' Hin') as Hbound. cbn in Hbound.
      destruct (IH (p :: mask) (neighbours p ++ rest) Hnd' Hin')
        as (Hkeep & Htaken & Hclosed).
      * cbn [length] in *. rewrite length_app. cbn [neighbours length]. lia.
      * intros q [<- | Hq] r Hr Hfr.
        -- right. apply in_or_app. now left.
        -- destruct (Hcl q Hq r Hr Hfr) as [H | [<- | H]].
           ++ left. now right.
           ++ left. now left.
           ++ right. apply in_or_app. now right.
      * split; [intros q Hq; apply Hkeep; now right |]. split; [| exact Hclosed].
        intros q [<- | Hq] Hfq.
        -- apply Hkeep. now left.
        -- apply Htaken; [apply in_or_app; now right | exact Hfq].
    + assert (Hskip : fillable a v p = true -> In p mask).
      { intros Hf. rewrite Hf in Htake. cbn in Htake.
        apply negb_false_iff in Htake. now apply mem_In. }
      destruct (IH mask rest Hnd Hin) as (Hkeep & Htaken & Hclosed).
      * cbn [length] in Hfuel. lia.
      * intros q Hq r Hr Hfr.
        destruct (Hcl q Hq r Hr Hfr) as [H | [<- | H]]; auto.
      * split; [exact Hkeep |]. split; [| exact Hclosed].
        intros q [<- | Hq] Hfq; [apply Hkeep; now apply Hskip | now apply Htaken].
Qed.

End Flood.

(** The pixels the flood fills from [p] are those joined to [p] by pixels
    of its value. *)
Theorem component_connected (a : ndarray) (p q : Pixel) :
  In q (component a p) <-> connected a (at_ a p) p q.
Proof.
  unfold component. split.
  - apply flood_sound.
    + intros q' [].
    + intros p' [<- | []] Hf. unfold fillable in Hf.
      apply andb_true_iff in Hf as [Hi _]. now apply connected_start.
  - intros Hc.
    destruct (@flood_complete a (at_ a p)
                (5 * (shape0 a * shape1 a) + 2) [] [p])
      as (_ & Htaken & Hclosed).
    + constructor.
    + intros q' [].
    + cbn. lia.
    + intros q' [].
    + induction Hc as [Hi Hv | q r Hq IH Hr Hi Hv].
      * apply Htaken; [now left |]. unfold fillable.
        now rewrite Hi, Z.eqb_refl.
      * destruct (Hclosed q IH r Hr) as [H | []]; [| exact H].
        unfold fillable. rewrite Hi. now apply Z.eqb_eq.
Qed.

End FloodFacts.

(** ** Boundary analysis *)

Section Boundary.

Import np cv2.
Local Open Scope Z_scope.

Context {C : Collaborators}.

Lemma item_tabulate (h w : nat) (f : nat -> nat -> Z) (r c : nat) :
  (r < h)%nat -> (c < w)%nat -> item (tabulate h w f) r c = f r c.
Proof.
  intros Hr Hc. unfold item, tabulate. cbn [rows].
  rewrite (nth_indep _ [] (map (f 0%nat) (seq 0 w)))
    by (rewrite length_map, length_seq; lia).
  rewrite (map_nth (fun r => map (f r) (seq 0 w))), seq_nth by lia.
  rewrite (nth_indep _ 0 (f (0 + r)%nat 0%nat))
    by (rewrite length_map, length_seq; lia).
  rewrite (map_nth (f (0 + r)%nat)), seq_nth by lia.
  reflexivity.
Qed.

Lemma getitem_inside (a : ndarray) (r c : Z) :
  inside a (r, c) = true ->
  getitem a r c = Some (item a (Z.to_nat r) (Z.to_nat c)).
Proof.
  unfold inside, getitem, index. cbn [fst snd].
  rewrite !andb_true_iff. intros [[[H1 H2] H3] H4].
  now rewrite H1, H2, H3, H4.
Qed.

(** A painted pixel holds the new value exactly when it is in the region
    or held that value before. *)
Lemma getitem_paint (a : ndarray) (region : list Pixel) (newVal : Z)
      (p : Pixel) :
  inside a p = true ->
  getitem (paint a region newVal) (fst p) (snd p) =
  Some (if mem p region then newVal else at_ a p).
Proof.
  intros Hin. destruct p as [r c].
  assert (Hin' : inside (paint a region newVal) (r, c) = true) by exact Hin.
  cbn [fst snd]. rewrite (getitem_inside _ _ _ Hin').
  unfold inside in Hin. cbn [fst snd] in Hin.
  rewrite !andb_true_iff, !Z.leb_le, !Z.ltb_lt in Hin.
  destruct Hin as [[[H1 H2] H3] H4].
  unfold paint. rewrite item_tabulate by lia.
  rewrite !Z2Nat.id by lia. reflexivity.
Qed.

(** With [cv2] imported: when a flood of the image from the goal pixel
    reaches the seed pixel, [boundary_analysis] returns the empty list (for
    seed and goal inside the image). *)
Theorem boundary_analysis_reached (img : ndarray) (seed goal : Z * Z) :
  cv2_bound = true ->
  inside img (snd goal, fst goal) = true ->
  inside img (snd seed, fst seed) = true ->
  flood_reaches img goal seed ->
  boundary_analysis img seed goal = inr [].
Proof.
  intros Hcv Hgoal Hseed Hreach.
  unfold boundary_analysis, floodFill. rewrite Hcv, Hgoal. cbn [negb].
  pose proof (getitem_paint img (component img (snd goal, fst goal)) 96
                            (snd seed, fst seed) Hseed) as Hget.
  cbn [fst snd] in Hget. rewrite Hget.
  apply FloodFacts.component_connected, FloodFacts.mem_In in Hreach.
  now rewrite Hreach.
Qed.

(** Where the name [cv2] does not resolve, the first call of
    [cv2.floodFill] raises [NameError], whatever the image. *)
Lemma boundary_analysis_without_cv2 (img : ndarray) (seed goal : Z * Z) :
  cv2_bound = false -> boundary_analysis img seed goal = inl NameError.
Proof. intros Hcv. unfold boundary_analysis. now rewrite Hcv. Qed.

(** On an occupancy image the test that ends [boundary_analysis] early
    succeeds only when the flood reaches the seed. *)
Lemma flood_marker_reached (img : ndarray) (seed goal : Z * Z) :
  (at_ img (snd seed, fst seed) = 0 \/ at_ img (snd seed, fst seed) = 255) ->
  inside img (snd seed, fst seed) = true ->
  getitem (paint img (component img (snd goal, fst goal)) 96)
          (snd seed) (fst seed) = Some 96 ->
  flood_reaches img goal seed.
Proof.
  intros Hocc Hseed Hget.
  pose proof (getitem_paint img (component img (snd goal, fst goal)) 96
                            (snd seed, fst seed) Hseed) as Hp.
  cbn [fst snd] in Hp. rewrite Hp in Hget.
  apply FloodFacts.component_connected, FloodFacts.mem_In.
  destruct (mem _ _); [reflexivity |]. injection Hget as Hget. lia.
Qed.

End Boundary.

(** C8. The file calls [cv2.floodFill] and has no import of [cv2].  In
    the 3-by-3 image with every cell clear a flood from the goal (2, 2)
    reaches the seed (0, 0), both inside the image, and
    [boundary_analysis] raises [NameError] where the empty list is due. *)
Theorem boundary_analysis_name_error :
  np.wf Demo.all_clear /\ cv2.occupancy Demo.all_clear /\
  cv2.inside Demo.all_clear (0, 0)%Z = true /\
  cv2.inside Demo.all_clear (2, 2)%Z = true /\
  cv2.flood_reaches Demo.all_clear (2, 2)%Z (0, 0)%Z /\
  @boundary_analysis (Demo.collaborators false) Demo.all_clear
                     (0, 0)%Z (2, 2)%Z = inl NameError.
Proof.
  split; [split; [reflexivity | repeat constructor] |].
  split.
  { unfold cv2.occupancy. cbn.
    repeat first [ apply Forall_nil | apply Forall_cons
                 | left; reflexivity ]. }
  split; [reflexivity |]. split; [reflexivity |].
  split.
  - apply FloodFacts.component_connected, FloodFacts.mem_In.
    vm_compute. reflexivity.
  - apply boundary_analysis_without_cv2. reflexivity.
Qed.

(** With [cv2] imported, the emptiness of the result does not tell that
    the flood reached the seed: in the 3-by-3 image whose corner is cut
    off by two occupied cells, the flood from the goal (2, 2) does not
    reach the seed (0, 0), no occupied cell lies on the inner border, and
    [boundary_analysis] returns the empty list. *)
Lemma boundary_analysis_empty_unreached :
  np.wf Demo.corner_cut /\ cv2.occupancy Demo.corner_cut /\
  @boundary_analysis (Demo.collaborators true) Demo.corner_cut
                     (0, 0)%Z (2, 2)%Z = inr [] /\
  ~ cv2.flood_reaches Demo.corner_cut (2, 2)%Z (0, 0)%Z.
Proof.
  split; [split; [reflexivity | repeat constructor] |].
  split.
  { unfold cv2.occupancy. cbn.
    repeat first [ apply Forall_nil | apply Forall_cons
                 | left; reflexivity | right; reflexivity ]. }
  split; [vm_compute; reflexivity |].
  intros H. apply FloodFacts.component_connected, FloodFacts.mem_In in H.
  vm_compute in H. discriminate.
Qed.

(** ** The theorems at concrete inputs *)

Arguments np.ltb : simpl never.
Arguments np.leb : simpl never.
Arguments np.eqb : simpl never.

(** An assignment to a known node is carried out. *)
Arguments with_busy _ _ /.
Arguments with_done _ _ /.
Arguments with_goal _ _ /.
Arguments with_get_ref _ _ /.
Arguments with_get_eff _ _ /.
Arguments with_x_seq _ _ /.
Arguments with_u_seq _ _ /.
Arguments with_tree _ _ /.
Arguments with_move_type _ _ /.
Arguments with_behavior _ _ /.
Arguments with_enroute_behavior _ _ /.
Arguments with_goal_bias _ _ /.
Arguments with_sample_space _ _ /.
Arguments with_guide _ _ /.
Arguments with_stuck _ _ /.
Arguments with_stuck_count _ _ /.
Arguments with_last_update_time _ _ /.
Arguments with_next_runtime _ _ /.
Arguments with_next_seed _ _ /.
Arguments with_time_till_issue _ _ /.
Arguments with_preempted _ _ /.
Arguments with_node _ _ /.
Arguments with_store _ _ /.
Arguments with_ticks _ _ /.
Arguments with_out _ _ /.

(** Reading attributes of a node that is known. *)
Ltac read_node :=
  cbn [
       ogrid ogrid_threshold state tracking busy done goal get_ref
       get_eff x_seq u_seq tree move_type behavior enroute_behavior
       goal_bias sample_space guide stuck stuck_count last_update_time
       next_runtime next_seed time_till_issue preempted with_busy
       with_done with_goal with_get_ref with_get_eff with_x_seq
       with_u_seq with_tree with_move_type with_behavior
       with_enroute_behavior with_goal_bias with_sample_space with_guide
       with_stuck with_stuck_count with_last_update_time
       with_next_runtime with_next_seed with_time_till_issue
       with_preempted params cv2_bound cv2_dilate gen_ss
       update_plan unkill kill_update planner_set_goal set_focus
       planner_x_seq planner_u_seq planner_tree planner_T
       plan_reached_goal get_state get_effort boat_lqr_gain
       boat_dynamics rostime_at is_shutdown_at interp1d_state
       interp1d_effort euler_yaw dt basic_duration pointshoot_tol
       free_radius real_tol velmax_pos stuck_threshold fudge_factor FPR
       ss_step ss_start boat_width boat_length vps vps_spacing node
       store ticks out with_node with_store with_ticks with_out locked
       is_some negb andb orb fst snd eval_ref behavior_is behavior_eqb
       move_type_is Demo.world Demo.collaborators Demo.demo_params
       Demo.with_issue Demo.with_odom Demo.fresh Demo.escaping
       Demo.killed Demo.focus Demo.planner_goal Demo.small_tree
       Demo.goal_ahead Demo.origin_state Demo.seed_near Demo.pose_1_2
       Demo.fly Demo.circle_move Z.leb Z.ltb Z.eqb Z.compare Pos.compare
       Pos.compare_cont Pos.eqb Z.add
       Pos.add Pos.succ Z.to_nat Pos.to_nat Pos.iter_op Nat.add
       tree_size tree_state xy sx sy sh svx svy sw].

(** Running a method on a known world: step, read, and settle the
    comparisons of reals that come up. *)
Ltac run :=
  repeat first [ run_step; read_node
               | rewrite ltb_false by (read_node; lra)
               | rewrite ltb_true by (read_node; lra) ].

Module DemoRuns.

Import Demo.

Local Abbreviation C0 := (collaborators true).

Lemma goal_is_far :
  np.ltb 1 (np.norm (vsub (xy goal_ahead) (xy origin_state))) = true.
Proof.
  unfold vsub. read_node.
  replace (4 - 0, 0 - 0) with (4, 0) by (f_equal; lra).
  rewrite norm_on_axis by lra. apply ltb_true. lra.
Qed.

Lemma decide_w_issue (is_killed : bool) :
  @decide C0 0 (locked (w_issue is_killed)) = Done tt (w_decided is_killed).
Proof.
  unfold w_issue, decide, immediate_issue, seed_ahead, call_get_ref. run.
  reflexivity.
Qed.

Lemma update_w_decided (is_killed : bool) :
  @update C0 (w_decided is_killed) = Done (negb is_killed) (w_decided is_killed).
Proof. reflexivity. Qed.

Lemma oddly_small_w_decided :
  @oddly_small C0 (w_decided false) = Done true (w_decided false).
Proof.
  unfold w_decided, oddly_small. run.
  change (@ret C0 bool ?b ?w) with (Done b w).
  now rewrite goal_is_far.
Qed.

Lemma tree_chain_w_issue :
  @tree_chain C0 0 (w_issue false) = Done (Some true) w_chained.
Proof.
  rewrite tree_chain_not_busy by reflexivity.
  erewrite run_done by apply decide_w_issue.
  unfold update_and_finish.
  erewrite run_done by apply update_w_decided.
  cbn [negb]. unfold update_finished_properly, might_be_stuck.
  rewrite !run_bind. erewrite run_done by apply oddly_small_w_decided.
  unfold w_decided, cash_in, call_get_ref, publish_tree, publish_path,
    publish_expl. run.
  reflexivity.
Qed.

(** One clean round with an oddly small tree. *)
Lemma round_w_issue : @clean_round C0 0 true (w_issue false) w_chained.
Proof.
  split; [reflexivity |].
  exists (w_decided false), (w_decided false).
  split; [apply decide_w_issue |].
  split; [apply update_w_decided |].
  split; [apply oddly_small_w_decided | apply tree_chain_w_issue].
Qed.

(** C2, as stated, fails: the request with the unknown move type "fly" is
    rejected with the code [move_type], and the goal, empty before, holds
    the requested pose afterwards. *)
Lemma move_cb_rejection_sets_goal :
  exists w',
    @move_cb C0 0 fly w_odom = Done false w' /\
    out w' = [GoalPub (mkState 1 2 0 0 0 0); Aborted "move_type"] /\
    goal (node w_odom) = None /\
    goal (node w') = Some (mkState 1 2 0 0 0 0).
Proof.
  rewrite (move_cb_unknown_move_type 0 fly w_odom)
    by (try reflexivity; discriminate).
  eexists. split; [reflexivity |]. repeat split.
Qed.

Lemma move_cb_rejected_witness :
  exists w',
    @move_cb C0 0 fly w_odom = Done false w' /\
    node w' = @after_rejection C0 fly (node w_odom).
Proof.
  destruct (@move_cb_rejected C0 0 fly w_odom "move_type" eq_refl)
    as (w' & Hrun & _ & Hnode & _).
  exists w'. split; [exact Hrun | exact Hnode].
Defined.

Lemma tree_chain_immediate_issue_witness :
  exists (seed : State) (w1 : @World C0),
    decide 0 (locked (w_issue false)) = Done tt w1 /\
    next_runtime (node w1) = Some (0 / 2) /\
    next_seed (node w1) = Some seed /\
    behavior (node w1) = Some escape /\
    goal_bias (node w1) = Some (BiasScalar 0) /\
    sample_space (node w1) = Some (@gen_ss C0 escape seed goal_ahead None) /\
    guide (node w1) = Some goal_ahead.
Proof.
  assert (Hnear : 0 <= 2 * basic_duration (@params C0)) by (cbn; lra).
  destruct (@tree_chain_immediate_issue C0 0 (w_issue false) 0 0
              (RefConst origin_state) goal_ahead
              eq_refl eq_refl Hnear eq_refl eq_refl eq_refl)
    as (seed & w1 & _ & Hd & _ & Hrt & Hns & Hb & Hgb & Hss & Hgd & _).
  exists seed, w1. repeat (split; [assumption |]). assumption.
Defined.

Lemma tree_chain_killed_update_witness :
  exists w',
    @tree_chain C0 0 (w_issue true) = Done (Some false) w' /\
    x_seq (node w') = Some [origin_state] /\
    get_ref (node w') = Some (RefConst origin_state) /\
    last_update_time (node w') = Some 0.
Proof.
  destruct (@tree_chain_killed_update C0 0 (w_issue true) (w_decided true)
              (w_decided true) eq_refl (decide_w_issue true)
              (update_w_decided true))
    as (w' & Hrun & Hx & _ & _ & Hr & _ & Hl).
  exists w'. split; [exact Hrun |]. split; [exact Hx |].
  split; [exact Hr | exact Hl].
Defined.

(** C5, as stated, fails: with [stuck_threshold = 1] and the counter at 0,
    one clean update with an oddly small tree (as many as the threshold)
    leaves [stuck] false. *)
Lemma stuck_not_set_after_threshold_rounds :
  stuck_threshold (@params C0) = 1%Z /\
  stuck_count (node (w_issue false)) = 0%Z /\
  @streak C0 0 1 (w_issue false) w_chained /\
  stuck (node w_chained) = false /\
  stuck_count (node w_chained) = 1%Z.
Proof.
  split; [reflexivity |]. split; [reflexivity |].
  split; [| split; reflexivity].
  apply streak_more with (w_issue false);
    [apply streak_none | apply round_w_issue].
Qed.

Lemma stuck_after_threshold_plus_one_witness :
  stuck (node w_chained) = false /\ stuck_count (node w_chained) = 1%Z.
Proof.
  exact (proj1 (@stuck_after_threshold_plus_one C0 0) true (w_issue false)
               w_chained round_w_issue).
Defined.

Lemma tree_chain_busy_returns_witness :
  @tree_chain C0 0 (world true updating false)
  = Done None (world true updating false).
Proof. apply tree_chain_busy_returns. reflexivity. Defined.

Lemma boundary_analysis_reached_witness :
  @boundary_analysis C0 all_clear (0, 0)%Z (2, 2)%Z = inr [].
Proof.
  apply boundary_analysis_reached; try reflexivity.
  apply FloodFacts.component_connected, FloodFacts.mem_In.
  vm_compute. reflexivity.
Defined.

End DemoRuns.

(** ** The SO(2) error, continued *)

Lemma arctan2_sin_cos (d : R) :
  - PI < d <= PI -> np.arctan2 (sin d) (cos d) = d.
Proof.
  intros [Hlo Hhi]. pose proof PI_RGT_0 as Hpi. unfold np.arctan2.
  destruct (Rtotal_order d (- (PI / 2))) as [Hd | [Hd | Hd]].
  - (* below -PI/2 *)
    assert (Hc : cos d < 0).
    { rewrite <- cos_neg. apply cos_lt_0; lra. }
    assert (Hs : sin d < 0).
    { replace d with (- (- d)) by ring. rewrite sin_neg.
      assert (0 < sin (- d)) by (apply sin_gt_0; lra). lra. }
    destruct (Rlt_dec 0 (cos d)); [lra |].
    destruct (Rlt_dec (cos d) 0); [| lra].
    destruct (Rle_dec 0 (sin d)); [lra |].
    replace (sin d / cos d) with (tan (d + PI)).
    + rewrite atan_tan by lra. ring.
    + unfold tan. rewrite sin_plus, cos_plus, sin_PI, cos_PI. field. lra.
  - (* -PI/2 *)
    subst d. rewrite cos_neg, sin_neg, cos_PI2, sin_PI2.
    repeat match goal with
           | |- context [Rlt_dec ?u ?v] => destruct (Rlt_dec u v); try lra
           end.
  - destruct (Rtotal_order d (PI / 2)) as [Hd' | [Hd' | Hd']].
    + (* the open right half plane *)
      assert (Hc : 0 < cos d) by (apply cos_gt_0; lra).
      destruct (Rlt_dec 0 (cos d)); [| lra].
      fold (tan d). apply atan_tan. lra.
    + subst d. rewrite cos_PI2, sin_PI2.
      destruct (Rlt_dec 0 0); [lra |].
      destruct (Rlt_dec 0 1); [reflexivity | lra].
    + (* above PI/2 *)
      assert (Hc : cos d < 0) by (apply cos_lt_0; lra).
      assert (Hs : 0 <= sin d) by (apply sin_ge_0; lra).
      destruct (Rlt_dec 0 (cos d)); [lra |].
      destruct (Rlt_dec (cos d) 0); [| lra].
      destruct (Rle_dec 0 (sin d)); [| lra].
      replace (sin d / cos d) with (tan (d - PI)).
      * rewrite atan_tan by lra. ring.
      * unfold tan. rewrite sin_minus, cos_minus, sin_PI, cos_PI. field. lra.
Qed.

Lemma angle_diff_minus (a b : R) :
  angle_diff a b = np.arctan2 (sin (a - b)) (cos (a - b)).
Proof. unfold angle_diff. cbv zeta. now rewrite sin_minus, cos_minus. Qed.

(** X1. [angle_diff(a, b)] is the difference [a - b] brought into
    (-PI, PI] by a whole number of turns: when [a - b - 2 k PI] lies in
    that interval, it is the value returned. *)
Theorem angle_diff_principal (a b : R) (k : Z) :
  - PI < a - b - 2 * IZR k * PI <= PI ->
  angle_diff a b = a - b - 2 * IZR k * PI.
Proof.
  intros H. rewrite angle_diff_minus.
  replace (a - b) with (a - b - 2 * IZR k * PI + 2 * IZR k * PI) at 1 2
    by ring.
  rewrite sin_period_Z, cos_period_Z. now apply arctan2_sin_cos.
Qed.

(** X2. The error of a state against itself is zero in every
    component. *)
Theorem erf_self (x : State) : erf x x = mkState 0 0 0 0 0 0.
Proof.
  unfold erf. rewrite angle_diff_minus.
  replace (sh x - sh x) with 0 by ring.
  rewrite arctan2_sin_cos by (pose proof PI_RGT_0; lra).
  f_equal; ring.
Qed.

(** X3. Swapping the two angles negates the difference, except at the
    half turn, where both orders give PI. *)
Theorem angle_diff_swap (a b : R) :
  angle_diff b a =
  if np.eqb (angle_diff a b) PI then PI else - angle_diff a b.
Proof.
  rewrite !angle_diff_minus.
  replace (b - a) with (- (a - b)) by ring.
  rewrite sin_neg, cos_neg.
  set (y := sin (a - b)). set (x := cos (a - b)).
  pose proof PI_RGT_0 as Hpi.
  assert (Hodd : atan (- y / x) = - atan (y / x)).
  { replace (- y / x) with (- (y / x)) by (unfold Rdiv; ring).
    apply atan_opp. }
  assert (Hbound : forall t, - (PI / 2) < atan t < PI / 2).
  { intros t. pose proof (atan_bound t). lra. }
  assert (Hzero : atan (y / x) = 0 -> x <> 0 -> y = 0).
  { intros E0 Hx.
    assert (E1 : y / x = 0).
    { rewrite <- (tan_atan (y / x)), E0. apply tan_0. }
    replace y with (y / x * x) by (field; exact Hx). rewrite E1. ring. }
  pose proof (Hbound (y / x)) as Hb.
  unfold np.eqb, np.arctan2.
  repeat match goal with
         | |- context [Rlt_dec ?u ?v] => destruct (Rlt_dec u v); try lra
         | |- context [Rle_dec ?u ?v] => destruct (Rle_dec u v); try lra
         end;
    rewrite ?Hodd;
    match goal with
    | |- context [Req_dec_T ?u ?v] => destruct (Req_dec_T u v) as [E | E]
    end;
    try lra.
  exfalso. apply E. assert (Hy : y = 0) by lra. rewrite Hy.
  replace (0 / x) with 0 by (unfold Rdiv; ring). rewrite atan_0. ring.
Qed.

Lemma angle_diff_principal_witness :
  angle_diff (2 * PI) 0 = 2 * PI - 0 - 2 * IZR 1 * PI.
Proof.
  apply (@angle_diff_principal (2 * PI) 0 1).
  pose proof PI_RGT_0. split; lra.
Defined.

(** ** The feasibility oracle, continued *)

Lemma index_out (n : nat) (i : Z) :
  (i < - Z.of_nat n \/ Z.of_nat n <= i)%Z -> np.index n i = None.
Proof.
  intros H. unfold np.index.
  destruct (Z.leb_spec 0 i), (Z.ltb_spec i (Z.of_nat n)),
    (Z.leb_spec (- Z.of_nat n) i), (Z.ltb_spec i 0); cbn; try reflexivity; lia.
Qed.

Lemma getitems_out (a : np.ndarray) (rcs : list (Z * Z)) (r c : Z) :
  In (r, c) rcs -> np.getitem a r c = None -> np.getitems a rcs = None.
Proof.
  intros Hin Hnone. induction rcs as [| [r' c'] rest IH]; [contradiction |].
  cbn. destruct Hin as [[= -> ->] | Hin].
  - now rewrite Hnone.
  - rewrite (IH Hin). now destruct (np.getitem a r' c').
Qed.

Lemma getitems_inside (a : np.ndarray) (ps : list (Z * Z)) :
  Forall (fun p => cv2.inside a (snd p, fst p) = true) ps ->
  np.getitems a (map (fun i => (snd i, fst i)) ps) =
  Some (map (fun p => cv2.at_ a (snd p, fst p)) ps).
Proof.
  induction 1 as [| [c r] ps Hp _ IH]; [reflexivity |].
  cbn [map np.getitems fst snd] in *.
  rewrite (getitem_inside _ _ _ Hp), IH. reflexivity.
Qed.

Lemma forallb_of_map {A B : Type} (f : A -> B) (p : B -> bool) (l : list A) :
  forallb p (map f l) = forallb (fun a => p (f a)) l.
Proof. induction l as [| a l IH]; [reflexivity |]. cbn. now rewrite IH. Qed.

Section FeasibilityFacts.

Context {C : Collaborators}.

(** X4. The verdict depends on the pose alone, and on the heading only up
    to whole turns: the velocities of the state and the effort play no
    part. *)
Theorem is_feasible_pose_only (n : Node) (x x' : State) (u u' : Effort)
        (k : Z) :
  sx x' = sx x -> sy x' = sy x -> sh x' = sh x + 2 * IZR k * PI ->
  is_feasible n x' u' = is_feasible n x u.
Proof.
  intros Hx Hy Hh. unfold is_feasible.
  now rewrite Hx, Hy, Hh, cos_period_Z, sin_period_Z.
Qed.

(** X5. A footprint pixel at or beyond the far edge of the grid, or more
    than the grid's size before its near edge, makes the state
    infeasible. *)
Theorem is_feasible_outside (n : Node) (g : OGrid) (x : State) (u : Effort)
        (c r : Z) :
  ogrid n = Some g ->
  In (c, r) (footprint_pixels g x) ->
  (c < - Z.of_nat (np.shape1 (cells g)) \/
   Z.of_nat (np.shape1 (cells g)) <= c \/
   r < - Z.of_nat (np.shape0 (cells g)) \/
   Z.of_nat (np.shape0 (cells g)) <= r)%Z ->
  is_feasible n x u = false.
Proof.
  intros Hg Hin Hout. rewrite (is_feasible_grid n x u Hg).
  rewrite (@getitems_out (cells g) _ r c); [reflexivity | |].
  - apply in_map_iff. exists (c, r). split; [reflexivity | exact Hin].
  - unfold np.getitem.
    destruct Hout as [H | [H | [H | H]]].
    + rewrite (@index_out (np.shape1 (cells g)) c) by lia.
      now destruct (np.index _ r).
    + rewrite (@index_out (np.shape1 (cells g)) c) by lia.
      now destruct (np.index _ r).
    + now rewrite (@index_out (np.shape0 (cells g)) r) by lia.
    + now rewrite (@index_out (np.shape0 (cells g)) r) by lia.
Qed.

(** X6. When every footprint pixel lies inside the grid, the state is
    feasible exactly when each of those cells is below the threshold; the
    pixel (x, y) is looked up at row y, column x. *)
Theorem is_feasible_inside (n : Node) (g : OGrid) (x : State) (u : Effort) :
  ogrid n = Some g ->
  Forall (fun p => cv2.inside (cells g) (snd p, fst p) = true)
         (footprint_pixels g x) ->
  is_feasible n x u =
  forallb (fun p => np.ltb (IZR (cv2.at_ (cells g) (snd p, fst p)))
                           (ogrid_threshold n))
          (footprint_pixels g x).
Proof.
  intros Hg Hin. rewrite (is_feasible_grid n x u Hg).
  rewrite (getitems_inside _ Hin). apply forallb_of_map.
Qed.

(** X7. Raising the threshold never turns a feasible state infeasible. *)
Theorem is_feasible_threshold_monotone (n n' : Node) (x : State)
        (u : Effort) :
  ogrid n' = ogrid n ->
  ogrid_threshold n <= ogrid_threshold n' ->
  is_feasible n x u = true -> is_feasible n' x u = true.
Proof.
  intros Hg Ht. unfold is_feasible. rewrite Hg.
  destruct (ogrid n) as [g |]; [| reflexivity].
  destruct (np.getitems _ _) as [vs |]; [| discriminate].
  rewrite !forallb_forall. intros H v Hv. specialize (H v Hv).
  unfold np.ltb in *.
  destruct (Rlt_dec (IZR v) (ogrid_threshold n)); [| discriminate].
  destruct (Rlt_dec (IZR v) (ogrid_threshold n')); [reflexivity | lra].
Qed.

End FeasibilityFacts.

Module FeasibilityRuns.

Import Demo Scenes.

Local Abbreviation C0 := (collaborators true).

(** On the two-cell grid, a vehicle at (a, 0) with heading 0 covers the
    pixel (a, 0). *)
Lemma footprint_two_cells (a : Z) :
  @footprint_pixels C0 two_cells (mkState (IZR a) 0 0 0 0 0) = [(a, 0%Z)].
Proof.
  unfold footprint_pixels, to_pixel. cbn.
  rewrite cos_0, sin_0.
  replace (1 * (IZR a + (1 * 0 - 0 * 0) - 0)) with (IZR a) by lra.
  replace (1 * (0 + (0 * 0 + 1 * 0) - 0)) with (IZR 0) by lra.
  now rewrite !trunc_IZR.
Qed.

Lemma origin_feasible :
  @is_feasible C0 with_two_cells origin_state zeros3 = true.
Proof.
  rewrite (@is_feasible_grid C0 _ two_cells) by reflexivity.
  unfold origin_state. rewrite (footprint_two_cells 0).
  replace (np.getitems (cells two_cells)
             (map (fun i => (snd i, fst i)) [(0, 0)%Z]))
    with (Some [0%Z]) by (vm_compute; reflexivity).
  cbn. rewrite ltb_true by lra. reflexivity.
Qed.

Lemma is_feasible_pose_only_witness :
  @is_feasible C0 with_two_cells turned_once (mkEffort 1 1 1) =
  @is_feasible C0 with_two_cells origin_state zeros3.
Proof.
  apply (@is_feasible_pose_only C0 with_two_cells origin_state turned_once
           zeros3 (mkEffort 1 1 1) 1); cbn; ring.
Defined.

Lemma is_feasible_outside_witness :
  @is_feasible C0 with_two_cells right_of_grid zeros3 = false.
Proof.
  apply (@is_feasible_outside C0 with_two_cells two_cells right_of_grid
           zeros3 2 0 eq_refl).
  - unfold right_of_grid. rewrite (footprint_two_cells 2). now left.
  - cbn. lia.
Defined.

Lemma is_feasible_inside_witness :
  @is_feasible C0 with_two_cells origin_state zeros3 =
  forallb (fun p => np.ltb (IZR (cv2.at_ (cells two_cells) (snd p, fst p))) 90)
          (@footprint_pixels C0 two_cells origin_state).
Proof.
  apply (@is_feasible_inside C0 with_two_cells two_cells origin_state zeros3
           eq_refl).
  unfold origin_state. rewrite (footprint_two_cells 0).
  repeat constructor.
Defined.

Lemma is_feasible_threshold_monotone_witness :
  @is_feasible C0 with_two_cells origin_state zeros3 = true.
Proof.
  apply (@is_feasible_threshold_monotone C0 with_two_cells with_two_cells
           origin_state zeros3 eq_refl).
  - cbn. lra.
  - exact origin_feasible.
Defined.

End FeasibilityRuns.

(** ** The decisions, continued *)

Lemma clip_between (x lo hi : R) : lo <= hi -> lo <= np.clip x lo hi <= hi.
Proof.
  intros H. unfold np.clip, Rmin, Rmax.
  destruct (Rle_dec x lo), (Rle_dec _ hi); lra.
Qed.

Lemma np_ltb_spec (a b : R) : reflect (a < b) (np.ltb a b).
Proof.
  unfold np.ltb. destruct (Rlt_dec a b); constructor; assumption.
Qed.

Section Decisions.

Context {C : Collaborators}.

Lemma move_type_is_true (n : Node) (name : string) :
  move_type_is n name = true <-> move_type n = Some name.
Proof.
  unfold move_type_is. destruct (move_type n) as [mt |].
  - rewrite String.eqb_eq. split; congruence.
  - split; discriminate.
Qed.

(** X8. [select_behavior] reads and does not write.  It returns [escape]
    exactly when the node is stuck; [car] only for a drive whose next
    seed is at least [free_radius] from the goal; [boat] only for a skid,
    or for a drive whose next seed is nearer than that. *)
Theorem select_behavior_returns (w w' : World) (b : Behavior) :
  select_behavior w = Done b w' ->
  w' = w /\
  (b = escape <-> stuck (node w) = true) /\
  (b = car ->
   move_type (node w) = Some "drive"%string /\
   exists g s, goal (node w) = Some g /\ next_seed (node w) = Some s /\
               free_radius params <= np.norm (vsub (xy g) (xy s))) /\
  (b = boat ->
   move_type (node w) = Some "skid"%string \/
   (move_type (node w) = Some "drive"%string /\
    exists g s, goal (node w) = Some g /\ next_seed (node w) = Some s /\
                np.norm (vsub (xy g) (xy s)) < free_radius params)).
Proof.
  unfold select_behavior, bind, self, need, ret, raise.
  destruct (stuck (node w)) eqn:Hstuck.
  { intros [= <- <-]. repeat split; try discriminate; reflexivity. }
  destruct (goal (node w)) as [g |]; [| discriminate].
  destruct (next_seed (node w)) as [s |]; [| discriminate].
  destruct (move_type_is (node w) "drive") eqn:Hdrive.
  - apply move_type_is_true in Hdrive.
    destruct (np_ltb_spec (np.norm (vsub (xy g) (xy s))) (free_radius params))
      as [Hnear | Hfar]; intros [= <- <-];
      (split; [reflexivity |]); (split; [split; discriminate |]);
      split; try discriminate.
    + intros _. right. split; [exact Hdrive |]. now exists g, s.
    + intros _. split; [exact Hdrive |]. exists g, s.
      repeat split. lra.
  - destruct (move_type_is (node w) "skid") eqn:Hskid; [| discriminate].
    apply move_type_is_true in Hskid. intros [= <- <-].
    split; [reflexivity |]. split; [split; discriminate |].
    split; [discriminate |]. intros _. now left.
Qed.

(** X9. A node that is not stuck and whose move is neither a drive nor a
    skid (a hold, a circle, or none after [reset]) has no behaviour:
    [select_behavior] raises [ValueError]. *)
Theorem select_behavior_undetermined (w : World) (g s : State) :
  stuck (node w) = false ->
  goal (node w) = Some g ->
  next_seed (node w) = Some s ->
  move_type (node w) <> Some "drive"%string ->
  move_type (node w) <> Some "skid"%string ->
  select_behavior w = Raised ValueError w.
Proof.
  intros Hstuck Hg Hs Hdrive Hskid.
  unfold select_behavior, bind, self, need, ret, raise.
  rewrite Hstuck, Hg, Hs.
  destruct (move_type_is (node w) "drive") eqn:E;
    [apply move_type_is_true in E; contradiction |].
  destruct (move_type_is (node w) "skid") eqn:E';
    [apply move_type_is_true in E'; contradiction |].
  reflexivity.
Qed.

(** *** Exploration without a grid *)

(** X10. Without an occupancy grid the method never binds [ss]: for
    [car] and [boat] it raises [UnboundLocalError] where it builds its
    value. *)
Theorem select_exploration_without_grid (fuel : nat) (w : World)
        (b : Behavior) (g s : State) :
  behavior (node w) = Some b -> b <> escape ->
  goal (node w) = Some g ->
  next_seed (node w) = Some s ->
  ogrid (node w) = None ->
  select_exploration fuel w = Raised UnboundLocalError w.
Proof.
  intros Hb Hne Hg Hs Hgrid.
  unfold select_exploration, bind, self, need, ret, raise.
  rewrite Hb, Hg, Hs, Hgrid.
  destruct b; cbn; [reflexivity | reflexivity | contradiction].
Qed.

(** Where the name [cv2] does not resolve, the grid analysis stops at
    [cv2.dilate]. *)
Lemma analyze_ogrid_without_cv2 (fuel : nat) (g : OGrid) (seed_x : State)
      (w : World) :
  cv2_bound = false ->
  analyze_ogrid fuel g seed_x w = Raised NameError w.
Proof.
  intros Hcv. unfold analyze_ogrid, bind, self, raise. now rewrite Hcv.
Qed.

(** X11. With a grid and a next seed, [car] and [boat] reach
    [cv2.dilate]; the file imports no [cv2], and where that name does not
    resolve the method raises [NameError]. *)
Theorem select_exploration_without_cv2 (fuel : nat) (w : World)
        (b : Behavior) (g : OGrid) (s : State) :
  cv2_bound = false ->
  behavior (node w) = Some b -> b <> escape ->
  ogrid (node w) = Some g ->
  next_seed (node w) = Some s ->
  select_exploration fuel w = Raised NameError w.
Proof.
  intros Hcv Hb Hne Hgrid Hs.
  unfold select_exploration. rewrite run_self. cbv beta.
  rewrite Hb, Hgrid, Hs.
  replace (behavior_is (Some b) escape) with false
    by (destruct b; [reflexivity | reflexivity | contradiction]).
  rewrite run_bind.
  now rewrite (run_raised _ _ _ (analyze_ogrid_without_cv2 fuel g s w Hcv)).
Qed.

(** *** The goal bias *)

Lemma analyze_ogrid_bias (fuel : nat) (g : OGrid) (seed_x : State)
      (w w' : World)
      (r : (GoalBias * SampleSpace * State) + (R * SampleSpace * State)) :
  analyze_ogrid fuel g seed_x w = Done r w' ->
  w' = w /\
  match r with
  | inl (gb, _, _) => gb = BiasScalar 0
  | inr (b, _, _) => 0 <= b <= 1
  end.
Proof.
  unfold analyze_ogrid, bind, self, need, lift, ret, raise.
  destruct cv2_bound; [| discriminate].
  destruct (Z.ltb _ 0); [discriminate |].
  destruct (behavior (node w)) as [b |]; [| discriminate].
  destruct (goal (node w)) as [goal_x |]; [| discriminate].
  destruct (np.getitem _ _ _); [| intros [= <- <-]; now split].
  destruct (np.getitem _ _ _); [| intros [= <- <-]; now split].
  destruct (expand _ _ _ _ _ _ _ _ _) as [e | e]; [discriminate |].
  destruct (push e) as [[[p0 p1] p2] p3].
  intros [= <- <-]. split; [reflexivity |].
  destruct (Nat.eqb _ 0); [lra |].
  pose proof (@clip_between
                (INR (np.count_eq (ss_img e) 0) / INR (np.size (ss_img e))
                 - 0.05 * IZR (npush e)) 0 0.9 ltac:(lra)).
  lra.
Qed.

(** X12. [select_exploration] reads and does not write, and the goal
    bias it returns is the number 0 or six weights between 0 and 1. *)
Theorem select_exploration_bias (fuel : nat) (w w' : World)
        (gb : GoalBias) (ss : SampleSpace) (gs : State) :
  select_exploration fuel w = Done (gb, ss, gs) w' ->
  w' = w /\ bias_in_range gb.
Proof.
  unfold select_exploration. rewrite run_self. cbv beta.
  destruct (behavior_is (behavior (node w)) escape).
  { unfold bind, need, ret, raise.
    destruct (goal (node w)); [| discriminate].
    destruct (next_seed (node w)); [| discriminate].
    intros [= <- _ _ <-]. now split. }
  assert (Hshaped :
    forall (shaped : M ((GoalBias * SampleSpace * State)
                        + (R * option SampleSpace * option State))),
      (forall r w1, shaped w = Done r w1 ->
                    w1 = w /\
                    match r with
                    | inl (gb', _, _) => gb' = BiasScalar 0
                    | inr (b, _, _) => 0 <= b <= 1
                    end) ->
      forall k, (forall r, k r w = Done (gb, ss, gs) w' ->
                           match r with
                           | inl (gb', _, _) => gb' = BiasScalar 0
                           | inr (b, _, _) => 0 <= b <= 1
                           end -> w' = w /\ bias_in_range gb) ->
      bind shaped k w = Done (gb, ss, gs) w' -> w' = w /\ bias_in_range gb).
  { intros shaped Hs k Hk. unfold bind.
    destruct (shaped w) as [r w1 | e w1] eqn:E; [| discriminate].
    destruct (Hs r w1 eq_refl) as [-> Hr]. intros H. exact (Hk r H Hr). }
  apply Hshaped.
  - intros r w1.
    destruct (ogrid (node w)) as [g |];
      [destruct (next_seed (node w)) as [s |] |].
    + unfold bind.
      destruct (analyze_ogrid fuel g s w) as [r0 w0 | e w0] eqn:Ha;
        [| discriminate].
      destruct (analyze_ogrid_bias _ _ _ _ Ha) as [-> Hr].
      destruct r0 as [[[gb' ss'] gs'] | [[b ss'] gs']];
        unfold ret; intros [= <- <-]; split; auto.
    + unfold ret. intros [= <- <-]. split; [reflexivity | lra].
    + unfold ret. intros [= <- <-]. split; [reflexivity | lra].
  - intros [[[gb' ss'] gs'] | [[b oss] ogs]].
    + unfold ret. intros [= <- _ _ <-] ->. now split.
    + unfold bind, need, ret, raise. intros H Hb. revert H.
      destruct (behavior_is (behavior (node w)) boat).
      * destruct (goal (node w)); [| discriminate].
        destruct (next_seed (node w)); [| discriminate].
        destruct oss; [| discriminate]. destruct ogs; [| discriminate].
        destruct (np.ltb _ _); intros [= <- _ _ <-];
          (split; [reflexivity |]); (split; [reflexivity |]);
          repeat (apply Forall_cons; [lra |]); apply Forall_nil.
      * destruct (behavior_is (behavior (node w)) car); [| discriminate].
        destruct oss; [| discriminate]. destruct ogs; [| discriminate].
        intros [= <- _ _ <-]. split; [reflexivity |]. split; [reflexivity |].
        pose proof (@clip_between b 0 0.75 ltac:(lra)).
        repeat (apply Forall_cons; [lra |]); apply Forall_nil.
Qed.

End Decisions.

(** ** What the action never writes *)

#[export] Instance same_busy_frame : Frame same_busy.
Proof. split; unfold same_busy; [reflexivity | congruence]. Qed.

#[export] Instance same_done_frame : Frame same_done.
Proof. split; unfold same_done; [reflexivity | congruence]. Qed.

#[export] Instance same_sensed_frame : Frame same_sensed.
Proof.
  split; unfold same_sensed.
  - repeat split.
  - intros a b c (H1 & H2 & H3 & H4) (K1 & K2 & K3 & K4).
    repeat split; congruence.
Qed.

#[export] Instance same_onetime_frame : Frame same_onetime.
Proof.
  split; unfold same_onetime.
  - intros n. split; [apply frame_refl | split; reflexivity].
  - intros a b c (H1 & H2 & H3) (K1 & K2 & K3).
    split; [eapply frame_trans; eassumption | split; congruence].
Qed.

Lemma only_decided_onetime (n n' : Node) :
  only_decided n n' -> same_onetime n n'.
Proof. unfold only_decided, same_onetime, same_sensed. tauto. Qed.

Lemma onetime_busy (n n' : Node) : same_onetime n n' -> same_busy n n'.
Proof. unfold same_onetime, same_busy. tauto. Qed.

Lemma onetime_done (n n' : Node) : same_onetime n n' -> same_done n n'.
Proof. unfold same_onetime, same_done. tauto. Qed.

Lemma onetime_sensed (n n' : Node) : same_onetime n n' -> same_sensed n n'.
Proof. unfold same_onetime. tauto. Qed.

Section Untouched.

Context {C : Collaborators}.

Lemma keeps_weaken (same same' : Node -> Node -> Prop) {A} (m : M A) :
  (forall n n', same n n' -> same' n n') -> keeps same m -> keeps same' m.
Proof. intros Hw Hk w. apply Hw, Hk. Qed.

(** A method whose frame is known from a lemma. *)
Ltac keeps_known :=
  lazymatch goal with
  | |- keeps _ (call_get_ref _) => apply call_get_ref_keeps; exact _
  | |- keeps _ publish_tree => apply publish_tree_keeps; exact _
  | |- keeps _ publish_path => apply publish_path_keeps; exact _
  | |- keeps _ publish_expl => apply publish_expl_keeps; exact _
  | |- keeps _ update => apply update_keeps; exact _
  | |- keeps _ select_behavior => apply select_behavior_keeps; exact _
  | |- keeps _ (select_exploration _) =>
      apply select_exploration_keeps; exact _
  end.

Ltac onetime :=
  repeat first [ keeps_known | keeps_step ];
  try (repeat split; reflexivity).

Lemma decide_onetime (fuel : nat) : keeps same_onetime (decide fuel).
Proof.
  eapply keeps_weaken; [apply only_decided_onetime | apply decide_only_decides].
Qed.

Lemma update_finished_properly_onetime :
  keeps same_onetime update_finished_properly.
Proof.
  unfold update_finished_properly, might_be_stuck, oddly_small, cash_in.
  onetime.
Qed.

Lemma reset_onetime : keeps same_onetime reset.
Proof. unfold reset. onetime. Qed.

Lemma set_goal_onetime (x : State) : keeps same_onetime (set_goal x).
Proof. unfold set_goal. onetime. Qed.

Lemma check_focus_onetime (msg : MoveGoal) :
  keeps same_onetime (check_focus msg).
Proof.
  unfold check_focus.
  repeat first [ keeps_known | keeps_step ];
    try apply set_goal_onetime.
Qed.

Lemma rotation_loop_keeps same {F : Frame same} (fuel : nat) :
  forall x xg tol dt_ x_seq u_seq T u,
    keeps same (rotation_loop fuel x xg tol dt_ x_seq u_seq T u).
Proof.
  induction fuel as [| fuel IH]; intros; cbn [rotation_loop].
  - apply keeps_raise. exact _.
  - repeat first [ apply IH | keeps_step ].
Qed.

Lemma standard_driving_onetime (fuel : nat) :
  keeps same_onetime (standard_driving fuel).
Proof.
  unfold standard_driving, rotation_move.
  repeat first [ keeps_known | keeps_step ];
    try (apply rotation_loop_keeps; exact _);
    try (repeat split; reflexivity).
Qed.

Lemma update_and_finish_keeps same {F : Frame same} :
  (forall n n', same_onetime n n' -> same n n') ->
  (forall v n, same n (with_busy v n)) ->
  keeps same update_and_finish.
Proof.
  intros Hw Hb. unfold update_and_finish.
  repeat first [ keeps_known | keeps_step ]; try apply Hb.
  eapply keeps_weaken; [exact Hw | apply update_finished_properly_onetime].
Qed.

Lemma tree_chain_keeps same {F : Frame same} (fuel : nat) :
  (forall n n', same_onetime n n' -> same n n') ->
  (forall v n, same n (with_busy v n)) ->
  keeps same (tree_chain fuel).
Proof.
  intros Hw Hb. unfold tree_chain.
  repeat first [ keeps_known | keeps_step ]; try apply Hb.
  - eapply keeps_weaken; [exact Hw | apply decide_onetime].
  - now apply update_and_finish_keeps.
Qed.

(** *** The lock *)

Lemma for_each_on_store {A} (l : list A) (f : A -> Store -> Store)
      (w : World) :
  exists s, for_each l (fun a => on_store (f a)) w = Done tt (with_store s w).
Proof.
  revert w. induction l as [| a l IH]; intros w.
  - exists (store w). now destruct w.
  - cbn [for_each]. rewrite run_on_store.
    destruct (IH (with_store (f a (store w)) w)) as [s Hs].
    exists s. rewrite Hs. now destruct w.
Qed.

Lemma update_and_finish_lock (w : World) :
  busy (node w) = true -> lock_after false (update_and_finish w).
Proof.
  intros Hb. unfold update_and_finish.
  pose proof (update_keeps (same := same_busy) w) as Hu.
  unfold bind at 1.
  destruct (update w) as [clean w1 | e w1]; cbn [final] in Hu;
    unfold same_busy in Hu; [| cbn; split; congruence].
  unfold bind at 1.
  assert (Hf : keeps same_busy
                 (if clean then update_finished_properly else ret tt)).
  { destruct clean; [| apply keeps_ret; exact _].
    eapply keeps_weaken; [apply onetime_busy |].
    apply update_finished_properly_onetime. }
  specialize (Hf w1). unfold same_busy in Hf.
  destruct ((if clean then update_finished_properly else ret tt) w1)
    as [[] w2 | e w2]; cbn [final] in Hf; [| cbn; split; congruence].
  unfold bind at 1.
  destruct (for_each_on_store behaviors_list unkill w2) as [s ->].
  reflexivity.
Qed.

(** X13. [tree_chain] gives its lock back only on a return.  A call that
    returns leaves [busy] as it found it; a call that an exception leaves
    (from the decision, the planner or the cash-in) found the lock free
    and leaves it taken. *)
Theorem tree_chain_lock (fuel : nat) (w : World) :
  match tree_chain fuel w with
  | Done _ w' => busy (node w') = busy (node w)
  | Raised _ w' => busy (node w) = false /\ busy (node w') = true
  end.
Proof.
  change (lock_after (busy (node w)) (tree_chain fuel w)).
  destruct (busy (node w)) eqn:Hb.
  - unfold tree_chain. rewrite run_self, Hb. cbn. exact Hb.
  - rewrite (tree_chain_not_busy fuel w Hb).
    pose proof (decide_onetime fuel (locked w)) as Hd.
    apply onetime_busy in Hd. unfold same_busy in Hd.
    unfold bind at 1.
    destruct (decide fuel (locked w)) as [[] w1 | e w1]; cbn [final] in Hd.
    + apply update_and_finish_lock. rewrite Hd. reflexivity.
    + cbn. split; [reflexivity | rewrite Hd; reflexivity].
Qed.

(** X14. Once an exception has left [tree_chain], the lock stays taken
    through [reset], and every later call of [tree_chain] returns at once
    without planning. *)
Theorem tree_chain_after_exception (fuel fuel' : nat) (w w1 : World)
        (e : Exn) :
  tree_chain fuel w = Raised e w1 ->
  exists w2,
    reset w1 = Done tt w2 /\
    busy (node w2) = true /\
    tree_chain fuel' w2 = Done None w2.
Proof.
  intros Hrun.
  assert (Hl : busy (node w1) = true).
  { destruct (busy (node w)) eqn:Hb.
    - unfold tree_chain in Hrun. rewrite run_self, Hb in Hrun. discriminate.
    - rewrite (tree_chain_not_busy fuel w Hb) in Hrun.
      pose proof (decide_onetime fuel (locked w)) as Hd.
      apply onetime_busy in Hd. unfold same_busy in Hd.
      unfold bind at 1 in Hrun.
      destruct (decide fuel (locked w)) as [[] w0 | e0 w0];
        cbn [final] in Hd.
      + pose proof (update_and_finish_lock w0) as Hu.
        rewrite Hrun in Hu. apply Hu. rewrite Hd. reflexivity.
      + injection Hrun as _ <-. rewrite Hd. reflexivity. }
  eexists. split; [apply reset_done |].
  assert (Hb : busy (node (with_store (on_all unkill (store w1))
                             (with_node (reset_node (node w1)) w1))) = true)
    by exact Hl.
  split; [exact Hb |].
  unfold tree_chain. rewrite run_self, Hb. reflexivity.
Qed.

(** *** The sensed attributes *)

Lemma over_and_out_keeps same {F : Frame same} :
  (forall v n, same n (with_get_ref v n)) ->
  (forall v n, same n (with_get_eff v n)) ->
  (forall v n, same n (with_done v n)) ->
  keeps same over_and_out.
Proof.
  intros H1 H2 H3. unfold over_and_out.
  repeat first [ keeps_known | keeps_step ]; auto.
Qed.

Lemma sensed_of_setters :
  (forall v n, same_sensed n (with_busy v n)) /\
  (forall v n, same_sensed n (with_done v n)) /\
  (forall v n, same_sensed n (with_get_ref v n)) /\
  (forall v n, same_sensed n (with_get_eff v n)).
Proof. repeat split. Qed.

Lemma chaining_loop_sensed (fuel rounds : nat) :
  keeps same_sensed (chaining_loop fuel rounds).
Proof.
  destruct sensed_of_setters as (Hb & Hd & Hr & He).
  induction rounds as [| rounds IH]; cbn [chaining_loop].
  - apply keeps_raise. exact _.
  - repeat first [ keeps_known | keeps_step ];
      try (apply over_and_out_keeps; [exact _ | assumption ..]);
      try apply IH; try apply Hd.
    apply tree_chain_keeps; [exact _ | apply onetime_sensed | exact Hb].
Qed.

(** X15. Neither the action callback nor a chaining iteration writes
    what the subscribers store: the grid, its threshold, the vehicle's
    state and the tracking verdict are the same after [move_cb] and after
    [tree_chain] as before, however the call ends. *)
Theorem action_keeps_sensed (fuel : nat) (msg : MoveGoal) :
  keeps same_sensed (move_cb fuel msg) /\
  keeps same_sensed (tree_chain fuel).
Proof.
  destruct sensed_of_setters as (Hb & Hd & Hr & He).
  split.
  - unfold move_cb.
    repeat first [ keeps_known | keeps_step ];
      try apply Hd; try apply Hr; try apply He;
      try apply chaining_loop_sensed;
      try (repeat split; reflexivity);
      (eapply keeps_weaken; [apply onetime_sensed |]);
      first [ apply reset_onetime | apply set_goal_onetime
            | apply check_focus_onetime | apply standard_driving_onetime ].
  - apply tree_chain_keeps; [exact _ | apply onetime_sensed | exact Hb].
Qed.

(** *** The flag [done] *)

Lemma flag_bind {A B} (m : M A) (k : A -> M B) (w : World) :
  keeps same_done m ->
  (forall a w1, flag_after (done (node w1)) (k a w1)) ->
  flag_after (done (node w)) (bind m k w).
Proof.
  intros Hm Hk. specialize (Hm w). unfold same_done in Hm. unfold bind.
  destruct (m w) as [a w1 | e w1]; cbn [final] in Hm.
  - rewrite <- Hm. apply Hk.
  - cbn. exact Hm.
Qed.

Lemma flag_raise {A} (e : Exn) (w : World) :
  flag_after (done (node w)) (@raise C A e w).
Proof. reflexivity. Qed.

Lemma over_and_out_flag (w : World) :
  flag_after (done (node w)) (over_and_out w).
Proof.
  unfold over_and_out. rewrite run_self. cbv beta.
  destruct (goal (node w)); cbn; reflexivity.
Qed.

Lemma chaining_loop_flag (fuel rounds : nat) :
  forall w, flag_after (done (node w)) (chaining_loop fuel rounds w).
Proof.
  induction rounds as [| rounds IH]; intros w; cbn [chaining_loop].
  - reflexivity.
  - apply flag_bind; [apply keeps_is_shutdown; exact _ |].
    intros down w1. destruct down; [apply over_and_out_flag |].
    apply flag_bind.
    { apply tree_chain_keeps; [exact _ | apply onetime_done |].
      reflexivity. }
    intros _ w2. rewrite run_self. cbv beta.
    destruct (goal (node w2)) as [g |]; [| reflexivity].
    destruct (state (node w2)) as [x |]; [| reflexivity].
    rewrite !run_need.
    destruct (all_within _ _); [apply over_and_out_flag |].
    destruct (preempted (node w2)); [reflexivity | apply IH].
Qed.

(** X16. The flag [done] tells how [move_cb] ended: it is set when the
    callback returned, whatever it returned, and it is still lowered
    when an exception left the callback. *)
Theorem move_cb_done_flag (fuel : nat) (msg : MoveGoal) (w : World) :
  match move_cb fuel msg w with
  | Done _ w' => done (node w') = true
  | Raised _ w' => done (node w') = false
  end.
Proof.
  change (flag_after false (move_cb fuel msg w)).
  unfold move_cb. rewrite run_assign. cbv beta.
  set (w0 := with_node (with_done false (node w)) w).
  match goal with
  | |- flag_after _ ?r => change (flag_after (done (node w0)) r)
  end.
  clearbody w0. clear w.
  rewrite run_self. cbv beta.
  destruct (is_some (state (node w0))); cbn [negb]; [| exact eq_refl].
  apply flag_bind.
  { eapply keeps_weaken; [apply onetime_done | apply reset_onetime]. }
  intros _ w1. apply flag_bind.
  { eapply keeps_weaken; [apply onetime_done | apply set_goal_onetime]. }
  intros _ w2.
  destruct (existsb _ known_move_types); cbn [negb]; [| exact eq_refl].
  apply flag_bind; [apply keeps_assign; reflexivity |].
  intros _ w3. apply flag_bind.
  { eapply keeps_weaken; [apply onetime_done | apply check_focus_onetime]. }
  intros _ w4. rewrite run_self. cbv beta.
  destruct (move_type_is (node w4) "hold").
  { destruct (state (node w4)) as [x |]; [| exact eq_refl].
    rewrite run_need. apply flag_bind.
    { eapply keeps_weaken; [apply onetime_done | apply set_goal_onetime]. }
    intros _ w5. exact eq_refl. }
  destruct (move_type_is (node w4) "circle"); [exact eq_refl |].
  apply flag_bind.
  { destruct (move_type_is (node w4) "drive").
    - eapply keeps_weaken; [apply onetime_done |].
      apply standard_driving_onetime.
    - destruct (move_type_is (node w4) "skid").
      + repeat keeps_step; reflexivity.
      + apply keeps_ret. exact _. }
  intros _ w5. rewrite run_self. cbv beta.
  destruct (is_some (next_seed (node w5))); [| exact eq_refl].
  rewrite run_ret.
  destruct (is_some (next_runtime (node w5))); [| exact eq_refl].
  rewrite run_ret. apply chaining_loop_flag.
Qed.

(** *** The action result *)

Lemma report_bind {A} (m : M A) (k : A -> M bool) (w : World) :
  (forall a w1, result_reported (k a w1)) ->
  result_reported (bind m k w).
Proof.
  intros Hk. unfold bind.
  destruct (m w) as [a w1 | e w1]; [apply Hk | exact I].
Qed.

Lemma report_end (e : Event) (r : bool) (w : World) :
  reports r e ->
  result_reported ((emit e ;; assign (with_done true) ;; ret r) w).
Proof. intros H. cbn. now exists (out w), e. Qed.

Lemma over_and_out_reported (w : World) : result_reported (over_and_out w).
Proof.
  unfold over_and_out. rewrite run_self. cbv beta.
  destruct (goal (node w)); [| exact I].
  cbn. now exists (out w), Succeeded.
Qed.

Lemma chaining_loop_reported (fuel rounds : nat) :
  forall w, result_reported (chaining_loop fuel rounds w).
Proof.
  induction rounds as [| rounds IH]; intros w; cbn [chaining_loop].
  - exact I.
  - apply report_bind. intros down w1.
    destruct down; [apply over_and_out_reported |].
    apply report_bind. intros _ w2. rewrite run_self. cbv beta.
    apply report_bind. intros g w3. apply report_bind. intros x w4.
    destruct (all_within _ _); [apply over_and_out_reported |].
    destruct (preempted (node w2)); [| apply IH].
    now apply report_end.
Qed.

(** X17. Whenever [move_cb] returns, the last thing it sent is the
    action result that goes with its value: [set_succeeded] before
    [True], [set_aborted] or [set_preempted] before [False]. *)
Theorem move_cb_result_reported (fuel : nat) (msg : MoveGoal) (w w' : World)
        (r : bool) :
  move_cb fuel msg w = Done r w' ->
  exists sent e, out w' = sent ++ [e] /\ reports r e.
Proof.
  intros Hrun.
  enough (H : result_reported (move_cb fuel msg w))
    by (rewrite Hrun in H; exact H).
  clear Hrun. unfold move_cb.
  apply report_bind. intros _ w0. apply report_bind. intros n w1.
  destruct (negb (is_some (state n))); [now apply report_end |].
  apply report_bind. intros _ w2. apply report_bind. intros _ w3.
  destruct (negb (existsb _ known_move_types)); [now apply report_end |].
  apply report_bind. intros _ w4. apply report_bind. intros _ w5.
  apply report_bind. intros n5 w6.
  destruct (move_type_is n5 "hold").
  { do 5 (apply report_bind; intros).
    now apply report_end. }
  destruct (move_type_is n5 "circle"); [now apply report_end |].
  do 4 (apply report_bind; intros).
  apply chaining_loop_reported.
Qed.

End Untouched.

(** ** Moves that go through *)

Section Moves.

Context {C : Collaborators}.

(** What "Check given focus" does for a hold and for a drive: it clears
    the boat's focus and publishes the far-away point. *)
Lemma check_focus_plain (msg : MoveGoal) (w : World) :
  move_type_is (node w) "skid" = false ->
  move_type_is (node w) "circle" = false ->
  check_focus msg w =
  Done tt (with_out (out w ++ [FocusPub (1E6, 1E6)])
             (with_store (set_focus None (store w)) w)).
Proof.
  intros Hs Hc. unfold check_focus. rewrite run_self. cbv beta.
  destruct (msg_focus msg) as [[focus_x focus_y] focus_z].
  rewrite Hs, Hc. reflexivity.
Qed.

(** X18. A hold with odometry in always succeeds: the goal becomes the
    vehicle's state, the reference is that goal at every time, the effort
    is zero, and the action is reported as succeeded. *)
Theorem move_cb_hold (fuel : nat) (msg : MoveGoal) (w : World) (x : State) :
  state (node w) = Some x ->
  msg_move_type msg = "hold"%string ->
  exists w',
    move_cb fuel msg w = Done true w' /\
    goal (node w') = Some x /\
    get_ref (node w') = Some RefGoal /\
    get_eff (node w') = Some EffZeros /\
    last_update_time (node w') = Some (rostime_at (ticks w)) /\
    done (node w') = true /\
    out w' = out w ++ [GoalPub (unpack_pose (msg_goal msg));
                       FocusPub (1E6, 1E6); GoalPub x; Succeeded] /\
    (forall t, call_get_ref t w' = Done (Some x) w').
Proof.
  intros Hx Hm.
  rewrite (move_cb_prepared fuel msg w) by congruence. rewrite Hm.
  replace (existsb (String.eqb "hold") known_move_types) with true
    by reflexivity.
  cbn [negb]. rewrite run_assign. cbv beta.
  erewrite run_done; [| apply check_focus_plain; reflexivity].
  rewrite run_self. cbv beta.
  replace (move_type_is _ "hold") with true by reflexivity.
  replace (state _) with (Some x) by (symmetry; exact Hx).
  rewrite run_need.
  erewrite run_done by apply set_goal_done.
  rewrite run_rostime. cbv beta.
  repeat run_step.
  eexists. split; [reflexivity |].
  repeat (split; [reflexivity |]).
  split; [cbn; now rewrite <- !app_assoc |].
  intros t. reflexivity.
Qed.

(** *** A move before any grid *)

(** An iteration without a grid: the decision reaches
    [select_exploration] with [car] or [boat], which has no [ss] to
    return. *)
Lemma tree_chain_unbound (fuel : nat) (w : World) (g s : State) :
  busy (node w) = false ->
  ogrid (node w) = None ->
  time_till_issue (node w) = None ->
  stuck (node w) = false ->
  last_update_time (node w) = None ->
  goal (node w) = Some g ->
  next_seed (node w) = Some s ->
  move_type (node w) = Some "drive"%string \/
  move_type (node w) = Some "skid"%string ->
  exists w',
    tree_chain fuel w = Raised UnboundLocalError w' /\
    busy (node w') = true /\ done (node w') = done (node w).
Proof.
  intros Hbusy Hgrid Htti Hstuck Hlast Hg Hs Hmove.
  rewrite (tree_chain_not_busy fuel w Hbusy).
  assert (Hb : exists b, b <> escape /\
                         select_behavior (locked w) = Done b (locked w)).
  { unfold select_behavior. rewrite run_self. cbv beta.
    replace (stuck (node (locked w))) with false by (symmetry; exact Hstuck).
    replace (goal (node (locked w))) with (Some g) by (symmetry; exact Hg).
    replace (next_seed (node (locked w))) with (Some s)
      by (symmetry; exact Hs).
    rewrite !run_need. unfold move_type_is.
    replace (move_type (node (locked w))) with (move_type (node w))
      by reflexivity.
    destruct Hmove as [-> | ->].
    - replace (String.eqb "drive" "drive") with true by reflexivity.
      destruct (np.ltb _ _); [exists boat | exists car];
        split; try discriminate; reflexivity.
    - replace (String.eqb "skid" "drive") with false by reflexivity.
      replace (String.eqb "skid" "skid") with true by reflexivity.
      exists boat. split; [discriminate | reflexivity]. }
  destruct Hb as (b & Hne & Hb).
  set (w1 := with_node (with_behavior (Some b) (node (locked w))) (locked w)).
  assert (He : select_exploration fuel w1 = Raised UnboundLocalError w1).
  { unfold select_exploration, bind, self, need, ret, raise.
    replace (behavior (node w1)) with (Some b) by reflexivity.
    replace (goal (node w1)) with (Some g) by (symmetry; exact Hg).
    replace (next_seed (node w1)) with (Some s) by (symmetry; exact Hs).
    replace (ogrid (node w1)) with (@None OGrid) by (symmetry; exact Hgrid).
    destruct b; [reflexivity | reflexivity | contradiction]. }
  exists w1. split; [| split; reflexivity].
  unfold decide. rewrite !run_bind. rewrite run_self. cbv beta.
  replace (time_till_issue (node (locked w))) with (@None Time)
    by (symmetry; exact Htti).
  unfold no_issue. rewrite !run_bind. rewrite run_self. cbv beta.
  replace (last_update_time (node (locked w))) with (@None R)
    by (symmetry; exact Hlast).
  replace (stuck (node (locked w))) with false by (symmetry; exact Hstuck).
  cbn [is_some negb]. rewrite andb_false_r. cbn [andb].
  rewrite !run_bind, run_ret. unfold select. rewrite !run_bind.
  rewrite (run_done _ _ _ Hb). cbv beta. rewrite !run_bind, run_assign.
  cbv beta.
  fold w1. rewrite !run_bind. now rewrite (run_raised _ _ _ He).
Qed.

(** What "Check given focus" leaves for a skid: a goal, the clock as it
    was, and the other attributes. *)
Lemma check_focus_skid (msg : MoveGoal) (w : World) (g : State) :
  move_type (node w) = Some "skid"%string ->
  goal (node w) = Some g ->
  exists w' g',
    check_focus msg w = Done tt w' /\
    node w' = with_goal (Some g') (node w) /\
    ticks w' = ticks w.
Proof.
  intros Hm Hg. unfold check_focus. rewrite run_self. cbv beta.
  destruct (msg_focus msg) as [[focus_x focus_y] focus_z].
  unfold move_type_is. rewrite Hm.
  replace (String.eqb "skid" "skid") with true by reflexivity.
  destruct (np.eqb focus_z 0).
  - eexists. exists g. split; [reflexivity |]. split; [| reflexivity].
    cbn. destruct w as [n st k o]. cbn in *. destruct n. cbn in *.
    now rewrite Hg.
  - rewrite run_on_store. cbv beta.
    replace (goal (node w)) with (Some g) by (symmetry; exact Hg).
    rewrite run_need.
    erewrite run_done by apply set_goal_done.
    eexists. eexists. split; [reflexivity |]. split; reflexivity.
Qed.

(** X19. A skid requested before any occupancy grid has arrived does not
    get to plan: the first iteration raises [UnboundLocalError] out of
    [move_cb], with the lock of [tree_chain] taken and [done] lowered. *)
Theorem move_cb_skid_without_grid (fuel : nat) (msg : MoveGoal) (w : World)
        (x : State) :
  state (node w) = Some x ->
  ogrid (node w) = None ->
  busy (node w) = false ->
  msg_move_type msg = "skid"%string ->
  is_shutdown_at (ticks w) = false ->
  exists w',
    move_cb (S fuel) msg w = Raised UnboundLocalError w' /\
    busy (node w') = true /\ done (node w') = false.
Proof.
  intros Hx Hgrid Hbusy Hm Hup.
  rewrite (move_cb_prepared (S fuel) msg w) by congruence. rewrite Hm.
  replace (existsb (String.eqb "skid") known_move_types) with true
    by reflexivity.
  cbn [negb]. rewrite run_assign. cbv beta.
  set (w1 := with_node _ (prepared msg w)).
  destruct (@check_focus_skid msg w1 (unpack_pose (msg_goal msg))
              eq_refl eq_refl) as (w2 & g' & Hfocus & Hn2 & Ht2).
  rewrite (run_done _ _ _ Hfocus). rewrite run_self. cbv beta.
  rewrite Hn2.
  replace (move_type_is _ "hold") with false by reflexivity.
  replace (move_type_is _ "circle") with false by reflexivity.
  replace (move_type_is _ "drive") with false by reflexivity.
  replace (move_type_is _ "skid") with true by reflexivity.
  replace (state _) with (Some x) by (symmetry; exact Hx).
  rewrite !run_bind. rewrite run_need. cbv beta.
  rewrite !run_bind. rewrite run_assign. cbv beta.
  set (w2' := with_node _ w2).
  rewrite run_assign. cbv beta.
  set (w3 := with_node _ w2').
  rewrite run_self. cbv beta.
  replace (is_some (next_seed (node w3))) with true by reflexivity.
  replace (is_some (next_runtime (node w3))) with true by reflexivity.
  rewrite !run_ret.
  cbn [chaining_loop]. unfold is_shutdown at 1. unfold bind at 1.
  replace (is_shutdown_at (ticks w3)) with false
    by (symmetry; rewrite <- Hup; f_equal; exact Ht2).
  set (w4 := with_ticks _ w3).
  assert (Hn4 : node w4 =
                with_next_seed (Some x)
                  (with_next_runtime (Some (basic_duration params))
                     (with_goal (Some g') (node w1))))
    by (subst w4 w3 w2'; cbn [node with_node with_ticks]; now rewrite Hn2).
  destruct (@tree_chain_unbound (S fuel) w4 g' x) as (w' & Hrun & Hb & Hd);
    try (rewrite Hn4; reflexivity).
  - rewrite Hn4. exact Hbusy.
  - rewrite Hn4. exact Hgrid.
  - right. rewrite Hn4. reflexivity.
  - exists w'. rewrite (run_raised _ _ _ Hrun).
    split; [reflexivity |]. split; [exact Hb |].
    rewrite Hd, Hn4. reflexivity.
Qed.

End Moves.

(** ** The rotation move *)

Lemma np_leb_le (a b : R) : np.leb a b = true -> a <= b.
Proof. unfold np.leb. now destruct (Rle_dec a b). Qed.

Lemma last_item_snoc {A} (l : list A) (a : A) : last_item (l ++ [a]) = Some a.
Proof.
  unfold last_item. rewrite length_app. cbn [List.length].
  replace (List.length l + 1 - 1)%nat with (List.length l) by lia.
  rewrite nth_error_app2 by lia.
  now replace (List.length l - List.length l)%nat with 0%nat by lia.
Qed.

Section Rotation.

Context {C : Collaborators}.

(** What the loop returns, started with [n] rows already simulated in
    [n * dt] seconds. *)
Lemma rotation_loop_result (fuel : nat) :
  forall (x xg : State) (tol dt_ : R) (xs0 : list State)
         (us0 : list Effort) (T : R) (u : Effort) (w w' : World)
         (xs : list State) (T' : R) (ok : bool) (us : list Effort),
    List.length xs0 = List.length us0 ->
    T = INR (List.length xs0) * dt_ ->
    rotation_loop fuel x xg tol dt_ xs0 us0 T u w
      = Done (Some (xs, T', ok, us)) w' ->
    List.length xs = List.length us /\
    node w' = node w /\ store w' = store w /\ out w' = out w /\
    (ok = true ->
     exists more x_last,
       xs = xs0 ++ x :: more /\
       last_item xs = Some x_last /\
       Rabs (angle_diff (sh xg) (sh x_last)) <= tol /\
       T' = INR (List.length xs - 1) * dt_).
Proof.
  induction fuel as [| fuel IH]; intros until us; intros Hlen HT;
    cbn [rotation_loop]; [discriminate |].
  unfold is_shutdown at 1. unfold bind at 1.
  destruct (is_shutdown_at (ticks w)); [discriminate |].
  rewrite run_self. cbv beta.
  cbn [node with_ticks].
  destruct (negb (is_feasible (node w) _ zeros3) && _).
  - intros [= <- <- <- <- <-].
    split; [unfold prefix; rewrite !length_firstn, Hlen; reflexivity |].
    repeat (split; [reflexivity |]). discriminate.
  - destruct (np.leb (Rabs (sh (erf xg x))) tol) eqn:Htol.
    + intros [= <- <- <- <- <-].
      split; [rewrite !length_app, Hlen; reflexivity |].
      repeat (split; [reflexivity |]). intros _.
      exists [], x. split; [reflexivity |].
      split; [apply last_item_snoc |].
      split; [exact (np_leb_le _ _ Htol) |].
      rewrite length_app. cbn [List.length].
      replace (List.length xs0 + 1 - 1)%nat with (List.length xs0) by lia.
      exact HT.
    + rewrite run_behaviors. cbv beta. intros Hrun.
      apply IH in Hrun.
      * destruct Hrun as (H1 & H2 & H3 & H4 & H5).
        split; [exact H1 |]. repeat (split; [assumption |]).
        intros Hok. destruct (H5 Hok) as (more & x_last & E & Hl & Ht & HT').
        exists (boat_dynamics (store w) x
                  (mkEffort (3 * fx (boat_lqr_gain (store w) x u (erf xg x)))
                            (3 * fy (boat_lqr_gain (store w) x u (erf xg x)))
                            (3 * tz (boat_lqr_gain (store w) x u (erf xg x))))
                  dt_ :: more), x_last.
        split; [rewrite E, <- app_assoc; reflexivity |].
        repeat (split; [assumption |]). exact HT'.
      * rewrite !length_app, Hlen. reflexivity.
      * rewrite length_app. cbn [List.length]. rewrite plus_INR, HT.
        cbn [INR]. ring.
Qed.

(** X20. What [rotation_move] returns.  The state and the effort
    sequence have the same length, and the node is not written.  On
    success the sequence starts with the state given, ends with a state
    whose heading is within [tol] of [h], and the duration is one [dt]
    per step taken. *)
Theorem rotation_move_result (fuel : nat) (x : State) (h tol dt_ : R)
        (w w' : World) (xs : list State) (T : R) (ok : bool)
        (us : list Effort) :
  rotation_move fuel x h tol dt_ w = Done (Some (xs, T, ok, us)) w' ->
  List.length xs = List.length us /\
  node w' = node w /\ store w' = store w /\ out w' = out w /\
  (ok = true ->
   exists rest x_last,
     xs = x :: rest /\
     last_item xs = Some x_last /\
     Rabs (angle_diff h (sh x_last)) <= tol /\
     T = INR (List.length rest) * dt_).
Proof.
  unfold rotation_move. intros Hrun.
  apply rotation_loop_result in Hrun; [| reflexivity | cbn; ring].
  destruct Hrun as (H1 & H2 & H3 & H4 & H5).
  split; [exact H1 |]. repeat (split; [assumption |]).
  intros Hok. destruct (H5 Hok) as (more & x_last & E & Hl & Ht & HT).
  exists more, x_last. cbn [app sh] in *. subst xs.
  repeat (split; [assumption || reflexivity |]).
  cbn [List.length] in HT.
  now replace (S (List.length more) - 1)%nat with (List.length more) in HT
    by lia.
Qed.

(** X21. A vehicle already within [tol] of the heading is not moved:
    the move is the state given alone, with zero effort and zero
    duration, and it is a success on every node, whatever the grid holds
    at that pose. *)
Theorem rotation_move_aligned (fuel : nat) (x : State) (h tol dt_ : R)
        (w : World) :
  is_shutdown_at (ticks w) = false ->
  Rabs (angle_diff h (sh x)) <= tol ->
  rotation_move (S fuel) x h tol dt_ w =
  Done (Some ([x], 0, true, [zeros3])) (with_ticks (S (ticks w)) w).
Proof.
  intros Hup Htol. unfold rotation_move. cbn [rotation_loop].
  unfold is_shutdown at 1. unfold bind at 1. rewrite Hup.
  rewrite run_self. cbv beta. cbn [List.length Nat.eqb negb].
  rewrite andb_false_r. cbn [app erf sh].
  unfold np.leb. destruct (Rle_dec _ tol); [reflexivity | contradiction].
Qed.


End Rotation.

(** ** The subscribers *)

#[export] Instance only_issue_frame : Frame only_issue.
Proof.
  split.
  - intros n. repeat split.
  - intros a b c Hab Hbc. unfold only_issue in *.
    repeat match goal with H : _ /\ _ |- _ => destruct H end.
    repeat split; congruence.
Qed.

#[export] Instance only_odom_frame : Frame only_odom.
Proof.
  split.
  - intros n. repeat split.
  - intros a b c Hab Hbc. unfold only_odom in *.
    repeat match goal with H : _ /\ _ |- _ => destruct H end.
    repeat split; congruence.
Qed.

Lemma np_eqb_false (a b : R) : a <> b -> np.eqb a b = false.
Proof. intros H. unfold np.eqb. now destruct (Req_dec_T a b). Qed.

Section PlanCheck.

Context {C : Collaborators} {N : Numpy}.

Ltac keeps_more :=
  lazymatch goal with
  | |- keeps _ (call_get_ref _) => apply call_get_ref_keeps; exact _
  | |- keeps _ kill_all => unfold kill_all
  | _ => keeps_step
  end.

Lemma clear_path_again_only_issue : keeps only_issue clear_path_again.
Proof.
  unfold clear_path_again. repeat keeps_more; repeat split.
Qed.

Lemma reevaluate_plan_only_issue : keeps only_issue reevaluate_plan.
Proof.
  unfold reevaluate_plan.
  repeat first [ apply clear_path_again_only_issue | keeps_more ];
    repeat split.
Qed.

(** Nothing is sent out. *)
Lemma silent_bind {A B} (m : M A) (k : A -> M B) (w : World) :
  out (final (m w)) = out w ->
  (forall a w1, out (final (k a w1)) = out w1) ->
  out (final (bind m k w)) = out w.
Proof.
  intros Hm Hk. unfold bind.
  destruct (m w) as [a w1 | e w1]; cbn [final] in *; [| exact Hm].
  now rewrite Hk.
Qed.

Lemma call_get_ref_silent (t : R) (w : World) :
  out (final (call_get_ref t w)) = out w.
Proof.
  unfold call_get_ref, bind, self, need, behaviors, ret, raise.
  destruct (get_ref (node w)); reflexivity.
Qed.

Lemma clear_path_again_silent (w : World) :
  out (final (clear_path_again w)) = out w.
Proof.
  unfold clear_path_again. rewrite run_self. cbv beta.
  destruct (behavior_is _ escape); [| reflexivity].
  apply silent_bind; [reflexivity |]. intros now w1.
  apply silent_bind; [destruct (last_update_time (node w)); reflexivity |].
  intros last w2.
  apply silent_bind; [apply call_get_ref_silent |]. intros start w3.
  apply silent_bind; [destruct (goal (node w)); reflexivity |].
  intros goal_x w4.
  apply silent_bind; [destruct start; reflexivity |]. intros start' w5.
  apply silent_bind; [destruct (sline_rows _ _ _ _); reflexivity |].
  intros sline w6.
  destruct (forallb _ _); reflexivity.
Qed.

Lemma reevaluate_plan_silent (w : World) :
  out (final (reevaluate_plan w)) = out w.
Proof.
  unfold reevaluate_plan. rewrite run_self. cbv beta.
  destruct (is_some _); [reflexivity |].
  destruct (last_update_time (node w)); [| reflexivity].
  destruct (x_seq (node w)); [| reflexivity].
  rewrite run_rostime. cbv beta.
  destruct (np.eqb _ 0); [reflexivity |].
  destruct (first_infeasible _ _ 0); [reflexivity |].
  change (out w) with (out (with_ticks (S (ticks w)) w)).
  apply silent_bind; [apply clear_path_again_silent |].
  intros returned w1. destruct returned; reflexivity.
Qed.

Lemma kill_all_done (w : World) :
  kill_all w = Done tt (with_store (on_all kill_update (store w)) w).
Proof. reflexivity. Qed.

(** The loop over the rows stops at the first one that is not
    feasible. *)
Lemma first_infeasible_found (n : Node) (p_seq : list State) (k i : nat)
      (x : State) :
  nth_error p_seq i = Some x ->
  is_feasible n x zeros3 = false ->
  (forall j y, (j < i)%nat -> nth_error p_seq j = Some y ->
               is_feasible n y zeros3 = true) ->
  first_infeasible n p_seq k = Some (k + i)%nat.
Proof.
  revert k i. induction p_seq as [| y rest IH]; intros k i Hn Hx Hbefore.
  - destruct i; discriminate.
  - destruct i as [| i]; cbn in *.
    + injection Hn as ->. rewrite Hx. f_equal. lia.
    + rewrite (Hbefore 0%nat y) by (lia || reflexivity).
      rewrite (IH (S k) i Hn Hx).
      * f_equal. lia.
      * intros j z Hj Hz. apply (Hbefore (S j) z); [lia | exact Hz].
Qed.

Lemma first_infeasible_none (n : Node) (p_seq : list State) (k : nat) :
  Forall (fun x => is_feasible n x zeros3 = true) p_seq ->
  first_infeasible n p_seq k = None.
Proof.
  intros H. revert k. induction H as [| x rest Hx _ IH]; intros k;
    [reflexivity |].
  cbn. rewrite Hx. apply IH.
Qed.

(** [reevaluate_plan] up to the search for a collision. *)
Lemma reevaluate_plan_checks (w : World) (last : R) (xs : list State) :
  time_till_issue (node w) = None ->
  last_update_time (node w) = Some last ->
  x_seq (node w) = Some xs ->
  dt params <> 0 ->
  reevaluate_plan w =
  (match first_infeasible (node w)
           (map at_rest
                (suffix xs (np.trunc ((rostime_at (ticks w) - last)
                                      / dt params)))) 0 with
   | Some i =>
       assign (with_time_till_issue (Some (Finite (INR i * dt params)))) ;;
       kill_all ;;
       ret (inr tt)
   | None =>
       returned <- clear_path_again ;;
       if returned then ret (inr tt) else
       assign (with_time_till_issue None) ;;
       ret (inr tt)
   end) (with_ticks (S (ticks w)) w).
Proof.
  intros Htti Hlast Hxs Hdt. unfold reevaluate_plan.
  rewrite run_self. cbv beta. rewrite Htti, Hlast, Hxs. cbn [is_some].
  rewrite run_rostime. cbv beta. rewrite (np_eqb_false Hdt). reflexivity.
Qed.

(** X24. The plan check writes [time_till_issue], [move_type], [stuck]
    and [stuck_count] and no other attribute, and it publishes nothing,
    however it ends. *)
Theorem reevaluate_plan_writes (w : World) :
  only_issue (node w) (node (final (reevaluate_plan w))) /\
  out (final (reevaluate_plan w)) = out w.
Proof.
  split; [apply reevaluate_plan_only_issue | apply reevaluate_plan_silent].
Qed.

(** X25. With a plan and no issue pending, the check finds the first
    remaining row of the plan whose pose is not feasible: the time till
    the issue is that row's index times [dt], counted from the row the
    clock has reached, and every planner is told to stop its update. *)
Theorem reevaluate_plan_collision (w : World) (last : R) (xs : list State)
        (i : nat) (x : State) :
  time_till_issue (node w) = None ->
  last_update_time (node w) = Some last ->
  x_seq (node w) = Some xs ->
  dt params <> 0 ->
  nth_error (suffix xs (np.trunc ((rostime_at (ticks w) - last) / dt params)))
            i = Some x ->
  is_feasible (node w) (at_rest x) zeros3 = false ->
  (forall j y,
      (j < i)%nat ->
      nth_error (suffix xs (np.trunc ((rostime_at (ticks w) - last)
                                      / dt params))) j = Some y ->
      is_feasible (node w) (at_rest y) zeros3 = true) ->
  reevaluate_plan w =
  Done (inr tt)
       (with_store (on_all kill_update (store w))
          (with_node (with_time_till_issue
                        (Some (Finite (INR i * dt params))) (node w))
             (with_ticks (S (ticks w)) w))).
Proof.
  intros Htti Hlast Hxs Hdt Hn Hx Hbefore.
  rewrite (reevaluate_plan_checks w Htti Hlast Hxs Hdt).
  rewrite (@first_infeasible_found (node w) _ 0 i (at_rest x)).
  - reflexivity.
  - now rewrite nth_error_map, Hn.
  - exact Hx.
  - intros j y Hj Hy. rewrite nth_error_map in Hy.
    destruct (nth_error _ j) as [y0 |] eqn:E; [| discriminate].
    injection Hy as <-. exact (Hbefore j y0 Hj E).
Qed.

(** X26. When every remaining row of the plan is feasible and the node is
    not escaping, the check leaves the node as it was, with no issue. *)
Theorem reevaluate_plan_no_collision (w : World) (last : R)
        (xs : list State) :
  time_till_issue (node w) = None ->
  last_update_time (node w) = Some last ->
  x_seq (node w) = Some xs ->
  dt params <> 0 ->
  Forall (fun x => is_feasible (node w) (at_rest x) zeros3 = true)
         (suffix xs (np.trunc ((rostime_at (ticks w) - last) / dt params))) ->
  enroute_behavior (node w) <> Some escape ->
  reevaluate_plan w = Done (inr tt) (with_ticks (S (ticks w)) w).
Proof.
  intros Htti Hlast Hxs Hdt Hall Hesc.
  rewrite (reevaluate_plan_checks w Htti Hlast Hxs Hdt).
  rewrite first_infeasible_none by (apply Forall_map; exact Hall).
  unfold clear_path_again. rewrite !run_bind, run_self. cbv beta.
  replace (behavior_is _ escape) with false.
  - rewrite run_ret. destruct w as [n s k o]. cbn in *.
    destruct n. cbn in *. subst. reflexivity.
  - symmetry. cbn [node with_ticks].
    destruct (enroute_behavior (node w)) as [[] |]; try reflexivity.
    contradiction.
Qed.

(** X27. When the node is escaping, every remaining row of the plan is
    feasible and every pose of the straight line from the reference to
    the goal is feasible, the check gives up the escape: the issue is at
    infinity, the move becomes a drive whatever it was, the stuck
    detector is cleared, and every planner is told to stop. *)
Theorem reevaluate_plan_clear_path (w : World) (last : R) (xs : list State)
        (f : RefFn) (start goal_x : State) (sline : list State) :
  time_till_issue (node w) = None ->
  last_update_time (node w) = Some last ->
  x_seq (node w) = Some xs ->
  dt params <> 0 ->
  Forall (fun x => is_feasible (node w) (at_rest x) zeros3 = true)
         (suffix xs (np.trunc ((rostime_at (ticks w) - last) / dt params))) ->
  enroute_behavior (node w) = Some escape ->
  get_ref (node w) = Some f ->
  goal (node w) = Some goal_x ->
  eval_ref f (node w) (store w) (rostime_at (S (ticks w)) - last)
    = Some start ->
  sline_rows start goal_x (np.norm (vsub (xy goal_x) (xy start)))
             (vps_spacing params) = inr sline ->
  Forall (fun x => is_feasible (node w) x zeros3 = true) sline ->
  reevaluate_plan w =
  Done (inr tt)
       (with_node
          (with_stuck_count 0%Z
             (with_stuck false
                (with_move_type (Some "drive"%string)
                   (with_time_till_issue (Some Inf) (node w)))))
          (with_store (on_all kill_update (store w))
             (with_ticks (S (S (ticks w))) w))).
Proof.
  intros Htti Hlast Hxs Hdt Hall Hesc Href Hgoal Hstart Hline Hclear.
  rewrite (reevaluate_plan_checks w Htti Hlast Hxs Hdt).
  rewrite first_infeasible_none by (apply Forall_map; exact Hall).
  unfold clear_path_again, call_get_ref.
  rewrite ?run_bind, run_self. cbv beta. cbn [node with_ticks].
  rewrite Hesc. cbn [behavior_is behavior_eqb].
  rewrite ?run_bind, run_rostime. cbv beta. cbn [node ticks with_ticks].
  rewrite Hlast, ?run_bind, run_need. cbv beta.
  rewrite ?run_bind, run_self. cbv beta. cbn [node with_ticks].
  rewrite Href, ?run_bind, run_need. cbv beta.
  rewrite ?run_bind, run_behaviors. cbv beta.
  rewrite ?run_bind, run_ret. cbv beta.
  cbn [node store with_ticks].
  rewrite Hgoal, ?run_bind, run_need. cbv beta.
  rewrite Hstart, ?run_bind, run_need. cbv beta.
  rewrite Hline. cbn [lift]. rewrite ?run_bind, run_ret. cbv beta.
  replace (forallb (fun c => c) (map (fun x => is_feasible (node w) x zeros3)
                                     sline)) with true.
  - reflexivity.
  - symmetry. apply forallb_forall. intros c Hc.
    apply in_map_iff in Hc. destruct Hc as (x & <- & Hx).
    rewrite Forall_forall in Hclear. now apply Hclear.
Qed.

(** *** The grid *)

Lemma reshape_getitem (data : list Z) (h w : nat) (a : np.ndarray)
      (r c : nat) :
  reshape data h w = Some a ->
  (r < h)%nat -> (c < w)%nat ->
  np.getitem a (Z.of_nat r) (Z.of_nat c) = nth_error data (r * w + c).
Proof.
  unfold reshape. destruct (Nat.eqb_spec (List.length data) (h * w));
    [| discriminate].
  intros [= <-] Hr Hc.
  rewrite getitem_inside.
  - rewrite !Nat2Z.id, item_tabulate by assumption.
    symmetry. apply nth_error_nth'. nia.
  - unfold cv2.inside. cbn [fst snd np.tabulate np.shape0 np.shape1].
    repeat (apply andb_true_intro; split);
      first [apply Z.leb_le | apply Z.ltb_lt]; lia.
Qed.

(** X28. [ogrid_cb] stores the data row after row.  Data whose size is
    not height times width is refused with [ValueError] before anything
    is stored.  Otherwise, with a resolution other than zero, the grid of
    the node holds the cell [data[r * width + c]] at row [r], column
    [c], the origin of the message, and one over the resolution as cells
    per meter, however the plan check that follows ends. *)
Theorem ogrid_cb_stores (msg : OccupancyGrid) (w : World) :
  (List.length (msg_data msg) <> (info_height msg * info_width msg)%nat ->
   ogrid_cb msg w = Some (Raised ValueError w)) /\
  (List.length (msg_data msg) = (info_height msg * info_width msg)%nat ->
   info_resolution msg <> 0 ->
   exists res g,
     ogrid_cb msg w = Some res /\
     ogrid (node (final res)) = Some g /\
     origin g = info_origin msg /\
     cpm g = 1 / info_resolution msg /\
     forall r c,
       (r < info_height msg)%nat -> (c < info_width msg)%nat ->
       np.getitem (cells g) (Z.of_nat r) (Z.of_nat c)
       = nth_error (msg_data msg) (r * info_width msg + c)).
Proof.
  unfold ogrid_cb. split.
  - intros Hsize. unfold reshape.
    now destruct (Nat.eqb_spec (List.length (msg_data msg))
                               (info_height msg * info_width msg)).
  - intros Hsize Hres.
    destruct (reshape (msg_data msg) (info_height msg) (info_width msg))
      as [a |] eqn:Ha.
    + rewrite (np_eqb_false Hres).
      set (g := mkOGrid a (info_origin msg) (1 / info_resolution msg)).
      set (w1 := with_node (with_ogrid (Some g) (node w)) w).
      exists (reevaluate_plan w1), g. split; [reflexivity |].
      pose proof (reevaluate_plan_only_issue w1) as Hk.
      destruct Hk as (Hgrid & _). split; [exact Hgrid |].
      split; [reflexivity |]. split; [reflexivity |].
      intros r c Hr Hc. exact (@reshape_getitem _ _ _ _ r c Ha Hr Hc).
    + unfold reshape in Ha. rewrite Hsize, Nat.eqb_refl in Ha. discriminate.
Qed.

(** *** Odometry *)

Lemma odom_cb_only_odom (msg : Odometry) : keeps only_odom (odom_cb msg).
Proof.
  unfold odom_cb. cbv zeta. repeat keeps_more; repeat split.
Qed.

Lemma odom_cb_state (msg : Odometry) (w : World) :
  state (node (final (odom_cb msg w))) = Some (unpack_odom msg).
Proof.
  unfold odom_cb. cbv zeta. rewrite run_assign. cbv beta.
  rewrite run_self. cbv beta. cbn [node with_node].
  destruct (get_ref _) as [f |]; [| reflexivity].
  destruct (last_update_time _) as [last |]; [| reflexivity].
  rewrite run_rostime. cbv beta.
  unfold call_get_ref. rewrite ?run_bind, run_self. cbv beta.
  cbn [node with_node with_ticks].
  destruct (get_ref _) as [f' |]; [| reflexivity].
  rewrite ?run_bind, run_need. cbv beta.
  rewrite ?run_bind, run_behaviors. cbv beta.
  rewrite ?run_bind, run_ret. cbv beta.
  destruct (eval_ref _ _ _ _) as [r |]; [| reflexivity].
  rewrite run_need. destruct (all_below_twice _ _); reflexivity.
Qed.

(** X29. [odom_cb] always stores the state of the message, also when an
    exception leaves it, and writes no attribute other than [state] and
    [tracking].  Without a reference or an update time it leaves
    [tracking] alone; with both, it sets [tracking] to whether every
    component of the error against the reference is strictly below twice
    its tolerance. *)
Theorem odom_cb_tracking (msg : Odometry) (w : World) :
  state (node (final (odom_cb msg w))) = Some (unpack_odom msg) /\
  only_odom (node w) (node (final (odom_cb msg w))) /\
  (get_ref (node w) = None \/ last_update_time (node w) = None ->
   tracking (node (final (odom_cb msg w))) = tracking (node w)) /\
  (forall (f : RefFn) (last : R) (r : State),
      get_ref (node w) = Some f ->
      last_update_time (node w) = Some last ->
      eval_ref f (with_state (Some (unpack_odom msg)) (node w)) (store w)
               (rostime_at (ticks w) - last) = Some r ->
      tracking (node (final (odom_cb msg w))) =
      Some (all_below_twice (erf r (unpack_odom msg)) (real_tol params))).
Proof.
  split; [apply odom_cb_state | split; [apply odom_cb_only_odom |]].
  split.
  - intros Hno. unfold odom_cb. cbv zeta. rewrite run_assign. cbv beta.
    rewrite run_self. cbv beta. cbn [node with_node].
    change (get_ref (with_state (Some (unpack_odom msg)) (node w)))
      with (get_ref (node w)).
    change (last_update_time (with_state (Some (unpack_odom msg)) (node w)))
      with (last_update_time (node w)).
    destruct Hno as [-> | Hno]; [reflexivity |].
    rewrite Hno. now destruct (get_ref (node w)).
  - intros f last r Hf Hlast Hr.
    unfold odom_cb. cbv zeta. rewrite run_assign. cbv beta.
    rewrite run_self. cbv beta. cbn [node with_node].
    change (get_ref (with_state (Some (unpack_odom msg)) (node w)))
      with (get_ref (node w)).
    change (last_update_time (with_state (Some (unpack_odom msg)) (node w)))
      with (last_update_time (node w)).
    rewrite Hf, Hlast. rewrite run_rostime. cbv beta.
    unfold call_get_ref. rewrite ?run_bind, run_self. cbv beta.
    cbn [node with_node with_ticks].
    change (get_ref (with_state (Some (unpack_odom msg)) (node w)))
      with (get_ref (node w)).
    rewrite Hf. rewrite ?run_bind, run_need. cbv beta.
    rewrite ?run_bind, run_behaviors. cbv beta.
    rewrite ?run_bind, run_ret. cbv beta.
    cbn [node store ticks with_node with_ticks].
    rewrite Hr, run_need.
    destruct (all_below_twice _ _); reflexivity.
Qed.

End PlanCheck.

(** ** What the action sends *)

Section Sending.

Context {C : Collaborators}.

Variable P : Event -> Prop.

Lemma sends_nothing {A} (m : M A) :
  (forall w, out (final (m w)) = out w) -> sends P m.
Proof.
  intros H w. exists []. rewrite app_nil_r. split; [apply H | constructor].
Qed.

Lemma sends_ret {A} (a : A) : sends P (ret a).
Proof. now apply sends_nothing. Qed.

Lemma sends_raise {A} (e : Exn) : sends P (@raise C A e).
Proof. now apply sends_nothing. Qed.

Lemma sends_self : sends P self.
Proof. now apply sends_nothing. Qed.

Lemma sends_behaviors : sends P behaviors.
Proof. now apply sends_nothing. Qed.

Lemma sends_on_store (f : Store -> Store) : sends P (on_store f).
Proof. now apply sends_nothing. Qed.

Lemma sends_rostime : sends P rostime.
Proof. now apply sends_nothing. Qed.

Lemma sends_is_shutdown : sends P is_shutdown.
Proof. now apply sends_nothing. Qed.

Lemma sends_assign (f : Node -> Node) : sends P (assign f).
Proof. now apply sends_nothing. Qed.

Lemma sends_need {A} (e : Exn) (o : option A) : sends P (need e o).
Proof. destruct o; [apply sends_ret | apply sends_raise]. Qed.

Lemma sends_lift {A} (r : Exn + A) : sends P (lift r).
Proof. destruct r; [apply sends_raise | apply sends_ret]. Qed.

Lemma sends_emit (e : Event) : P e -> sends P (emit e).
Proof.
  intros He w. exists [e]. split; [reflexivity | now constructor].
Qed.

Lemma sends_bind {A B} (m : M A) (k : A -> M B) :
  sends P m -> (forall a, sends P (k a)) -> sends P (bind m k).
Proof.
  intros Hm Hk w. unfold bind. destruct (Hm w) as (s1 & H1 & F1).
  destruct (m w) as [a w1 | e w1]; cbn [final] in H1.
  - destruct (Hk a w1) as (s2 & H2 & F2).
    exists (s1 ++ s2). rewrite H2, H1, app_assoc.
    split; [reflexivity | now apply Forall_app].
  - exists s1. now split.
Qed.

Lemma sends_for_each {A} (l : list A) (body : A -> M unit) :
  (forall a, sends P (body a)) -> sends P (for_each l body).
Proof.
  intros Hb. induction l as [| a l IH]; cbn [for_each].
  - apply sends_ret.
  - apply sends_bind; [apply Hb | intros _; exact IH].
Qed.

End Sending.

Ltac sends_step :=
  lazymatch goal with
  | |- sends _ (bind _ _) => apply sends_bind; [| intros ?]
  | |- sends _ (ret _) => apply sends_ret
  | |- sends _ (raise _) => apply sends_raise
  | |- sends _ self => apply sends_self
  | |- sends _ behaviors => apply sends_behaviors
  | |- sends _ (on_store _) => apply sends_on_store
  | |- sends _ rostime => apply sends_rostime
  | |- sends _ is_shutdown => apply sends_is_shutdown
  | |- sends _ (need _ _) => apply sends_need
  | |- sends _ (lift _) => apply sends_lift
  | |- sends _ (for_each _ _) => apply sends_for_each; intros ?
  | |- sends _ (assign _) => apply sends_assign
  | |- sends _ (emit _) => apply sends_emit
  | |- sends _ (if ?b then _ else _) => destruct b
  | |- sends _ (match ?x with _ => _ end) => destruct x
  end.

Section ActionSends.

Context {C : Collaborators}.


Ltac sending := repeat sends_step; try (unfold no_odom_abort; discriminate).

Lemma reset_sends : sends no_odom_abort reset.
Proof. unfold reset. sending. Qed.

Lemma set_goal_sends (x : State) : sends no_odom_abort (set_goal x).
Proof. unfold set_goal. sending. Qed.

Lemma call_get_ref_sends (t : R) : sends no_odom_abort (call_get_ref t).
Proof. unfold call_get_ref. sending. Qed.

Lemma publish_sends :
  sends no_odom_abort publish_tree /\ sends no_odom_abort publish_path /\
  sends no_odom_abort publish_expl.
Proof.
  unfold publish_tree, publish_path, publish_expl.
  repeat split; sending.
Qed.

Lemma check_focus_sends (msg : MoveGoal) : sends no_odom_abort (check_focus msg).
Proof.
  unfold check_focus.
  repeat first [ apply set_goal_sends | sends_step ];
    try (unfold no_odom_abort; discriminate).
Qed.

Lemma rotation_loop_sends (fuel : nat) :
  forall x xg tol dt_ x_seq u_seq T u,
    sends no_odom_abort (rotation_loop fuel x xg tol dt_ x_seq u_seq T u).
Proof.
  induction fuel as [| fuel IH]; intros; cbn [rotation_loop].
  - apply sends_raise.
  - repeat first [ apply IH | sends_step ].
Qed.

Lemma standard_driving_sends (fuel : nat) :
  sends no_odom_abort (standard_driving fuel).
Proof.
  unfold standard_driving, rotation_move.
  repeat first [ apply rotation_loop_sends | sends_step ].
Qed.

Lemma decide_sends (fuel : nat) : sends no_odom_abort (decide fuel).
Proof.
  unfold decide, no_issue, distant_issue, immediate_issue, select,
    seed_ahead, select_behavior, select_exploration, analyze_ogrid.
  repeat first [ apply call_get_ref_sends | sends_step ].
Qed.

Lemma update_and_finish_sends : sends no_odom_abort update_and_finish.
Proof.
  destruct publish_sends as (Ht & Hp & He).
  unfold update_and_finish, update, update_finished_properly,
    might_be_stuck, oddly_small, cash_in.
  repeat first [ apply call_get_ref_sends | exact Ht | exact Hp | exact He
               | sends_step ].
Qed.

Lemma tree_chain_sends (fuel : nat) : sends no_odom_abort (tree_chain fuel).
Proof.
  unfold tree_chain.
  repeat first [ apply decide_sends | apply update_and_finish_sends
               | sends_step ].
Qed.

Lemma over_and_out_sends : sends no_odom_abort over_and_out.
Proof. unfold over_and_out. sending. Qed.

Lemma chaining_loop_sends (fuel rounds : nat) :
  sends no_odom_abort (chaining_loop fuel rounds).
Proof.
  induction rounds as [| rounds IH]; cbn [chaining_loop].
  - apply sends_raise.
  - repeat first [ apply over_and_out_sends | apply tree_chain_sends
                 | apply IH | sends_step ];
      unfold no_odom_abort; discriminate.
Qed.

(** With odometry in, [move_cb] goes past its first check, and nothing
    after that check sends the rejection for missing odometry. *)
Lemma move_cb_with_odom (fuel : nat) (msg : MoveGoal) (w : World) :
  is_some (state (node w)) = true ->
  exists sent,
    out (final (move_cb fuel msg w)) = out w ++ sent /\
    Forall no_odom_abort sent.
Proof.
  intros Hs. unfold move_cb. rewrite run_assign. cbv beta.
  rewrite run_self. cbv beta. cbn [node with_node].
  change (state (with_done false (node w))) with (state (node w)).
  rewrite Hs. cbn [negb].
  match goal with
  | |- exists sent, out (final (?m ?w0)) = _ /\ _ =>
      enough (H : sends no_odom_abort m) by exact (H w0)
  end.
  repeat first [ apply reset_sends | apply set_goal_sends
               | apply check_focus_sends | apply standard_driving_sends
               | apply chaining_loop_sends | sends_step ];
    unfold no_odom_abort; discriminate.
Qed.

(** X30. Once [odom_cb] has run, however it ended, [move_cb] does not
    turn a request down for missing odometry: whatever the request, and
    however the callback ends, [set_aborted(MoveResult('odom'))] is not
    among what it sends. *)
Theorem odom_cb_then_move (fuel : nat) (msg : Odometry) (request : MoveGoal)
        (w : World) :
  exists sent,
    out (final (move_cb fuel request (final (odom_cb msg w))))
    = out (final (odom_cb msg w)) ++ sent /\
    ~ In (Aborted "odom") sent.
Proof.
  destruct (move_cb_with_odom fuel request (final (odom_cb msg w)))
    as (sent & Hout & Hall).
  { now rewrite odom_cb_state. }
  exists sent. split; [exact Hout |].
  intros Hin. rewrite Forall_forall in Hall. now apply (Hall _ Hin).
Qed.

End ActionSends.

(** ** More theorems at concrete inputs *)

Module MoreRuns.

Import Demo Scenes.

Local Abbreviation C0 := (collaborators true).
Local Abbreviation C1 := (collaborators false).

Lemma select_behavior_returns_witness :
  (escape = escape <-> stuck escaping = true).
Proof.
  exact (proj1 (proj2 (@select_behavior_returns C0 (world true escaping false)
                         (world true escaping false) escape eq_refl))).
Defined.

Lemma select_behavior_undetermined_witness :
  @select_behavior C0 (world true on_hold false)
  = Raised ValueError (world true on_hold false).
Proof.
  apply (@select_behavior_undetermined C0 (world true on_hold false)
           goal_ahead seed_near); try reflexivity; discriminate.
Defined.

Lemma select_exploration_without_grid_witness :
  @select_exploration C0 0 (world true boating false)
  = Raised UnboundLocalError (world true boating false).
Proof.
  apply (@select_exploration_without_grid C0 0 (world true boating false)
           boat goal_ahead seed_near); try reflexivity; discriminate.
Defined.

Lemma select_exploration_without_cv2_witness :
  @select_exploration C1 0 (world false carting false)
  = Raised NameError (world false carting false).
Proof.
  apply (@select_exploration_without_cv2 C1 0 (world false carting false)
           car two_cells seed_near); try reflexivity; discriminate.
Defined.

Lemma select_exploration_bias_witness :
  bias_in_range (BiasScalar 0).
Proof.
  exact (proj2 (@select_exploration_bias C0 0 (world true escaping false)
                  (world true escaping false) (BiasScalar 0)
                  (@gen_ss C0 escape seed_near goal_ahead None)
                  (@escape_guide C0 seed_near goal_ahead)
                  (@select_exploration_escape C0 0 (world true escaping false)
                     seed_near goal_ahead eq_refl eq_refl eq_refl))).
Defined.

Lemma tree_chain_fresh :
  @tree_chain C0 0 (world true fresh false)
  = Raised TypeError (locked (world true fresh false)).
Proof. reflexivity. Qed.

Lemma tree_chain_after_exception_witness :
  exists w2,
    busy (node w2) = true /\
    @tree_chain C0 1 w2 = Done None w2.
Proof.
  destruct (@tree_chain_after_exception C0 0 1 (world true fresh false) _
              TypeError tree_chain_fresh) as (w2 & _ & Hb & Hrun).
  exists w2. split; [exact Hb | exact Hrun].
Defined.

Lemma move_cb_fly :
  @move_cb C0 0 fly w_odom =
  Done false (with_out (out (prepared fly w_odom) ++ [Aborted "move_type"])
                (with_node (with_done true (node (prepared fly w_odom)))
                           (prepared fly w_odom))).
Proof.
  apply move_cb_unknown_move_type; [discriminate | reflexivity].
Qed.

Lemma move_cb_result_reported_witness :
  exists sent e,
    [GoalPub (mkState 1 2 0 0 0 0); Aborted "move_type"] = sent ++ [e] /\
    reports false e.
Proof.
  exact (@move_cb_result_reported C0 0 fly w_odom _ false move_cb_fly).
Defined.

Lemma move_cb_hold_witness :
  exists w',
    @move_cb C0 0 hold_move w_odom = Done true w' /\
    goal (node w') = Some origin_state /\
    get_ref (node w') = Some RefGoal.
Proof.
  destruct (@move_cb_hold C0 0 hold_move w_odom origin_state eq_refl eq_refl)
    as (w' & Hrun & Hg & Hr & _).
  exists w'. split; [exact Hrun |]. split; [exact Hg | exact Hr].
Defined.

Lemma move_cb_skid_without_grid_witness :
  exists w',
    @move_cb C0 1 skid_move w_odom = Raised UnboundLocalError w' /\
    busy (node w') = true /\ done (node w') = false.
Proof.
  exact (@move_cb_skid_without_grid C0 0 skid_move w_odom origin_state
           eq_refl eq_refl eq_refl eq_refl eq_refl).
Defined.

Lemma origin_aligned : Rabs (angle_diff 0 (sh origin_state)) <= 1.
Proof.
  rewrite angle_diff_minus. cbn [sh origin_state].
  replace (0 - 0) with 0 by ring.
  rewrite arctan2_sin_cos by (pose proof PI_RGT_0; lra).
  rewrite Rabs_R0. lra.
Qed.

Lemma rotation_at_origin :
  @rotation_move C0 1 origin_state 0 1 1 w_odom =
  Done (Some ([origin_state], 0, true, [zeros3])) (with_ticks 1 w_odom).
Proof.
  unfold rotation_move. cbn [rotation_loop].
  unfold is_shutdown at 1. unfold bind at 1.
  replace (@is_shutdown_at C0 (ticks w_odom)) with false by reflexivity.
  rewrite run_self. cbv beta. cbn [List.length Nat.eqb negb].
  rewrite andb_false_r. cbn [app erf sh].
  unfold np.leb. destruct (Rle_dec _ 1) as [_ | H]; [reflexivity |].
  exfalso. apply H. exact origin_aligned.
Qed.

Lemma rotation_move_result_witness :
  List.length [origin_state] = List.length [zeros3] /\
  node (with_ticks 1 w_odom) = node w_odom.
Proof.
  destruct (@rotation_move_result C0 1 origin_state 0 1 1 w_odom _ _ _ _ _
              rotation_at_origin) as (Hl & Hn & _).
  split; [exact Hl | exact Hn].
Defined.

(** The pose right of the two-cell grid is aligned with heading 0, and
    it is not feasible on the node that holds that grid. *)
Lemma right_of_grid_aligned : Rabs (angle_diff 0 (sh right_of_grid)) <= 1.
Proof.
  rewrite angle_diff_minus. cbn [sh right_of_grid].
  replace (0 - 0) with 0 by ring.
  rewrite arctan2_sin_cos by (pose proof PI_RGT_0; lra).
  rewrite Rabs_R0. lra.
Qed.

Lemma right_of_grid_infeasible :
  @is_feasible C0 blocked (at_rest right_of_grid) zeros3 = false.
Proof.
  rewrite (@is_feasible_grid C0 _ two_cells) by reflexivity.
  unfold at_rest, right_of_grid. cbn [sx sy sh].
  rewrite (FeasibilityRuns.footprint_two_cells 2).
  replace (np.getitems (cells two_cells)
             (map (fun i => (snd i, fst i)) [(2, 0)%Z]))
    with (@None (list Z)) by (vm_compute; reflexivity).
  reflexivity.
Qed.

Lemma rotation_move_aligned_witness :
  @is_feasible C0 blocked (at_rest right_of_grid) zeros3 = false /\
  @rotation_move C0 1 right_of_grid 0 1 1 (world true blocked false) =
  Done (Some ([right_of_grid], 0, true, [zeros3]))
       (with_ticks 1 (world true blocked false)).
Proof.
  split; [exact right_of_grid_infeasible |].
  apply (@rotation_move_aligned C0 0 right_of_grid 0 1 1
           (world true blocked false) eq_refl).
  exact right_of_grid_aligned.
Defined.

(** At tick 0 of the demo clock, a plan committed at time 0 with a step
    of 1 has used up none of its rows. *)
Lemma no_row_passed (xs : list State) :
  suffix xs (np.trunc ((@rostime_at C0 0 - 0) / dt (@params C0))) = xs.
Proof.
  cbn [rostime_at collaborators params demo_params dt INR].
  replace ((0 - 0) / 1) with (IZR 0) by (unfold Rdiv; rewrite Rinv_1; ring).
  rewrite trunc_IZR. unfold suffix, np.slice_bound. cbn [Z.ltb Z.compare].
  replace (Z.min 0 (Z.of_nat (List.length xs))) with 0%Z by lia.
  reflexivity.
Qed.

Lemma reevaluate_plan_collision_witness :
  exists w',
    @reevaluate_plan C0 two_ends (world true blocked false)
    = Done (inr tt) w' /\
    time_till_issue (node w') = Some (Finite (INR 0 * 1)) /\
    killed (store w') = true.
Proof.
  eexists. split.
  - apply (@reevaluate_plan_collision C0 two_ends (world true blocked false)
             0 [right_of_grid] 0 right_of_grid);
      try reflexivity.
    + cbn. lra.
    + cbn [world ticks]. now rewrite no_row_passed.
    + exact right_of_grid_infeasible.
    + intros j y Hj. lia.
  - split; reflexivity.
Defined.

Lemma reevaluate_plan_no_collision_witness :
  @reevaluate_plan C0 two_ends (world true cruising false)
  = Done (inr tt) (with_ticks 1 (world true cruising false)).
Proof.
  apply (@reevaluate_plan_no_collision C0 two_ends
           (world true cruising false) 0 [origin_state]);
    try reflexivity.
  - cbn. lra.
  - cbn [world ticks]. rewrite no_row_passed.
    repeat constructor.
  - discriminate.
Defined.

Lemma reevaluate_plan_clear_path_witness :
  exists w',
    @reevaluate_plan C0 two_ends (world true escaping_on_plan false)
    = Done (inr tt) w' /\
    time_till_issue (node w') = Some Inf /\
    move_type (node w') = Some "drive"%string /\
    killed (store w') = true.
Proof.
  eexists. split.
  - apply (@reevaluate_plan_clear_path C0 two_ends
             (world true escaping_on_plan false) 0 [origin_state]
             (RefConst origin_state) origin_state goal_ahead
             [origin_state; goal_ahead]);
      try reflexivity.
    + cbn. lra.
    + cbn [world ticks]. rewrite no_row_passed. repeat constructor.
    + repeat constructor.
  - repeat split.
Defined.

Lemma ogrid_cb_stores_witness :
  exists res g,
    @ogrid_cb C0 two_ends grid_msg w_odom = Some res /\
    ogrid (node (final res)) = Some g /\
    np.getitem (cells g) 0 1 = Some 0%Z.
Proof.
  destruct (proj2 (@ogrid_cb_stores C0 two_ends grid_msg w_odom) eq_refl)
    as (res & g & Hrun & Hg & _ & _ & Hcell).
  - cbn. lra.
  - exists res, g. split; [exact Hrun |]. split; [exact Hg |].
    exact (Hcell 0%nat 1%nat ltac:(cbn; lia) ltac:(cbn; lia)).
Defined.

Lemma odom_cb_tracking_witness :
  tracking (node (final (@odom_cb C0 odom_msg (world true fresh false))))
  = None.
Proof.
  exact (proj1 (proj2 (proj2 (@odom_cb_tracking C0 odom_msg
                                (world true fresh false))))
               (or_introl eq_refl)).
Defined.

End MoreRuns.
